(** * Notes (sticky): the note store and the note collection manager

    A shallow embedding of [src/extension.js]: the class [NotesManager]
    (the ordered list of live notes, [createNote], [postDelete],
    [_deleteNoteFiles], [_loadAllNotes]) and the class [NoteBox] (one note:
    constructor, [_loadState], [_saveState], [_loadText], [_saveText],
    [_setNotePosition], [_applyColor], [changeFontSize],
    [_deleteNoteObject]).

    What is modelled and how:
    - JavaScript numbers are [num]: [NaN] or an exact rational.  Rounding
      of doubles and the infinities are outside the model.
    - Values read from a state record are [jsval]s.
    - Note objects live in a heap and are named by references; the
      manager's [_allNotes] is a list of references, so that [indexOf(this)]
      and the renumbering of [postDelete] act on shared objects.
    - The notes directory is two finite maps keyed by the note id: the
      [<id>_state] files and the [<id>_text] files.  A state file holds what
      [JSON.parse] makes of its bytes.  Reads and writes of the directory
      always succeed.
    - [Math.random] is a stream of draws given by the host, together with
      the primary monitor's size.
    - [log] and [Main.notify] append to a journal.
    - Calls into the toolkit and into GLib and Gio do not throw, with one
      exception: the manager's module binds [Gio] to a namespace object, so
      that [Gio.File.new_for_path] throws in [_deleteNoteFiles].
    - The pointer handlers of a note ([_onMovePress], [_onMoveMotion],
      [_moveTo], [_onRelease]) pass along the fields that only they use,
      and the entries of the two submenus of [NoteOptionsMenu] are two
      tables.
    - Widgets, styles and layers of the toolkit are not modelled. *)

From Stdlib Require Import QArith Qround Qminmax Qabs Lqa ZArith Lia Ascii String.
From stdpp Require Import gmap strings list pretty.

Local Open Scope string_scope.
Local Open Scope list_scope.
Local Open Scope Z_scope.

(** ** JavaScript numbers *)

Module JS.

Inductive num : Type :=
| NaN
| Fin (q : Q).

Definition of_Z (z : Z) : num := Fin (inject_Z z).

Definition isNaN (n : num) : bool :=
  match n with NaN => true | Fin _ => false end.

Definition add (a b : num) : num :=
  match a, b with
  | Fin x, Fin y => Fin (x + y)%Q
  | _, _ => NaN
  end.

Definition sub (a b : num) : num :=
  match a, b with
  | Fin x, Fin y => Fin (x - y)%Q
  | _, _ => NaN
  end.

Definition mul (a b : num) : num :=
  match a, b with
  | Fin x, Fin y => Fin (x * y)%Q
  | _, _ => NaN
  end.

Definition Qltb (x y : Q) : bool :=
  match (x ?= y)%Q with Lt => true | _ => false end.

(** [a < b] and [a > b]: false as soon as one side is [NaN]. *)
Definition lt (a b : num) : bool :=
  match a, b with
  | Fin x, Fin y => Qltb x y
  | _, _ => false
  end.

Definition gt (a b : num) : bool := lt b a.

(** [a >= b]. *)
Definition ge (a b : num) : bool :=
  match a, b with
  | Fin x, Fin y => negb (Qltb x y)
  | _, _ => false
  end.

(** [a !== b] on numbers. *)
Definition strict_ne (a b : num) : bool :=
  match a, b with
  | Fin x, Fin y => negb (Qeq_bool x y)
  | _, _ => true
  end.

Definition abs (a : num) : num :=
  match a with
  | Fin x => Fin (Qabs x)
  | NaN => NaN
  end.

Definition Math_max (a b : num) : num :=
  match a, b with
  | Fin x, Fin y => Fin (Qmax x y)
  | _, _ => NaN
  end.

Definition Math_min (a b : num) : num :=
  match a, b with
  | Fin x, Fin y => Fin (Qmin x y)
  | _, _ => NaN
  end.

Definition Math_floor (a : num) : num :=
  match a with
  | Fin x => of_Z (Qfloor x)
  | NaN => NaN
  end.

(** ToBoolean on a number: [0] and [NaN] are falsy. *)
Definition truthy_num (n : num) : bool :=
  match n with
  | NaN => false
  | Fin q => negb (Qeq_bool q 0)
  end.

(** [n || d] on numbers. *)
Definition or_num (n d : num) : num := if truthy_num n then n else d.

(** *** Numbers and strings *)

Definition digit_char (d : Z) : ascii :=
  Ascii.ascii_of_nat (48 + Z.to_nat d).

Fixpoint frac_digits (fuel : nat) (r d : Z) : string :=
  match fuel with
  | O => ""
  | S fuel' =>
      if r =? 0 then ""
      else String (digit_char (r * 10 / d)) (frac_digits fuel' (r * 10 mod d) d)
  end.

(** [Number.prototype.toString]: exact on the integers; a fraction is
    printed by long division, to at most 20 places. *)
Definition toString (n : num) : string :=
  match n with
  | NaN => "NaN"
  | Fin q =>
      let q' := Qred q in
      let n := Qnum q' in
      let d := Z.pos (Qden q') in
      if d =? 1 then pretty n
      else (if n <? 0 then "-" else "")
             +:+ pretty (Z.abs n / d) +:+ "."
             +:+ frac_digits 20 (Z.abs n mod d) d
  end.

Definition is_space (c : ascii) : bool :=
  let n := Ascii.nat_of_ascii c in
  ((n =? 32) || (n =? 9) || (n =? 10) || (n =? 11) || (n =? 12) || (n =? 13))%nat.

Fixpoint trim_left (s : string) : string :=
  match s with
  | String c s' => if is_space c then trim_left s' else s
  | EmptyString => EmptyString
  end.

Definition trim (s : string) : string :=
  String.rev (trim_left (String.rev (trim_left s))).

Definition digit_val (c : ascii) : option Z :=
  let n := Ascii.nat_of_ascii c in
  if ((48 <=? n) && (n <=? 57))%nat then Some (Z.of_nat n - 48) else None.

(** Reads decimal digits: the value so far, the number of digits read in
    [len], and what follows them. *)
Fixpoint read_digits (s : string) (acc : Z) (len : nat) : Z * nat * string :=
  match s with
  | String c s' =>
      match digit_val c with
      | Some d => read_digits s' (acc * 10 + d) (S len)
      | None => (acc, len, s)
      end
  | EmptyString => (acc, len, s)
  end.

Definition read_unsigned (s : string) : num :=
  let '(ip, ilen, rest) := read_digits s 0 O in
  match rest with
  | EmptyString => if (ilen =? 0)%nat then NaN else of_Z ip
  | String "." rest' =>
      let '(fp, flen, rest'') := read_digits rest' 0 O in
      match rest'' with
      | EmptyString =>
          if ((ilen =? 0) && (flen =? 0))%nat then NaN
          else Fin (inject_Z ip + inject_Z fp / inject_Z (10 ^ Z.of_nat flen))%Q
      | _ => NaN
      end
  | _ => NaN
  end.

(** [Number(s)] on a string: blanks around it are dropped, the empty
    string is [0], then an optional sign and a decimal literal with an
    optional fraction.  Literals with an exponent or a radix prefix and
    [Infinity], which the program never writes, are read as [NaN]. *)
Definition StringToNumber (s : string) : num :=
  match trim s with
  | EmptyString => of_Z 0
  | String "-" s' => mul (of_Z (-1)) (read_unsigned s')
  | String "+" s' => read_unsigned s'
  | s' => read_unsigned s'
  end.

(** [s.split(',')]: never empty. *)
Fixpoint split_comma (s : string) : list string :=
  match s with
  | EmptyString => [""]
  | String c s' =>
      if Ascii.eqb c "," then "" :: split_comma s'
      else match split_comma s' with
           | h :: t => String c h :: t
           | [] => [String c ""]
           end
  end.

(** ** JavaScript values, as far as a state record can hold them

    [VObject] stands for a plain object. *)
Inductive jsval : Type :=
| VUndefined
| VNull
| VBool (b : bool)
| VNum (n : num)
| VStr (s : string)
| VObject.

(** [Number(v)]. *)
Definition ToNumber (v : jsval) : num :=
  match v with
  | VUndefined => NaN
  | VNull => of_Z 0
  | VBool true => of_Z 1
  | VBool false => of_Z 0
  | VNum n => n
  | VStr s => StringToNumber s
  | VObject => NaN
  end.

(** ToBoolean. *)
Definition truthy (v : jsval) : bool :=
  match v with
  | VUndefined | VNull => false
  | VBool b => b
  | VNum n => truthy_num n
  | VStr s => negb (String.eqb s "")
  | VObject => true
  end.

(** [a || b]. *)
Definition or (a b : jsval) : jsval := if truthy a then a else b.

(** [Number.isNaN(v)]: no coercion. *)
Definition Number_isNaN (v : jsval) : bool :=
  match v with
  | VNum n => isNaN n
  | _ => false
  end.

(** [v !== false]. *)
Definition strict_ne_false (v : jsval) : bool :=
  match v with
  | VBool false => false
  | _ => true
  end.

(** What [JSON.parse(JSON.stringify(v))] gives for the value of a field:
    [NaN] is written as [null]. *)
Definition json (v : jsval) : jsval :=
  match v with
  | VNum NaN => VNull
  | _ => v
  end.

End JS.

Arguments JS.add : simpl never.
Arguments JS.sub : simpl never.
Arguments JS.mul : simpl never.
Arguments JS.lt : simpl never.
Arguments JS.gt : simpl never.
Arguments JS.ge : simpl never.
Arguments JS.abs : simpl never.
Arguments JS.strict_ne : simpl never.
Arguments JS.Math_max : simpl never.
Arguments JS.Math_min : simpl never.
Arguments JS.Math_floor : simpl never.
Arguments JS.or_num : simpl never.
Arguments JS.of_Z : simpl never.
Arguments JS.toString : simpl never.
Arguments JS.StringToNumber : simpl never.
Arguments JS.split_comma : simpl never.
Arguments JS.ToNumber : simpl never.

(** ** Notes, state records and the world they live in *)

(** The fields of a [NoteBox] object that the store and the manager use.
    [noteEntry_text] is the text held by the entry widget. *)
Module NoteBox.
Record t : Type := mk {
  id : nat;
  _fontSize : JS.num;
  _isBold : JS.jsval;
  customColor : JS.jsval;
  _fontColor : string;
  entry_is_visible : bool;
  _width : JS.num;
  _height : JS.num;
  _x : JS.num;
  _y : JS.num;
  noteEntry_text : string;
  _isBeingDestroyed : bool
}.

Definition set_id (v : nat) (n : t) : t :=
  mk v (_fontSize n) (_isBold n) (customColor n) (_fontColor n)
     (entry_is_visible n) (_width n) (_height n) (_x n) (_y n)
     (noteEntry_text n) (_isBeingDestroyed n).
Definition set_fontSize (v : JS.num) (n : t) : t :=
  mk (id n) v (_isBold n) (customColor n) (_fontColor n)
     (entry_is_visible n) (_width n) (_height n) (_x n) (_y n)
     (noteEntry_text n) (_isBeingDestroyed n).
Definition set_isBold (v : JS.jsval) (n : t) : t :=
  mk (id n) (_fontSize n) v (customColor n) (_fontColor n)
     (entry_is_visible n) (_width n) (_height n) (_x n) (_y n)
     (noteEntry_text n) (_isBeingDestroyed n).
Definition set_customColor (v : JS.jsval) (n : t) : t :=
  mk (id n) (_fontSize n) (_isBold n) v (_fontColor n)
     (entry_is_visible n) (_width n) (_height n) (_x n) (_y n)
     (noteEntry_text n) (_isBeingDestroyed n).
Definition set_fontColor (v : string) (n : t) : t :=
  mk (id n) (_fontSize n) (_isBold n) (customColor n) v
     (entry_is_visible n) (_width n) (_height n) (_x n) (_y n)
     (noteEntry_text n) (_isBeingDestroyed n).
Definition set_entry_is_visible (v : bool) (n : t) : t :=
  mk (id n) (_fontSize n) (_isBold n) (customColor n) (_fontColor n)
     v (_width n) (_height n) (_x n) (_y n)
     (noteEntry_text n) (_isBeingDestroyed n).
Definition set_width (v : JS.num) (n : t) : t :=
  mk (id n) (_fontSize n) (_isBold n) (customColor n) (_fontColor n)
     (entry_is_visible n) v (_height n) (_x n) (_y n)
     (noteEntry_text n) (_isBeingDestroyed n).
Definition set_height (v : JS.num) (n : t) : t :=
  mk (id n) (_fontSize n) (_isBold n) (customColor n) (_fontColor n)
     (entry_is_visible n) (_width n) v (_x n) (_y n)
     (noteEntry_text n) (_isBeingDestroyed n).
Definition set_x (v : JS.num) (n : t) : t :=
  mk (id n) (_fontSize n) (_isBold n) (customColor n) (_fontColor n)
     (entry_is_visible n) (_width n) (_height n) v (_y n)
     (noteEntry_text n) (_isBeingDestroyed n).
Definition set_y (v : JS.num) (n : t) : t :=
  mk (id n) (_fontSize n) (_isBold n) (customColor n) (_fontColor n)
     (entry_is_visible n) (_width n) (_height n) (_x n) v
     (noteEntry_text n) (_isBeingDestroyed n).
Definition set_text (v : string) (n : t) : t :=
  mk (id n) (_fontSize n) (_isBold n) (customColor n) (_fontColor n)
     (entry_is_visible n) (_width n) (_height n) (_x n) (_y n)
     v (_isBeingDestroyed n).
Definition set_isBeingDestroyed (v : bool) (n : t) : t :=
  mk (id n) (_fontSize n) (_isBold n) (customColor n) (_fontColor n)
     (entry_is_visible n) (_width n) (_height n) (_x n) (_y n)
     (noteEntry_text n) v.

(** [[this._x, this._y] = p]. *)
Definition set_position (p : JS.num * JS.num) (n : t) : t :=
  set_y (snd p) (set_x (fst p) n).
End NoteBox.

#[global] Instance NoteBox_inhabited : Inhabited NoteBox.t :=
  populate (NoteBox.mk O JS.NaN JS.VUndefined JS.VUndefined "" false
                       JS.NaN JS.NaN JS.NaN JS.NaN "" false).

(** The object that [_saveState] and [_createDefaultState] hand to
    [JSON.stringify], and that [JSON.parse] gives back.  A field that is
    absent is [VUndefined]. *)
Module stateData.
Record t : Type := mk {
  x : JS.jsval;
  y : JS.jsval;
  color : JS.jsval;
  width : JS.jsval;
  height : JS.jsval;
  fontSize : JS.jsval;
  entryVisible : JS.jsval;
  isBold : JS.jsval
}.

(** [JSON.parse(JSON.stringify(d))]. *)
Definition json (d : t) : t :=
  mk (JS.json (x d)) (JS.json (y d)) (JS.json (color d)) (JS.json (width d))
     (JS.json (height d)) (JS.json (fontSize d)) (JS.json (entryVisible d))
     (JS.json (isBold d)).
End stateData.

(** The content of an [<id>_state] file, by what [JSON.parse] makes of it.
    A text that parses to a number, a string, a boolean or an array has
    none of the eight fields: it is [Parsed] with every field absent. *)
Inductive stateFile : Type :=
| Unparsable
| ParsedNull
| Parsed (d : stateData.t).

Inductive exn : Type :=
| SyntaxError
| TypeError.

Definition ref := nat.

Inductive event : Type :=
| Notify (msg : string)
| LogDeleting (id total : nat)
| LogMoved (from to : nat)
| LogDeletedText (id : nat)
| LogDeletedState (id : nat)
| LogNoNotesFound
| LogCreateFailed (id : nat) (e : exn)
| LogInvalidPositionLayer
| LogInvalidPosition (x y : JS.num)
| LogAdjusted (oldX oldY x y : JS.num)
| LogInvalidInFile
| LogLoaded (id : nat) (x y : JS.num) (color : JS.jsval)
| LogLoadError (e : exn)
| LogSaved (id : nat) (x y : JS.num) (color : JS.jsval)
| LogInvalidSaving
| LogSaveStateError (e : exn)
| LogSaveTextError (e : exn)
| LogLoadTextError (e : exn)
| LogDefaultStateError (e : exn)
| LogDeleteFilesError (e : exn)
| LogDeleteNoteError (e : exn).

(** The manager's fields, the objects, the notes directory, the number of
    [Math.random()] calls made so far, and what was logged and notified. *)
Record World : Type := mkWorld {
  _allNotes : list ref;
  _notesLoaded : bool;
  heap : gmap ref NoteBox.t;
  state_files : gmap nat stateFile;
  text_files : gmap nat string;
  draws : nat;
  journal : list event
}.

Definition set_allNotes (v : list ref) (w : World) : World :=
  mkWorld v (_notesLoaded w) (heap w) (state_files w) (text_files w)
          (draws w) (journal w).
Definition set_notesLoaded (v : bool) (w : World) : World :=
  mkWorld (_allNotes w) v (heap w) (state_files w) (text_files w)
          (draws w) (journal w).
Definition set_heap (v : gmap ref NoteBox.t) (w : World) : World :=
  mkWorld (_allNotes w) (_notesLoaded w) v (state_files w) (text_files w)
          (draws w) (journal w).
Definition set_state_files (v : gmap nat stateFile) (w : World) : World :=
  mkWorld (_allNotes w) (_notesLoaded w) (heap w) v (text_files w)
          (draws w) (journal w).
Definition set_text_files (v : gmap nat string) (w : World) : World :=
  mkWorld (_allNotes w) (_notesLoaded w) (heap w) (state_files w) v
          (draws w) (journal w).
Definition set_draws (v : nat) (w : World) : World :=
  mkWorld (_allNotes w) (_notesLoaded w) (heap w) (state_files w)
          (text_files w) v (journal w).
Definition set_journal (v : list event) (w : World) : World :=
  mkWorld (_allNotes w) (_notesLoaded w) (heap w) (state_files w)
          (text_files w) (draws w) v.

(** The primary monitor and the draws of [Math.random()], each in [0, 1). *)
Record Host : Type := mkHost {
  monitor_width : Z;
  monitor_height : Z;
  random : nat -> Q
}.

(** ** Computations: state and exceptions *)

Inductive outcome (A : Type) : Type :=
| Return (a : A) (w : World)
| Throw (e : exn) (w : World).
Arguments Return {A} a w.
Arguments Throw {A} e w.

Definition M (A : Type) : Type := World -> outcome A.

Definition ret {A} (a : A) : M A := fun w => Return a w.

Definition bind {A B} (m : M A) (k : A -> M B) : M B :=
  fun w =>
    match m w with
    | Return a w' => k a w'
    | Throw e w' => Throw e w'
    end.

Definition throw {A} (e : exn) : M A := fun w => Throw e w.

(** [try { m } catch (e) { h e }]. *)
Definition try_catch {A} (m : M A) (h : exn -> M A) : M A :=
  fun w =>
    match m w with
    | Return a w' => Return a w'
    | Throw e w' => h e w'
    end.

Definition gets {A} (f : World -> A) : M A := fun w => Return (f w) w.

Definition modify (f : World -> World) : M unit := fun w => Return tt (f w).

Declare Scope js_scope.
Delimit Scope js_scope with js.
Notation "x ← y ; z" := (bind y (fun x => z)) : js_scope.
Notation "y ;; z" := (bind y (fun _ => z)) : js_scope.
Local Open Scope js_scope.

Definition world_of {A} (o : outcome A) : World :=
  match o with
  | Return _ w => w
  | Throw _ w => w
  end.

Definition returns {A} (o : outcome A) : bool :=
  match o with
  | Return _ _ => true
  | Throw _ _ => false
  end.

(** [log(...)] and [Main.notify(...)]. *)
Definition log (e : event) : M unit :=
  modify (fun w => set_journal (journal w ++ [e]) w).

(** Reading the fields of [this] and assigning to them. *)
Definition deref (this : ref) : M NoteBox.t :=
  gets (fun w => heap w !!! this).

Definition update (this : ref) (f : NoteBox.t -> NoteBox.t) : M unit :=
  modify (fun w => set_heap (<[this := f (heap w !!! this)]> (heap w)) w).

(** A new object. *)
Definition alloc (n : NoteBox.t) : M ref :=
  fun w =>
    let r := fresh (dom (heap w)) in
    Return r (set_heap (<[r := n]> (heap w)) w).

(** The files [<this.id>_state] and [<this.id>_text]: is it there and what
    does it hold, and overwriting it. *)
Definition read_state_file (this : ref) : M (option stateFile) :=
  gets (fun w => state_files w !! NoteBox.id (heap w !!! this)).

Definition write_state_file (this : ref) (v : stateFile) : M unit :=
  modify (fun w =>
    set_state_files (<[NoteBox.id (heap w !!! this) := v]> (state_files w)) w).

Definition read_text_file (this : ref) : M (option string) :=
  gets (fun w => text_files w !! NoteBox.id (heap w !!! this)).

Definition write_text_file (this : ref) (v : string) : M unit :=
  modify (fun w =>
    set_text_files (<[NoteBox.id (heap w !!! this) := v]> (text_files w)) w).

(** ** The program *)

Definition MIN_HEIGHT : JS.num := JS.of_Z 75.
Definition MIN_WIDTH : JS.num := JS.of_Z 200.

Section Program.

Variable host : Host.

Definition primaryMonitor_width : JS.num := JS.of_Z (monitor_width host).
Definition primaryMonitor_height : JS.num := JS.of_Z (monitor_height host).

Definition Math_random : M JS.num :=
  fun w => Return (JS.Fin (random host (draws w))) (set_draws (S (draws w)) w).

(** *** NotesManager.areCoordsUsable *)
Definition areCoordsUsable (x y : JS.num) : M bool :=
  gets (fun w =>
    negb (existsb
      (fun r =>
         let note := heap w !!! r in
         JS.lt (JS.abs (JS.sub (NoteBox._x note) x)) (JS.of_Z 230)
         && JS.lt (JS.abs (JS.sub (NoteBox._y note) y)) (JS.of_Z 100))
      (_allNotes w))).

(** *** NoteBox._computeRandomPosition

    One round of the [for] loop, [k] rounds being left after it.  The last
    round returns its candidate whether it is usable or not: that is the
    [return [x, y]] after the loop. *)
Fixpoint _computeRandomPosition_round (k : nat) : M (JS.num * JS.num) :=
  rx ← Math_random;
  let x := JS.mul rx (JS.sub primaryMonitor_width (JS.of_Z 300)) in
  ry ← Math_random;
  let y := JS.mul ry (JS.sub primaryMonitor_height (JS.of_Z 100)) in
  usable ← areCoordsUsable x y;
  if (usable : bool) then ret (x, y)
  else match k with
       | O => ret (x, y)
       | S k' => _computeRandomPosition_round k'
       end.

Definition _computeRandomPosition : M (JS.num * JS.num) :=
  _computeRandomPosition_round 14.

(** *** NoteBox._setNotePosition ([primaryMonitor] is there) *)
Definition _setNotePosition (this : ref) : M unit :=
  update this (fun n =>
    NoteBox.set_width
      (JS.Math_max (JS.or_num (NoteBox._width n) (JS.of_Z 250)) MIN_WIDTH) n);;
  update this (fun n =>
    NoteBox.set_height
      (JS.Math_max (JS.or_num (NoteBox._height n) (JS.of_Z 180)) MIN_HEIGHT) n);;
  n ← deref this;
  (if JS.isNaN (NoteBox._x n) || JS.isNaN (NoteBox._y n) then
     log (LogInvalidPosition (NoteBox._x n) (NoteBox._y n));;
     p ← _computeRandomPosition;
     update this (NoteBox.set_position p)
   else ret tt);;
  n ← deref this;
  let oldX := NoteBox._x n in
  let oldY := NoteBox._y n in
  update this (fun n =>
    NoteBox.set_x
      (JS.Math_max (JS.of_Z 0)
         (JS.Math_min (NoteBox._x n)
            (JS.sub primaryMonitor_width (NoteBox._width n)))) n);;
  update this (fun n =>
    NoteBox.set_y
      (JS.Math_max (JS.of_Z 0)
         (JS.Math_min (NoteBox._y n)
            (JS.sub primaryMonitor_height (NoteBox._height n)))) n);;
  n ← deref this;
  if JS.strict_ne oldX (NoteBox._x n) || JS.strict_ne oldY (NoteBox._y n) then
    log (LogAdjusted oldX oldY (NoteBox._x n) (NoteBox._y n))
  else ret tt.

(** *** NoteBox._saveState *)

(** The object [stateData] that [_saveState] builds from the fields. *)
Definition _saveState_stateData (n : NoteBox.t) : stateData.t :=
  stateData.mk
    (JS.VNum (JS.Math_floor (NoteBox._x n)))
    (JS.VNum (JS.Math_floor (NoteBox._y n)))
    (NoteBox.customColor n)
    (JS.VNum (NoteBox._width n))
    (JS.VNum (NoteBox._height n))
    (JS.VNum (NoteBox._fontSize n))
    (JS.VBool (NoteBox.entry_is_visible n))
    (NoteBox._isBold n).

Definition _saveState (this : ref) : M unit :=
  try_catch
    (n ← deref this;
     (if JS.isNaN (NoteBox._x n) || JS.isNaN (NoteBox._y n) then
        log LogInvalidSaving;;
        p ← _computeRandomPosition;
        update this (NoteBox.set_position p);;
        _setNotePosition this
      else ret tt);;
     n ← deref this;
     let stateData := _saveState_stateData n in
     write_state_file this (Parsed (stateData.json stateData));;
     log (LogSaved (NoteBox.id n) (NoteBox._x n) (NoteBox._y n)
            (NoteBox.customColor n)))
    (fun e => log (LogSaveStateError e)).

(** *** NoteBox._saveText *)
Definition _saveText (this : ref) : M unit :=
  try_catch
    (n ← deref this;
     let noteText := NoteBox.noteEntry_text n in
     write_text_file this noteText)
    (fun e => log (LogSaveTextError e)).

(** *** NoteBox.onlySave *)
Definition onlySave (this : ref) (withMetadata : bool) : M unit :=
  (if withMetadata then _saveState this else ret tt);;
  _saveText this.

(** *** NoteBox._applyColor ([_applyNoteStyle] and [_applyActorStyle] only
    restyle the widgets) *)
Definition _applyColor (this : ref) (r g b : JS.jsval) : M unit :=
  let r := if JS.Number_isNaN r then JS.VNum (JS.of_Z 255) else r in
  let g := if JS.Number_isNaN g then JS.VNum (JS.of_Z 255) else g in
  let b := if JS.Number_isNaN b then JS.VNum (JS.of_Z 255) else b in
  let r := JS.Math_min (JS.Math_max (JS.of_Z 0) (JS.ToNumber r)) (JS.of_Z 255) in
  let g := JS.Math_min (JS.Math_max (JS.of_Z 0) (JS.ToNumber g)) (JS.of_Z 255) in
  let b := JS.Math_min (JS.Math_max (JS.of_Z 0) (JS.ToNumber b)) (JS.of_Z 255) in
  update this (NoteBox.set_customColor
    (JS.VStr (JS.toString r +:+ "," +:+ JS.toString g +:+ "," +:+ JS.toString b)));;
  (if JS.gt (JS.add (JS.add r g) b) (JS.of_Z 250) then
     update this (NoteBox.set_fontColor "#000000")
   else
     update this (NoteBox.set_fontColor "#ffffff"));;
  _saveState this.

(** [arr[i]] on the array of numbers that [split(',').map(Number)] gives. *)
Definition component (arr : list JS.num) (i : nat) : JS.jsval :=
  match arr !! i with
  | Some n => JS.VNum n
  | None => JS.VUndefined
  end.

(** *** NoteBox._initStyle: only a string has [split] *)
Definition _initStyle (this : ref) : M unit :=
  n ← deref this;
  match NoteBox.customColor n with
  | JS.VStr s =>
      let arr := map JS.StringToNumber (JS.split_comma s) in
      _applyColor this (component arr 0) (component arr 1) (component arr 2)
  | _ => throw TypeError
  end.

(** *** NoteBox.applyColorAndSave *)
Definition applyColorAndSave (this : ref) (r g b : JS.jsval) : M unit :=
  _applyColor this r g b;;
  _saveState this.

(** *** NoteBox.changeFontSize *)
Definition changeFontSize (this : ref) (delta : JS.num) : M unit :=
  n ← deref this;
  (if JS.gt (JS.add (NoteBox._fontSize n) delta) (JS.of_Z 1) then
     update this (fun n =>
       NoteBox.set_fontSize (JS.add (NoteBox._fontSize n) delta) n)
   else ret tt);;
  onlySave this true.

(** *** NoteBox.toggleBold *)
Definition toggleBold (this : ref) : M unit :=
  update this (fun n =>
    NoteBox.set_isBold (JS.VBool (negb (JS.truthy (NoteBox._isBold n)))) n);;
  _saveState this.

(** *** NoteBox._createDefaultState *)
Definition _createDefaultState (this : ref) : M (option stateData.t) :=
  try_catch
    (defaultPosition ← _computeRandomPosition;
     n ← deref this;
     let defaultState :=
       stateData.mk
         (JS.VNum (fst defaultPosition))
         (JS.VNum (snd defaultPosition))
         (NoteBox.customColor n)
         (JS.VNum (JS.of_Z 250))
         (JS.VNum (JS.of_Z 180))
         (JS.VNum (NoteBox._fontSize n))
         (JS.VBool true)
         (JS.VBool false) in
     write_state_file this (Parsed (stateData.json defaultState));;
     ret (Some defaultState))
    (fun e => log (LogDefaultStateError e);; ret None).

(** [JSON.parse(contents)] followed by the first read of a field of the
    result, which fails on [null]. *)
Definition JSON_parse (contents : stateFile) : M stateData.t :=
  match contents with
  | Unparsable => throw SyntaxError
  | ParsedNull => throw TypeError
  | Parsed d => ret d
  end.

(** *** NoteBox._loadState *)

(** The [try] block, once the file is known to be there. *)
Definition _loadState_try (this : ref) (contents : stateFile) : M unit :=
  stateData ← JSON_parse contents;
  (if JS.truthy (stateData.color stateData) then
     update this (NoteBox.set_customColor (stateData.color stateData))
   else ret tt);;
  update this (NoteBox.set_width
    (JS.Math_max
       (JS.or_num (JS.ToNumber (stateData.width stateData)) (JS.of_Z 250))
       MIN_WIDTH));;
  update this (NoteBox.set_height
    (JS.Math_max
       (JS.or_num (JS.ToNumber (stateData.height stateData)) (JS.of_Z 180))
       MIN_HEIGHT));;
  update this (NoteBox.set_fontSize
    (JS.or_num (JS.ToNumber (stateData.fontSize stateData)) (JS.of_Z 12)));;
  update this (NoteBox.set_x (JS.ToNumber (stateData.x stateData)));;
  update this (NoteBox.set_y (JS.ToNumber (stateData.y stateData)));;
  update this (NoteBox.set_entry_is_visible
    (JS.strict_ne_false (stateData.entryVisible stateData)));;
  update this (NoteBox.set_isBold
    (JS.or (stateData.isBold stateData) (JS.VBool false)));;
  n ← deref this;
  (if JS.isNaN (NoteBox._x n) || JS.isNaN (NoteBox._y n) then
     log LogInvalidInFile;;
     p ← _computeRandomPosition;
     update this (NoteBox.set_position p)
   else ret tt);;
  _setNotePosition this;;
  _initStyle this;;
  n ← deref this;
  log (LogLoaded (NoteBox.id n) (NoteBox._x n) (NoteBox._y n)
         (NoteBox.customColor n)).

(** The [catch] block. *)
Definition _loadState_catch (this : ref) (e : exn) : M unit :=
  log (LogLoadError e);;
  p ← _computeRandomPosition;
  update this (NoteBox.set_position p);;
  update this (NoteBox.set_width (JS.of_Z 250));;
  update this (NoteBox.set_height (JS.of_Z 180));;
  update this (NoteBox.set_entry_is_visible true);;
  update this (NoteBox.set_isBold (JS.VBool false));;
  _setNotePosition this;;
  _initStyle this.

Definition _loadState (this : ref) : M unit :=
  file ← read_state_file this;
  match file with
  | None =>
      _createDefaultState this;;
      _initStyle this
  | Some contents =>
      try_catch (_loadState_try this contents) (_loadState_catch this)
  end.

(** *** NoteBox._loadText *)
Definition _loadText (this : ref) : M unit :=
  file ← read_text_file this;
  (if bool_decide (file = None) then write_text_file this ""
   else ret tt);;
  try_catch
    (contents ← read_text_file this;
     match contents with
     | Some content => update this (NoteBox.set_text content)
     | None => ret tt
     end)
    (fun e => log (LogLoadTextError e)).

(** *** NoteBox.loadIntoCorrectLayer *)
Definition loadIntoCorrectLayer (this : ref) : M unit :=
  update this (fun n =>
    NoteBox.set_width
      (JS.Math_max (JS.or_num (NoteBox._width n) (JS.of_Z 250)) MIN_WIDTH) n);;
  update this (fun n =>
    NoteBox.set_height
      (JS.Math_max (JS.or_num (NoteBox._height n) (JS.of_Z 180)) MIN_HEIGHT) n);;
  n ← deref this;
  (if JS.isNaN (NoteBox._x n) || JS.isNaN (NoteBox._y n) then
     log LogInvalidPositionLayer;;
     p ← _computeRandomPosition;
     update this (NoteBox.set_position p)
   else ret tt);;
  _setNotePosition this;;
  _setNotePosition this.

(** *** The constructor of NoteBox

    The fields as the constructor sets them before it loads anything, [p]
    being what [_computeRandomPosition] gave. *)
Definition NoteBox_fields (id : nat) (colorString : JS.jsval)
    (fontSize : JS.num) (p : JS.num * JS.num) : NoteBox.t :=
  NoteBox.mk id
    (JS.or_num fontSize (JS.of_Z 12))
    (JS.VBool false)
    (JS.or colorString (JS.VStr "245,176,65"))
    ""
    true
    (JS.of_Z 250) (JS.of_Z 180)
    (fst p) (snd p)
    ""
    false.

(** [_computeRandomPosition] reads the manager and none of the fields of
    the note, so the object is allocated once the position is drawn, with
    all the fields that the constructor assigns before [_loadState]. *)
Definition NoteBox_new (id : nat) (colorString : JS.jsval) (fontSize : JS.num)
  : M ref :=
  p ← _computeRandomPosition;
  this ← alloc (NoteBox_fields id colorString fontSize p);
  _loadState this;;
  _loadText this;;
  loadIntoCorrectLayer this;;
  ret this.

(** *** NoteBox.destroy *)
Definition destroy (this : ref) : M unit :=
  update this (NoteBox.set_isBeingDestroyed true).

(** [arr.indexOf(x)]: [None] is [-1]. *)
Fixpoint indexOf (arr : list ref) (x : ref) : option nat :=
  match arr with
  | [] => None
  | y :: arr' =>
      if Nat.eqb y x then Some O
      else match indexOf arr' x with
           | Some i => Some (S i)
           | None => None
           end
  end.

(** *** NoteBox._deleteNoteObject *)
Definition _deleteNoteObject (this : ref) : M unit :=
  try_catch
    (index ← gets (fun w => indexOf (_allNotes w) this);
     match index with
     | Some i => modify (fun w => set_allNotes (delete i (_allNotes w)) w)
     | None => ret tt
     end;;
     n ← deref this;
     text ← gets (fun w => text_files w !! NoteBox.id n);
     (if bool_decide (is_Some text) then
        modify (fun w => set_text_files (delete (NoteBox.id n) (text_files w)) w)
      else ret tt);;
     state ← gets (fun w => state_files w !! NoteBox.id n);
     (if bool_decide (is_Some state) then
        modify (fun w => set_state_files (delete (NoteBox.id n) (state_files w)) w)
      else ret tt);;
     destroy this)
    (fun e => log (LogDeleteNoteError e)).

(** *** NotesManager.createNote *)
Definition createNote (colorString : JS.jsval) (fontSize : JS.num) : M ref :=
  nextId ← gets (fun w => length (_allNotes w));
  try_catch
    (note ← NoteBox_new nextId colorString fontSize;
     modify (fun w => set_allNotes (_allNotes w ++ [note]) w);;
     ret note)
    (fun e =>
       log (Notify "Notes extension error: failed to load a note");;
       log (LogCreateFailed nextId e);;
       throw e).

(** *** NotesManager._deleteNoteFiles

    [Gio.File.new_for_path(path)] as the manager's module reads it.  That
    module binds the name with [import * as Gio from 'gi://Gio'] (line 18):
    the namespace object of the module, which holds the library under
    [default] and nothing else.  So [Gio.File] is [undefined] there, and
    reading [new_for_path] of it throws a [TypeError].  (The module of
    [NoteBox] has [import Gio from 'gi://Gio'], and there the call gives the
    file object.) *)
Definition Gio_File_new_for_path : M unit := throw TypeError.

(** The two files are looked up and removed after the two calls of
    [Gio.File.new_for_path], inside the same [try]. *)
Definition _deleteNoteFiles (id : nat) : M unit :=
  try_catch
    (Gio_File_new_for_path;;
     Gio_File_new_for_path;;
     text ← gets (fun w => text_files w !! id);
     (if bool_decide (is_Some text) then
        modify (fun w => set_text_files (delete id (text_files w)) w);;
        log (LogDeletedText id)
      else ret tt);;
     state ← gets (fun w => state_files w !! id);
     (if bool_decide (is_Some state) then
        modify (fun w => set_state_files (delete id (state_files w)) w);;
        log (LogDeletedState id)
      else ret tt))
    (fun e => log (LogDeleteFilesError e)).

(** [arr.pop()]: [None] is [undefined]. *)
Definition pop : M (option ref) :=
  fun w =>
    Return (last (_allNotes w)) (set_allNotes (removelast (_allNotes w)) w).

(** *** NotesManager.postDelete *)
Definition postDelete (deletedNoteId : nat) : M unit :=
  total ← gets (fun w => length (_allNotes w));
  log (LogDeleting deletedNoteId total);;
  _deleteNoteFiles deletedNoteId;;
  len ← gets (fun w => length (_allNotes w));
  if (len <=? deletedNoteId)%nat then ret tt
  else
    lastNote ← pop;
    lastNoteId ← gets (fun w => length (_allNotes w));
    len ← gets (fun w => length (_allNotes w));
    if (deletedNoteId <? len)%nat then
      match lastNote with
      | Some lastNote =>
          update lastNote (NoteBox.set_id deletedNoteId);;
          modify (fun w =>
            set_allNotes (<[deletedNoteId := lastNote]> (_allNotes w)) w);;
          moved ← gets (fun w => _allNotes w !! deletedNoteId);
          match moved with
          | Some moved => onlySave moved true
          | None => throw TypeError
          end;;
          log (LogMoved lastNoteId deletedNoteId);;
          _deleteNoteFiles lastNoteId
      | None => throw TypeError
      end
    else ret tt.

(** *** NotesManager._loadAllNotes

    The [while (true)] scan, with [fuel] rounds at most: [None] when the
    rounds run out before an [<i>_state] file is missing. *)
Fixpoint _loadAllNotes_scan (fuel i : nat) (notesFound : bool)
  : M (option bool) :=
  match fuel with
  | O => ret None
  | S fuel' =>
      stateFile ← gets (fun w => state_files w !! i);
      if bool_decide (is_Some stateFile) then
        createNote (JS.VStr "") (JS.of_Z 16);;
        _loadAllNotes_scan fuel' (S i) true
      else ret (Some notesFound)
  end.

Definition _loadAllNotes (fuel : nat) : M (option unit) :=
  scanned ← _loadAllNotes_scan fuel 0 false;
  match scanned with
  | None => ret None
  | Some notesFound =>
      (if negb notesFound then
         log LogNoNotesFound;;
         createNote (JS.VStr "") (JS.of_Z 16);;
         ret tt
       else ret tt);;
      modify (set_notesLoaded true);;
      ret (Some tt)
  end.

End Program.

(** ** The handlers of a note and of its menu *)

(** The fields of a [NoteBox] that only its pointer handlers use: the point
    where the pointer was last seen, [grabX] and [grabY], the two flags
    [_isMoving] and [_isResizing], and whether the box of the entry is
    shown, [_entryBox.visible].  The handlers take them and return them. *)
Record Pointer : Type := mkPointer {
  grabX : JS.num;
  grabY : JS.num;
  _isMoving : bool;
  _isResizing : bool;
  _entryBox_visible : bool
}.

(** The fields as [_buildNote] leaves them: the flags are still
    [undefined], which is falsy. *)
Definition Pointer_new : Pointer :=
  mkPointer (JS.of_Z 0) (JS.of_Z 0) false false true.

(** The entries of the "Color" and of the "Font size" submenus of
    [NoteOptionsMenu._buildMenu]: labels, colours and deltas. *)
Definition colors : list (string * (Z * Z * Z)) :=
  [ ("Red", (240, 80, 80));
    ("Green", (100, 200, 100));
    ("Blue", (90, 90, 255));
    ("Yellow", (255, 180, 60));
    ("Purple", (200, 100, 200));
    ("Gray", (150, 150, 150));
    ("White", (255, 255, 255)) ].

Definition sizes : list (string * Z) :=
  [ ("Decrease", -2); ("Increase", 2) ].

Section Handlers.

Variable host : Host.

(** *** NoteBox._createNote: the "New" button of a note *)
Definition _createNote (this : ref) : M unit :=
  n ← deref this;
  createNote host (NoteBox.customColor n) (NoteBox._fontSize n);;
  ret tt.

(** *** NoteBox._redraw (raising the note above its siblings is left to
    the toolkit) *)
Definition _redraw (this : ref) : M unit :=
  onlySave host this true.

(** *** NoteBox._onPressCommon; [coords] is [event.get_coords()] *)
Definition _onPressCommon (this : ref) (coords : JS.num * JS.num)
    (p : Pointer) : M Pointer :=
  _redraw this;;
  ret (mkPointer (JS.Math_floor (fst coords)) (JS.Math_floor (snd coords))
         (_isMoving p) (_isResizing p) (_entryBox_visible p)).

(** *** NoteBox._onMovePress; [button] is [event.get_button()] *)
Definition _onMovePress (this : ref) (button : Z) (coords : JS.num * JS.num)
    (p : Pointer) : M Pointer :=
  p ← (if button =? 3 then
         let visible := negb (_entryBox_visible p) in
         update this (NoteBox.set_entry_is_visible visible);;
         ret (mkPointer (grabX p) (grabY p) (_isMoving p) (_isResizing p)
                visible)
       else ret p);
  p ← _onPressCommon this coords p;
  ret (mkPointer (grabX p) (grabY p) true false (_entryBox_visible p)).

(** *** NoteBox._onResizePress *)
Definition _onResizePress (this : ref) (coords : JS.num * JS.num)
    (p : Pointer) : M Pointer :=
  p ← _onPressCommon this coords p;
  ret (mkPointer (grabX p) (grabY p) false true (_entryBox_visible p)).

(** *** NoteBox._moveTo *)
Definition _moveTo (this : ref) (event_x event_y : JS.num) (p : Pointer)
  : M Pointer :=
  n ← deref this;
  let newX := JS.sub event_x (JS.sub (grabX p) (NoteBox._x n)) in
  let newY := JS.sub event_y (JS.sub (grabY p) (NoteBox._y n)) in
  update this (NoteBox.set_y (JS.Math_floor newY));;
  update this (NoteBox.set_x (JS.Math_floor newX));;
  _setNotePosition host this;;
  ret (mkPointer event_x event_y (_isMoving p) (_isResizing p)
         (_entryBox_visible p)).

(** *** NoteBox._onMoveMotion *)
Definition _onMoveMotion (this : ref) (coords : JS.num * JS.num)
    (p : Pointer) : M Pointer :=
  if negb (_isMoving p) then ret p
  else
    let x := JS.Math_floor (fst coords) in
    let y := JS.Math_floor (snd coords) in
    _moveTo this x y p.

(** *** NoteBox._onRelease *)
Definition _onRelease (this : ref) (p : Pointer) : M Pointer :=
  let p := mkPointer (grabX p) (grabY p) false false (_entryBox_visible p) in
  _saveState host this;;
  _saveText this;;
  ret p.

(** *** The [activate] handlers of the entries of the two submenus *)
Definition color_activate (this : ref) (rgb : Z * Z * Z) : M unit :=
  let '(r, g, b) := rgb in
  applyColorAndSave host this
    (JS.VNum (JS.of_Z r)) (JS.VNum (JS.of_Z g)) (JS.VNum (JS.of_Z b)).

Definition size_activate (this : ref) (delta : Z) : M unit :=
  changeFontSize host this (JS.of_Z delta).

End Handlers.

(** * Properties *)

(** ** Numbers and strings *)

Example toString_255 : JS.toString (JS.of_Z 255) = "255".
Proof. reflexivity. Qed.

Example Number_of_string : JS.StringToNumber " 245" = JS.of_Z 245.
Proof. reflexivity. Qed.

Example split_default : JS.split_comma "245,176,65" = ["245"; "176"; "65"].
Proof. reflexivity. Qed.


(** ** Relations kept by every step of a computation *)

Definition stable {A} (R : relation World) (m : M A) : Prop :=
  forall w, R w (world_of (m w)).

Section Stable.
Context (R : relation World) `{!PreOrder R}.

Lemma stable_ret {A} (a : A) : stable R (ret a).
Proof. intros w. simpl. reflexivity. Qed.

Lemma stable_throw {A} (e : exn) : stable R (@throw A e).
Proof. intros w. simpl. reflexivity. Qed.

Lemma stable_gets {A} (f : World -> A) : stable R (gets f).
Proof. intros w. simpl. reflexivity. Qed.

Lemma stable_modify (f : World -> World) :
  (forall w, R w (f w)) -> stable R (modify f).
Proof. intros H w. simpl. apply H. Qed.

Lemma stable_bind {A B} (m : M A) (k : A -> M B) :
  stable R m -> (forall a, stable R (k a)) -> stable R (bind m k).
Proof.
  intros Hm Hk w. unfold bind. specialize (Hm w).
  destruct (m w) as [a w'|e w']; simpl in *.
  - etransitivity; [exact Hm | apply Hk].
  - exact Hm.
Qed.

Lemma stable_try_catch {A} (m : M A) (h : exn -> M A) :
  stable R m -> (forall e, stable R (h e)) -> stable R (try_catch m h).
Proof.
  intros Hm Hh w. unfold try_catch. specialize (Hm w).
  destruct (m w) as [a w'|e w']; simpl in *.
  - exact Hm.
  - etransitivity; [exact Hm | apply Hh].
Qed.

Lemma stable_if {A} (b : bool) (m1 m2 : M A) :
  stable R m1 -> stable R m2 -> stable R (if b then m1 else m2).
Proof. destruct b; auto. Qed.
End Stable.

(** What a method of the note [this] may change: the fields of [this], as
    far as [K] allows and never its [id], the two files of that id, the
    draws and the journal. *)
Record note_local (K : relation NoteBox.t) (this : ref) (w w' : World)
  : Prop := mk_note_local {
  nl_allNotes : _allNotes w' = _allNotes w;
  nl_notesLoaded : _notesLoaded w' = _notesLoaded w;
  nl_others : forall r, r <> this -> heap w' !! r = heap w !! r;
  nl_allocated : forall r, is_Some (heap w !! r) -> is_Some (heap w' !! r);
  nl_this : K (heap w !!! this) (heap w' !!! this);
  nl_id : NoteBox.id (heap w' !!! this) = NoteBox.id (heap w !!! this);
  nl_state_files : forall j, j <> NoteBox.id (heap w !!! this) ->
                   state_files w' !! j = state_files w !! j;
  nl_text_files : forall j, j <> NoteBox.id (heap w !!! this) ->
                  text_files w' !! j = text_files w !! j
}.

#[global] Instance note_local_preorder K this :
  PreOrder K -> PreOrder (note_local K this).
Proof.
  intros HK. split.
  - intros w. split; auto. reflexivity.
  - intros w1 w2 w3 [] []. split.
    + congruence.
    + congruence.
    + intros r Hr. rewrite nl_others1, nl_others0; auto.
    + auto.
    + etransitivity; eauto.
    + congruence.
    + intros j Hj. rewrite nl_state_files1, nl_state_files0; auto. congruence.
    + intros j Hj. rewrite nl_text_files1, nl_text_files0; auto. congruence.
Qed.

Lemma note_local_mono (K K' : relation NoteBox.t) this w w' :
  (forall n n', K n n' -> K' n n') ->
  note_local K this w w' -> note_local K' this w w'.
Proof. intros H []. split; auto. Qed.

(** Every field but the position and the size is kept. *)
Record same_but_geometry (n n' : NoteBox.t) : Prop := mk_same_but_geometry {
  sg_fontSize : NoteBox._fontSize n' = NoteBox._fontSize n;
  sg_isBold : NoteBox._isBold n' = NoteBox._isBold n;
  sg_customColor : NoteBox.customColor n' = NoteBox.customColor n;
  sg_fontColor : NoteBox._fontColor n' = NoteBox._fontColor n;
  sg_entry_is_visible : NoteBox.entry_is_visible n' = NoteBox.entry_is_visible n;
  sg_text : NoteBox.noteEntry_text n' = NoteBox.noteEntry_text n;
  sg_isBeingDestroyed : NoteBox._isBeingDestroyed n' = NoteBox._isBeingDestroyed n
}.

#[global] Instance same_but_geometry_preorder : PreOrder same_but_geometry.
Proof.
  split.
  - intros n. split; reflexivity.
  - intros n1 n2 n3 [] []. split; congruence.
Qed.

Definition any_fields (n n' : NoteBox.t) : Prop := True.

#[global] Instance any_fields_preorder : PreOrder any_fields.
Proof. split; intros ?; unfold any_fields; auto. Qed.

(** The steps that change nothing a [note_local] relation watches. *)
Lemma note_local_draws K `{!PreOrder K} this w v :
  note_local K this w (set_draws v w).
Proof. split; simpl; auto. reflexivity. Qed.

Lemma note_local_journal K `{!PreOrder K} this w v :
  note_local K this w (set_journal v w).
Proof. split; simpl; auto. reflexivity. Qed.

Lemma note_local_update K `{!PreOrder K} this w (f : NoteBox.t -> NoteBox.t) :
  K (heap w !!! this) (f (heap w !!! this)) ->
  NoteBox.id (f (heap w !!! this)) = NoteBox.id (heap w !!! this) ->
  note_local K this w (set_heap (<[this := f (heap w !!! this)]> (heap w)) w).
Proof.
  intros HK Hid. split; simpl; auto.
  - intros r Hr. by rewrite lookup_insert_ne.
  - intros r Hr. destruct (decide (this = r)) as [->|Hne].
    + by rewrite lookup_insert_eq.
    + by rewrite lookup_insert_ne.
  - by rewrite lookup_total_insert_eq.
  - by rewrite lookup_total_insert_eq.
Qed.

Lemma note_local_state_file K `{!PreOrder K} this w v :
  note_local K this w
    (set_state_files (<[NoteBox.id (heap w !!! this) := v]> (state_files w)) w).
Proof.
  split; simpl; auto; try reflexivity.
  intros j Hj. by rewrite lookup_insert_ne.
Qed.

Lemma note_local_text_file K `{!PreOrder K} this w v :
  note_local K this w
    (set_text_files (<[NoteBox.id (heap w !!! this) := v]> (text_files w)) w).
Proof.
  split; simpl; auto; try reflexivity.
  intros j Hj. by rewrite lookup_insert_ne.
Qed.

Lemma stable_mono {A} (R R' : relation World) (m : M A) :
  (forall w w', R w w' -> R' w w') -> stable R m -> stable R' m.
Proof. intros H Hm w. apply H, Hm. Qed.

Section Frames.
Variable host : Host.

Section Primitives.
Context (K : relation NoteBox.t) `{!PreOrder K} (this : ref).

Lemma log_local e : stable (note_local K this) (log e).
Proof. apply stable_modify. intros w. by apply note_local_journal. Qed.

Lemma Math_random_local : stable (note_local K this) (Math_random host).
Proof. intros w. simpl. by apply note_local_draws. Qed.

Lemma update_local (f : NoteBox.t -> NoteBox.t) :
  (forall n, K n (f n)) -> (forall n, NoteBox.id (f n) = NoteBox.id n) ->
  stable (note_local K this) (update this f).
Proof.
  intros HK Hid. apply stable_modify. intros w. by apply note_local_update.
Qed.

Lemma write_state_file_local v :
  stable (note_local K this) (write_state_file this v).
Proof. apply stable_modify. intros w. by apply note_local_state_file. Qed.

Lemma write_text_file_local v :
  stable (note_local K this) (write_text_file this v).
Proof. apply stable_modify. intros w. by apply note_local_text_file. Qed.

Lemma _computeRandomPosition_round_local k :
  stable (note_local K this) (_computeRandomPosition_round host k).
Proof.
  induction k as [|k IH]; simpl.
  - apply stable_bind; [apply _ | apply Math_random_local | intros rx].
    apply stable_bind; [apply _ | apply Math_random_local | intros ry].
    apply stable_bind; [apply _ | apply stable_gets, _ | intros usable].
    destruct usable; apply stable_ret, _.
  - apply stable_bind; [apply _ | apply Math_random_local | intros rx].
    apply stable_bind; [apply _ | apply Math_random_local | intros ry].
    apply stable_bind; [apply _ | apply stable_gets, _ | intros usable].
    destruct usable; [apply stable_ret, _ | exact IH].
Qed.

Lemma _computeRandomPosition_local :
  stable (note_local K this) (_computeRandomPosition host).
Proof. apply _computeRandomPosition_round_local. Qed.
End Primitives.

End Frames.

Ltac stable_step :=
  first
    [ apply stable_ret; apply _
    | apply stable_throw; apply _
    | apply stable_gets; apply _
    | apply log_local; apply _
    | apply Math_random_local; apply _
    | apply write_state_file_local; apply _
    | apply write_text_file_local; apply _
    | apply _computeRandomPosition_local; apply _
    | apply update_local;
      [ apply _
      | intros ?; first [ exact I | split; reflexivity ]
      | intros ?; reflexivity ]
    | apply stable_bind; [ apply _ | | intros ? ]
    | apply stable_try_catch; [ apply _ | | intros ? ]
    | apply stable_if; [ apply _ | | ]
    | match goal with
      | |- stable _ (match ?x with _ => _ end) => destruct x
      | |- stable _ (if ?x then _ else _) => destruct x
      end ].

Ltac stable_auto :=
  unfold deref, read_state_file, read_text_file; repeat stable_step.

Section MethodFrames.
Variable host : Host.
Variable this : ref.

Abbreviation geometry_only := (note_local same_but_geometry this).
Abbreviation own_only := (note_local any_fields this).

Lemma geometry_only_own_only w w' : geometry_only w w' -> own_only w w'.
Proof. apply note_local_mono. intros; exact I. Qed.

Lemma _setNotePosition_local : stable geometry_only (_setNotePosition host this).
Proof. unfold _setNotePosition. stable_auto. Qed.

Lemma _saveState_local : stable geometry_only (_saveState host this).
Proof. unfold _saveState. stable_auto. Qed.

Lemma _saveText_local : stable geometry_only (_saveText this).
Proof. unfold _saveText. stable_auto. Qed.

Lemma onlySave_local withMetadata :
  stable geometry_only (onlySave host this withMetadata).
Proof. unfold onlySave. stable_auto. Qed.

Lemma loadIntoCorrectLayer_local :
  stable geometry_only (loadIntoCorrectLayer host this).
Proof. unfold loadIntoCorrectLayer. stable_auto. Qed.

Lemma _applyColor_local r g b : stable own_only (_applyColor host this r g b).
Proof. unfold _applyColor. stable_auto. Qed.

Lemma _initStyle_local : stable own_only (_initStyle host this).
Proof. unfold _initStyle. stable_auto. Qed.

Lemma _createDefaultState_local :
  stable own_only (_createDefaultState host this).
Proof. unfold _createDefaultState. stable_auto. Qed.

Lemma _loadState_local : stable own_only (_loadState host this).
Proof.
  unfold _loadState, _loadState_try, _loadState_catch, JSON_parse.
  stable_auto.
Qed.

Lemma _loadText_local : stable own_only (_loadText this).
Proof. unfold _loadText. stable_auto. Qed.

End MethodFrames.

(** The world in which the object [this] is the note [n]. *)
Definition with_note (this : ref) (n : NoteBox.t) (w : World) : World :=
  set_heap (<[this := n]> (heap w)) w.

Lemma with_note_lookup this n w : heap (with_note this n w) !!! this = n.
Proof. unfold with_note. simpl. by rewrite lookup_total_insert_eq. Qed.

(** ** Font size *)

Section FontSize.
Variable host : Host.

(** The font size of [this] once [changeFontSize(delta)] has run. *)
Definition fontSize_after (this : ref) (delta : JS.num) (w : World) : JS.num :=
  NoteBox._fontSize (heap (world_of (changeFontSize host this delta w)) !!! this).

Lemma changeFontSize_unfold this delta w :
  changeFontSize host this delta w =
  onlySave host this true
    (if JS.gt (JS.add (NoteBox._fontSize (heap w !!! this)) delta) (JS.of_Z 1)
     then with_note this
            (NoteBox.set_fontSize
               (JS.add (NoteBox._fontSize (heap w !!! this)) delta)
               (heap w !!! this)) w
     else w).
Proof.
  unfold changeFontSize, bind, deref, gets.
  destruct (JS.gt (JS.add (NoteBox._fontSize (heap w !!! this)) delta)
              (JS.of_Z 1)); reflexivity.
Qed.

Lemma fontSize_after_eq this delta w :
  fontSize_after this delta w =
  if JS.gt (JS.add (NoteBox._fontSize (heap w !!! this)) delta) (JS.of_Z 1)
  then JS.add (NoteBox._fontSize (heap w !!! this)) delta
  else NoteBox._fontSize (heap w !!! this).
Proof.
  unfold fontSize_after. rewrite changeFontSize_unfold.
  match goal with |- context [onlySave host this true ?w1] =>
    pose proof (onlySave_local host this true w1) as Hl end.
  destruct (nl_this _ _ _ _ Hl) as [Hfs _ _ _ _ _ _]. rewrite Hfs.
  case_match; [|reflexivity].
  by rewrite with_note_lookup.
Qed.

(** C8.  [changeFontSize(delta)] changes the font size exactly when
    [fontSize + delta > 1], and then to [fontSize + delta]; otherwise the
    size stays.  On a note of size 2, delta -2 is rejected and the size is
    still 2; on a note of size 4 it is applied and the size becomes 2. *)
Theorem changeFontSize_applied_iff_above_one this delta n w :
  let at_size fs := with_note this (NoteBox.set_fontSize fs n) w in
  fontSize_after this delta (with_note this n w) =
    (if JS.gt (JS.add (NoteBox._fontSize n) delta) (JS.of_Z 1)
     then JS.add (NoteBox._fontSize n) delta
     else NoteBox._fontSize n)
  /\ JS.gt (JS.add (JS.of_Z 2) (JS.of_Z (-2))) (JS.of_Z 1) = false
  /\ fontSize_after this (JS.of_Z (-2)) (at_size (JS.of_Z 2)) = JS.of_Z 2
  /\ JS.gt (JS.add (JS.of_Z 4) (JS.of_Z (-2))) (JS.of_Z 1) = true
  /\ fontSize_after this (JS.of_Z (-2)) (at_size (JS.of_Z 4)) = JS.of_Z 2.
Proof.
  intros at_size. unfold at_size.
  rewrite !fontSize_after_eq, !with_note_lookup.
  repeat split; reflexivity.
Qed.

End FontSize.

(** ** Colour *)

Section Colour.
Variable host : Host.

(** What [_applyColor] makes of one component that is a number:
    [if (Number.isNaN(r)) r = 255; r = Math.min(Math.max(0, r), 255)]. *)
Definition channel (v : JS.num) : JS.num :=
  JS.Math_min
    (JS.Math_max (JS.of_Z 0) (if JS.isNaN v then JS.of_Z 255 else v))
    (JS.of_Z 255).

Lemma channel_range v :
  exists q, channel v = JS.Fin q /\ (0 <= q)%Q /\ (q <= 255)%Q.
Proof.
  unfold channel, JS.Math_min, JS.Math_max, JS.of_Z.
  destruct v as [|x]; simpl; eexists; (split; [reflexivity|]).
  - split; [apply Q.min_glb | apply Q.le_min_r]; [apply Q.le_max_l | done].
  - split; [apply Q.min_glb | apply Q.le_min_r]; [apply Q.le_max_l | done].
Qed.

Lemma _applyColor_unfold this r g b w :
  let r' := channel r in
  let g' := channel g in
  let b' := channel b in
  _applyColor host this (JS.VNum r) (JS.VNum g) (JS.VNum b) w =
  _saveState host this
    (with_note this
       (NoteBox.set_fontColor
          (if JS.gt (JS.add (JS.add r' g') b') (JS.of_Z 250)
           then "#000000" else "#ffffff")
          (NoteBox.set_customColor
             (JS.VStr (JS.toString r' +:+ "," +:+ JS.toString g' +:+ ","
                         +:+ JS.toString b'))
             (heap w !!! this)))
       w).
Proof.
  intros r' g' b'. unfold _applyColor, bind, update, modify, with_note.
  assert (Hc : forall v,
    JS.Math_min
      (JS.Math_max (JS.of_Z 0)
         (JS.ToNumber (if JS.Number_isNaN (JS.VNum v)
                       then JS.VNum (JS.of_Z 255) else JS.VNum v)))
      (JS.of_Z 255) = channel v).
  { intros [|x]; reflexivity. }
  rewrite !Hc. fold r' g' b'.
  destruct (JS.gt (JS.add (JS.add r' g') b') (JS.of_Z 250)); simpl;
    rewrite lookup_total_insert_eq, insert_insert_eq; reflexivity.
Qed.

(** C9.  [_applyColor(r, g, b)] on numbers: each component is replaced by
    255 when it is [NaN] and clamped into [0, 255]; the note's colour is the
    three clamped components joined by commas; the text colour is black
    exactly when their sum exceeds 250, and white otherwise.  For
    (300, 300, 300) the colour is 255,255,255 and the text is black. *)
Theorem _applyColor_clamps_and_picks_text_colour this r g b w :
  let after r g b :=
    heap (world_of
            (_applyColor host this (JS.VNum r) (JS.VNum g) (JS.VNum b) w))
      !!! this in
  (forall v, exists q, channel v = JS.Fin q /\ (0 <= q)%Q /\ (q <= 255)%Q)
  /\ (forall v, channel v = JS.Math_min (JS.Math_max (JS.of_Z 0)
                   (if JS.isNaN v then JS.of_Z 255 else v)) (JS.of_Z 255))
  /\ NoteBox.customColor (after r g b) =
       JS.VStr (JS.toString (channel r) +:+ "," +:+ JS.toString (channel g)
                  +:+ "," +:+ JS.toString (channel b))
  /\ NoteBox._fontColor (after r g b) =
       (if JS.gt (JS.add (JS.add (channel r) (channel g)) (channel b))
             (JS.of_Z 250)
        then "#000000" else "#ffffff")
  /\ NoteBox.customColor (after (JS.of_Z 300) (JS.of_Z 300) (JS.of_Z 300)) =
       JS.VStr "255,255,255"
  /\ NoteBox._fontColor (after (JS.of_Z 300) (JS.of_Z 300) (JS.of_Z 300)) =
       "#000000".
Proof.
  intros after.
  assert (Hafter : forall r g b,
    NoteBox.customColor (after r g b) =
      JS.VStr (JS.toString (channel r) +:+ "," +:+ JS.toString (channel g)
                 +:+ "," +:+ JS.toString (channel b))
    /\ NoteBox._fontColor (after r g b) =
      (if JS.gt (JS.add (JS.add (channel r) (channel g)) (channel b))
            (JS.of_Z 250)
       then "#000000" else "#ffffff")).
  { intros r0 g0 b0. unfold after. rewrite _applyColor_unfold.
    match goal with |- context [_saveState host this ?w1] =>
      pose proof (_saveState_local host this w1) as Hl end.
    destruct (nl_this _ _ _ _ Hl) as [_ _ Hcc Hfc _ _ _].
    rewrite Hcc, Hfc, with_note_lookup. split; reflexivity. }
  split; [apply channel_range|]. split; [reflexivity|].
  split; [apply Hafter|]. split; [apply Hafter|].
  destruct (Hafter (JS.of_Z 300) (JS.of_Z 300) (JS.of_Z 300)) as [-> ->].
  split; reflexivity.
Qed.

End Colour.

(** ** Saving a note whose position is a number *)

Section Saving.
Variable host : Host.

(** The world once [_saveState] has written the record of [this]. *)
Definition state_written (this : ref) (w : World) : World :=
  let n := heap w !!! this in
  set_journal
    (journal w ++ [LogSaved (NoteBox.id n) (NoteBox._x n) (NoteBox._y n)
                            (NoteBox.customColor n)])
    (set_state_files
       (<[NoteBox.id n := Parsed (stateData.json (_saveState_stateData n))]>
          (state_files w))
       w).

(** The world once [_saveText] has written the text of [this]. *)
Definition text_written (this : ref) (w : World) : World :=
  let n := heap w !!! this in
  set_text_files (<[NoteBox.id n := NoteBox.noteEntry_text n]> (text_files w)) w.

Lemma _saveState_numeric this w :
  JS.isNaN (NoteBox._x (heap w !!! this)) = false ->
  JS.isNaN (NoteBox._y (heap w !!! this)) = false ->
  _saveState host this w = Return tt (state_written this w).
Proof.
  intros Hx Hy.
  unfold _saveState, try_catch, bind, deref, gets. rewrite Hx, Hy. reflexivity.
Qed.

Lemma _saveText_eval this w : _saveText this w = Return tt (text_written this w).
Proof. reflexivity. Qed.

Lemma onlySave_numeric this w :
  JS.isNaN (NoteBox._x (heap w !!! this)) = false ->
  JS.isNaN (NoteBox._y (heap w !!! this)) = false ->
  onlySave host this true w =
  Return tt (text_written this (state_written this w)).
Proof.
  intros Hx Hy. unfold onlySave, bind.
  rewrite _saveState_numeric by done. reflexivity.
Qed.

Lemma set_fontSize_same n : NoteBox.set_fontSize (NoteBox._fontSize n) n = n.
Proof. by destruct n. Qed.

(** C10.  On a live note (its position is a number), [changeFontSize(delta)]
    leaves every field but [_fontSize] as it was, leaves the other objects
    and the list of notes alone, and writes both the state record and the
    text record of the note's id.  When the change is rejected no field
    changes at all, and both records are still written. *)
Theorem changeFontSize_frame_and_persist this delta n w :
  JS.isNaN (NoteBox._x n) = false ->
  JS.isNaN (NoteBox._y n) = false ->
  let accepted :=
    JS.gt (JS.add (NoteBox._fontSize n) delta) (JS.of_Z 1) in
  let n' :=
    NoteBox.set_fontSize
      (if accepted then JS.add (NoteBox._fontSize n) delta
       else NoteBox._fontSize n) n in
  exists w',
    changeFontSize host this delta (with_note this n w) = Return tt w'
    /\ heap w' = <[this := n']> (heap w)
    /\ _allNotes w' = _allNotes w
    /\ state_files w' =
         <[NoteBox.id n := Parsed (stateData.json (_saveState_stateData n'))]>
           (state_files w)
    /\ text_files w' =
         <[NoteBox.id n := NoteBox.noteEntry_text n]> (text_files w)
    /\ (accepted = false -> n' = n).
Proof.
  intros Hx Hy accepted n'.
  rewrite changeFontSize_unfold, with_note_lookup. fold accepted.
  assert (Hw : (if accepted
                then with_note this
                       (NoteBox.set_fontSize
                          (JS.add (NoteBox._fontSize n) delta) n)
                       (with_note this n w)
                else with_note this n w) = with_note this n' w).
  { unfold n', with_note. destruct accepted; simpl.
    - by rewrite insert_insert_eq.
    - by rewrite set_fontSize_same. }
  rewrite Hw, onlySave_numeric by (by rewrite with_note_lookup).
  eexists. split; [reflexivity|].
  unfold text_written, state_written. cbn [heap set_text_files set_journal
    set_state_files state_files text_files _allNotes].
  rewrite !with_note_lookup.
  repeat split.
  unfold n'. intros ->. apply set_fontSize_same.
Qed.

End Saving.

Lemma try_catch_bind_throw {A B} e (k : A -> M B) (h : exn -> M B) w :
  try_catch (bind (throw e) k) h w = h e w.
Proof. reflexivity. Qed.

Lemma try_catch_returns {A} (m : M A) (h : exn -> M A) w :
  returns (m w) = true -> try_catch m h w = m w.
Proof. unfold try_catch. by destruct (m w). Qed.

(** ** Computations that never throw *)

Definition total {A} (m : M A) : Prop := forall w, returns (m w) = true.

Lemma returns_bind {A B} (m : M A) (k : A -> M B) w :
  returns (m w) = true ->
  (forall a, returns (k a (world_of (m w))) = true) ->
  returns (bind m k w) = true.
Proof. unfold bind. destruct (m w); simpl; auto. Qed.

Lemma total_ret {A} (a : A) : total (ret a).
Proof. by intros w. Qed.

Lemma total_gets {A} (f : World -> A) : total (gets f).
Proof. by intros w. Qed.

Lemma total_modify f : total (modify f).
Proof. by intros w. Qed.

Lemma total_bind {A B} (m : M A) (k : A -> M B) :
  total m -> (forall a, total (k a)) -> total (bind m k).
Proof. intros Hm Hk w. apply returns_bind; auto. intros a. apply Hk. Qed.

Lemma total_try_catch {A} (m : M A) (h : exn -> M A) :
  (forall e, total (h e)) -> total (try_catch m h).
Proof.
  intros Hh w. unfold try_catch. destruct (m w); [done | apply Hh].
Qed.

Lemma total_if {A} (b : bool) (m1 m2 : M A) :
  total m1 -> total m2 -> total (if b then m1 else m2).
Proof. by destruct b. Qed.

Lemma total_Math_random host : total (Math_random host).
Proof. by intros w. Qed.

Lemma total__computeRandomPosition_round host k :
  total (_computeRandomPosition_round host k).
Proof.
  induction k as [|k IH]; simpl;
    (apply total_bind; [apply total_Math_random | intros rx]);
    (apply total_bind; [apply total_Math_random | intros ry]);
    (apply total_bind; [apply total_gets | intros usable]);
    destruct usable; auto using total_ret.
Qed.

Ltac total_step :=
  first
    [ apply total_ret
    | apply total_gets
    | apply total_modify
    | apply total_Math_random
    | apply total__computeRandomPosition_round
    | apply total_bind; [ | intros ? ]
    | apply total_try_catch; intros ?
    | apply total_if
    | match goal with
      | |- total (match ?x with _ => _ end) => destruct x
      end ].

Ltac total_auto := repeat total_step.

Section Totality.
Variable host : Host.
Variable this : ref.

Lemma total__setNotePosition : total (_setNotePosition host this).
Proof. unfold _setNotePosition. total_auto. Qed.

Lemma total__saveState : total (_saveState host this).
Proof. unfold _saveState. total_auto. Qed.

Lemma total__saveText : total (_saveText this).
Proof. unfold _saveText. total_auto. Qed.

Lemma total_onlySave withMetadata : total (onlySave host this withMetadata).
Proof. unfold onlySave. total_auto. Qed.

Lemma total__applyColor r g b : total (_applyColor host this r g b).
Proof. unfold _applyColor. total_auto. Qed.

Lemma total__createDefaultState : total (_createDefaultState host this).
Proof. unfold _createDefaultState. total_auto. Qed.

Lemma total__loadText : total (_loadText this).
Proof. unfold _loadText. total_auto. Qed.

Lemma total_loadIntoCorrectLayer : total (loadIntoCorrectLayer host this).
Proof. unfold loadIntoCorrectLayer. total_auto. Qed.

(** [_initStyle] returns as soon as the colour of the note is a string. *)
Lemma _initStyle_returns w s :
  NoteBox.customColor (heap w !!! this) = JS.VStr s ->
  returns (_initStyle host this w) = true.
Proof.
  intros Hs. unfold _initStyle, bind, deref, gets. rewrite Hs.
  apply total__applyColor.
Qed.

End Totality.

(** ** Computations that return as long as an invariant of the world holds *)

Definition safe {A} (P : World -> Prop) (m : M A) : Prop :=
  forall w, P w -> returns (m w) = true /\ P (world_of (m w)).

Section Safe.
Context (P : World -> Prop).

Lemma safe_ret {A} (a : A) : safe P (ret a).
Proof. by intros w Hw. Qed.

Lemma safe_gets {A} (f : World -> A) : safe P (gets f).
Proof. by intros w Hw. Qed.

Lemma safe_modify f : (forall w, P w -> P (f w)) -> safe P (modify f).
Proof. intros Hf w Hw. split; [done | by apply Hf]. Qed.

Lemma safe_bind {A B} (m : M A) (k : A -> M B) :
  safe P m -> (forall a, safe P (k a)) -> safe P (bind m k).
Proof.
  intros Hm Hk w Hw. destruct (Hm w Hw) as [Hr HP]. unfold bind.
  destruct (m w) as [a w'|e w']; [|done]. by apply Hk.
Qed.

Lemma safe_bind_ret {A B} (a : A) (k : A -> M B) :
  safe P (k a) -> safe P (bind (ret a) k).
Proof. intros Hk w Hw. exact (Hk w Hw). Qed.

Lemma safe_try_catch {A} (m : M A) (h : exn -> M A) :
  safe P m -> safe P (try_catch m h).
Proof.
  intros Hm w Hw. destruct (Hm w Hw) as [Hr HP]. unfold try_catch.
  by destruct (m w) as [a w'|e w'].
Qed.

Lemma safe_if {A} (b : bool) (m1 m2 : M A) :
  safe P m1 -> safe P m2 -> safe P (if b then m1 else m2).
Proof. by destruct b. Qed.

Lemma safe_total_stable {A} (R : relation World) (m : M A) :
  total m -> stable R m -> (forall w w', R w w' -> P w -> P w') -> safe P m.
Proof. intros Ht Hs HR w Hw. split; [apply Ht | eapply HR; [apply Hs | done]]. Qed.
End Safe.

(** The colour of [this] is a string: then [split] is there. *)
Definition colour_is_string (this : ref) (w : World) : Prop :=
  exists s, NoteBox.customColor (heap w !!! this) = JS.VStr s.

Lemma geometry_keeps_colour_is_string this w w' :
  note_local same_but_geometry this w w' ->
  colour_is_string this w -> colour_is_string this w'.
Proof.
  intros [_ _ _ _ [_ _ Hc _ _ _ _] _ _ _] [s Hs]. exists s. congruence.
Qed.

(** A state file from which [_loadState] can take the colour: the field
    [color] is a string, or falsy and so left aside. *)
Definition colour_readable (f : stateFile) : bool :=
  match f with
  | Parsed d =>
      match stateData.color d with
      | JS.VStr _ => true
      | v => negb (JS.truthy v)
      end
  | _ => true
  end.

Section LoadReturns.
Variable host : Host.
Variable this : ref.

Lemma safe_update_colour_is_string (f : NoteBox.t -> NoteBox.t) :
  (forall n, NoteBox.customColor (f n) = NoteBox.customColor n
             \/ exists s, NoteBox.customColor (f n) = JS.VStr s) ->
  safe (colour_is_string this) (update this f).
Proof.
  intros Hf. apply safe_modify. intros w [s Hs]. unfold colour_is_string.
  simpl. rewrite lookup_total_insert_eq.
  destruct (Hf (heap w !!! this)) as [->|[s' ->]]; eauto.
Qed.

Lemma safe_log e : safe (colour_is_string this) (log e).
Proof. apply safe_modify. intros w Hw. exact Hw. Qed.

Lemma safe__computeRandomPosition :
  safe (colour_is_string this) (_computeRandomPosition host).
Proof.
  eapply safe_total_stable;
    [ apply total__computeRandomPosition_round
    | apply (_computeRandomPosition_local host same_but_geometry this)
    | apply geometry_keeps_colour_is_string ].
Qed.

Lemma safe__setNotePosition :
  safe (colour_is_string this) (_setNotePosition host this).
Proof.
  eapply safe_total_stable;
    [ apply total__setNotePosition
    | apply _setNotePosition_local
    | apply geometry_keeps_colour_is_string ].
Qed.

Lemma safe__saveState : safe (colour_is_string this) (_saveState host this).
Proof.
  eapply safe_total_stable;
    [ apply total__saveState
    | apply _saveState_local
    | apply geometry_keeps_colour_is_string ].
Qed.

Lemma safe_loadIntoCorrectLayer :
  safe (colour_is_string this) (loadIntoCorrectLayer host this).
Proof.
  eapply safe_total_stable;
    [ apply total_loadIntoCorrectLayer
    | apply loadIntoCorrectLayer_local
    | apply geometry_keeps_colour_is_string ].
Qed.

Lemma safe_write_state_file v :
  safe (colour_is_string this) (write_state_file this v).
Proof. apply safe_modify. intros w Hw. exact Hw. Qed.

Lemma safe_write_text_file v :
  safe (colour_is_string this) (write_text_file this v).
Proof. apply safe_modify. intros w Hw. exact Hw. Qed.

Lemma safe__applyColor r g b :
  safe (colour_is_string this) (_applyColor host this r g b).
Proof.
  unfold _applyColor.
  apply safe_bind; [apply safe_update_colour_is_string; intros n; right; eauto|].
  intros _. apply safe_bind.
  - apply safe_if; apply safe_update_colour_is_string; intros n; by left.
  - intros _. apply safe__saveState.
Qed.

Lemma safe__initStyle : safe (colour_is_string this) (_initStyle host this).
Proof.
  intros w [s Hs]. unfold _initStyle, bind, deref, gets. rewrite Hs.
  apply safe__applyColor. by exists s.
Qed.

Lemma safe__createDefaultState :
  safe (colour_is_string this) (_createDefaultState host this).
Proof.
  unfold _createDefaultState. apply safe_try_catch.
  apply safe_bind; [apply safe__computeRandomPosition | intros p].
  apply safe_bind; [apply safe_gets | intros n].
  apply safe_bind; [apply safe_write_state_file | intros _].
  apply safe_ret.
Qed.

Lemma safe__loadText : safe (colour_is_string this) (_loadText this).
Proof.
  unfold _loadText.
  apply safe_bind; [apply safe_gets | intros file].
  apply safe_bind; [apply safe_if; [apply safe_write_text_file | apply safe_ret]|].
  intros _. apply safe_try_catch.
  apply safe_bind; [apply safe_gets | intros [content|]].
  - apply safe_update_colour_is_string. intros n; by left.
  - apply safe_ret.
Qed.

(** The [catch] block of [_loadState]. *)
Lemma safe__loadState_catch e :
  safe (colour_is_string this) (_loadState_catch host this e).
Proof.
  unfold _loadState_catch.
  apply safe_bind; [apply safe_log | intros _].
  apply safe_bind; [apply safe__computeRandomPosition | intros p].
  do 5 (apply safe_bind;
        [apply safe_update_colour_is_string; intros n; by left | intros _]).
  apply safe_bind; [apply safe__setNotePosition | intros _].
  apply safe__initStyle.
Qed.

(** The [try] block of [_loadState] on a record with a readable colour. *)
Lemma safe__loadState_try d :
  colour_readable (Parsed d) = true ->
  safe (colour_is_string this) (_loadState_try host this (Parsed d)).
Proof.
  intros Hf. unfold _loadState_try, JSON_parse.
  apply safe_bind_ret.
  apply safe_bind.
  { destruct (JS.truthy (stateData.color d)) eqn:Ht; [|apply safe_ret].
    apply safe_update_colour_is_string. intros n. right. simpl.
    unfold colour_readable in Hf.
    destruct (stateData.color d);
      try (rewrite Ht in Hf; discriminate); eauto. }
  intros _.
  do 7 (apply safe_bind;
        [apply safe_update_colour_is_string; intros n; by left | intros _]).
  apply safe_bind; [apply safe_gets | intros n].
  apply safe_bind.
  { apply safe_if; [|apply safe_ret].
    apply safe_bind; [apply safe_log | intros _].
    apply safe_bind; [apply safe__computeRandomPosition | intros p].
    apply safe_update_colour_is_string; intros n'; by left. }
  intros _.
  apply safe_bind; [apply safe__setNotePosition | intros _].
  apply safe_bind; [apply safe__initStyle | intros _].
  apply safe_bind; [apply safe_gets | intros n'].
  apply safe_log.
Qed.

Lemma _loadState_unfold w :
  _loadState host this w =
  match state_files w !! NoteBox.id (heap w !!! this) with
  | None => (_createDefaultState host this;; _initStyle host this) w
  | Some contents =>
      try_catch (_loadState_try host this contents)
                (_loadState_catch host this) w
  end.
Proof.
  unfold _loadState, bind at 1, read_state_file, gets.
  by destruct (state_files w !! NoteBox.id (heap w !!! this)).
Qed.

(** [_loadState] returns when the colour that the constructor gave the
    note is a string and the state file, if there is one, has a readable
    colour. *)
Lemma _loadState_returns w :
  colour_is_string this w ->
  (forall f, state_files w !! NoteBox.id (heap w !!! this) = Some f ->
             colour_readable f = true) ->
  returns (_loadState host this w) = true
  /\ colour_is_string this (world_of (_loadState host this w)).
Proof.
  intros Hc Hf. rewrite _loadState_unfold.
  destruct (state_files w !! NoteBox.id (heap w !!! this)) as [f|] eqn:Hfile.
  - specialize (Hf f eq_refl). destruct f as [| |d].
    + exact (safe__loadState_catch SyntaxError w Hc).
    + exact (safe__loadState_catch TypeError w Hc).
    + clear Hfile. revert w Hc.
      apply safe_try_catch. by apply safe__loadState_try.
  - clear Hfile Hf. revert w Hc.
    apply (safe_bind _ (_createDefaultState host this)
             (fun _ => _initStyle host this)).
    + apply safe__createDefaultState.
    + intros _. apply safe__initStyle.
Qed.

End LoadReturns.

(** ** The ids of the live notes *)

(** The ids of the notes of the list, in the order of the list. *)
Definition live_ids (w : World) : list nat :=
  map (fun r => NoteBox.id (heap w !!! r)) (_allNotes w).

(** The ids of the live notes are exactly 0, ..., N - 1, N being the size
    of the list. *)
Definition dense_ids (w : World) : Prop :=
  forall i, i ∈ live_ids w <-> (i < length (_allNotes w))%nat.

(** ** The constructor and [createNote] *)

Section Construction.
Variable host : Host.

(** [_computeRandomPosition] returns two numbers and only consumes draws. *)
Lemma _computeRandomPosition_round_draws k w :
  exists x y d,
    _computeRandomPosition_round host k w =
    Return (JS.Fin x, JS.Fin y) (set_draws d w).
Proof.
  revert w. induction k as [|k IH]; intros w;
    cbn [_computeRandomPosition_round];
    unfold bind, Math_random, areCoordsUsable, gets;
    match goal with |- context [if ?b then _ else _] => destruct b end;
    try (do 3 eexists; reflexivity).
  match goal with
  | |- context [_computeRandomPosition_round host k ?w1] =>
      destruct (IH w1) as (x & y & d & ->)
  end.
  do 3 eexists; reflexivity.
Qed.

Lemma _computeRandomPosition_draws w :
  exists x y d,
    _computeRandomPosition host w =
    Return (JS.Fin x, JS.Fin y) (set_draws d w).
Proof. apply _computeRandomPosition_round_draws. Qed.

(** What the constructor does once the object is there. *)
Definition NoteBox_load (this : ref) : M ref :=
  _loadState host this;;
  _loadText this;;
  loadIntoCorrectLayer host this;;
  ret this.

Lemma NoteBox_load_local this :
  stable (note_local any_fields this) (NoteBox_load this).
Proof.
  unfold NoteBox_load.
  apply stable_bind; [apply _ | apply _loadState_local | intros _].
  apply stable_bind; [apply _ | apply _loadText_local | intros _].
  apply stable_bind; [apply _ | | intros _; apply stable_ret, _].
  eapply stable_mono;
    [apply geometry_only_own_only | apply loadIntoCorrectLayer_local].
Qed.

Lemma NoteBox_load_value this w note w' :
  NoteBox_load this w = Return note w' -> note = this.
Proof.
  unfold NoteBox_load, bind, ret.
  destruct (_loadState host this w) as [? w1|]; [|done].
  destruct (_loadText this w1) as [? w2|]; [|done].
  destruct (loadIntoCorrectLayer host this w2) as [? w3|]; [|done].
  congruence.
Qed.

Lemma NoteBox_new_unfold id colorString fontSize w :
  exists x y d,
    let this := fresh (dom (heap w)) in
    NoteBox_new host id colorString fontSize w =
    NoteBox_load this
      (with_note this
         (NoteBox_fields id colorString fontSize (JS.Fin x, JS.Fin y))
         (set_draws d w)).
Proof.
  destruct (_computeRandomPosition_draws w) as (x & y & d & Hp).
  exists x, y, d. unfold NoteBox_new, bind at 1. rewrite Hp. reflexivity.
Qed.

(** The constructor leaves the list of notes, the objects that were there
    and the files of the other ids as they are; the object it returns is a
    new one and carries the id it was given. *)
Lemma NoteBox_new_frame id colorString fontSize w :
  let o := NoteBox_new host id colorString fontSize w in
  _allNotes (world_of o) = _allNotes w
  /\ _notesLoaded (world_of o) = _notesLoaded w
  /\ (forall r, is_Some (heap w !! r) -> heap (world_of o) !! r = heap w !! r)
  /\ (forall j, j <> id -> state_files (world_of o) !! j = state_files w !! j)
  /\ (forall j, j <> id -> text_files (world_of o) !! j = text_files w !! j)
  /\ (forall note w', o = Return note w' ->
        heap w !! note = None
        /\ is_Some (heap w' !! note)
        /\ NoteBox.id (heap w' !!! note) = id).
Proof.
  destruct (NoteBox_new_unfold id colorString fontSize w)
    as (x & y & d & Hnew). simpl in Hnew. intros o. unfold o. rewrite Hnew.
  set (this := fresh (dom (heap w))).
  assert (Hfresh : heap w !! this = None).
  { apply not_elem_of_dom. apply is_fresh. }
  match goal with |- context [NoteBox_load this ?w2] =>
    pose proof (NoteBox_load_local this w2) as [Hn Hl Ho Ha _ Hid Hs Ht] end.
  rewrite with_note_lookup in Hid, Hs, Ht. simpl in *.
  repeat split; auto.
  - intros r [v Hv]. rewrite Ho by congruence. by rewrite lookup_insert_ne by congruence.
  - apply NoteBox_load_value in H. by subst note.
  - pose proof H as Hv. apply NoteBox_load_value in Hv. subst note.
    rewrite H in Ha. apply Ha. by rewrite lookup_insert_eq.
  - pose proof H as Hv. apply NoteBox_load_value in Hv. subst note.
    rewrite H in Hid. exact Hid.
Qed.

(** The constructor returns when the colour it is given is a string and
    the state file of the id, if there is one, has a readable colour. *)
Lemma NoteBox_new_returns id s fontSize w :
  (forall f, state_files w !! id = Some f -> colour_readable f = true) ->
  returns (NoteBox_new host id (JS.VStr s) fontSize w) = true.
Proof.
  intros Hf.
  destruct (NoteBox_new_unfold id (JS.VStr s) fontSize w)
    as (x & y & d & Hnew). simpl in Hnew. rewrite Hnew. clear Hnew.
  set (this := fresh (dom (heap w))).
  match goal with |- context [NoteBox_load this ?w0] => set (w2 := w0) end.
  assert (Hc : colour_is_string this w2).
  { unfold colour_is_string, w2. rewrite with_note_lookup. simpl.
    unfold JS.or. destruct (JS.truthy (JS.VStr s)); eauto. }
  assert (Hf2 : forall f,
    state_files w2 !! NoteBox.id (heap w2 !!! this) = Some f ->
    colour_readable f = true).
  { unfold w2. rewrite with_note_lookup. exact Hf. }
  destruct (_loadState_returns host this w2 Hc Hf2) as [Hr1 Hc1].
  unfold NoteBox_load. apply returns_bind; [exact Hr1 | intros _].
  destruct (safe__loadText this _ Hc1) as [Hr2 Hc2].
  apply returns_bind; [exact Hr2 | intros _].
  destruct (safe_loadIntoCorrectLayer host this _ Hc2) as [Hr3 Hc3].
  apply returns_bind; [exact Hr3 | intros _]. reflexivity.
Qed.

Lemma createNote_unfold colorString fontSize w :
  createNote host colorString fontSize w =
  match NoteBox_new host (length (_allNotes w)) colorString fontSize w with
  | Return note w1 => Return note (set_allNotes (_allNotes w1 ++ [note]) w1)
  | Throw e w1 =>
      Throw e
        (set_journal
           ((journal w1
               ++ [Notify "Notes extension error: failed to load a note"])
              ++ [LogCreateFailed (length (_allNotes w)) e])
           w1)
  end.
Proof.
  unfold createNote, bind, gets, try_catch.
  by destruct (NoteBox_new host (length (_allNotes w)) colorString fontSize w).
Qed.

(** All the notes of the list are objects. *)
Definition allocated (w : World) : Prop :=
  forall r, r ∈ _allNotes w -> is_Some (heap w !! r).

(** [createNote] on a readable directory: one note is appended, its id is
    the former length, and the state files of the other ids are as
    before. *)
Lemma createNote_returns s fontSize w :
  (forall f, state_files w !! length (_allNotes w) = Some f ->
             colour_readable f = true) ->
  exists note w',
    createNote host (JS.VStr s) fontSize w = Return note w'
    /\ _allNotes w' = _allNotes w ++ [note]
    /\ (allocated w -> allocated w'
                       /\ live_ids w' = live_ids w ++ [length (_allNotes w)])
    /\ (forall j, j <> length (_allNotes w) ->
          state_files w' !! j = state_files w !! j).
Proof.
  intros Hf.
  pose proof (NoteBox_new_returns (length (_allNotes w)) s fontSize w Hf) as Hr.
  pose proof (NoteBox_new_frame (length (_allNotes w)) (JS.VStr s) fontSize w)
    as (Hn & _ & Ho & Hs & _ & Hret). simpl in Hn, Ho, Hs, Hret.
  rewrite createNote_unfold.
  destruct (NoteBox_new host (length (_allNotes w)) (JS.VStr s) fontSize w)
    as [note w1|e w1]; [|done].
  destruct (Hret note w1 eq_refl) as (Hnew & Hsome & Hid). simpl in *.
  exists note. eexists. split; [reflexivity|]. simpl.
  rewrite Hn. split_and!; auto.
  intros Halloc. split.
  - intros r [Hr'|Hr']%elem_of_app.
    + rewrite Ho by auto. auto.
    + apply list_elem_of_singleton in Hr'. by subst r.
  - unfold live_ids. simpl. rewrite map_app. simpl. f_equal.
    + apply map_ext_in. intros r Hr'%list_elem_of_In.
      unfold lookup_total, map_lookup_total. by rewrite Ho by auto.
    + by rewrite Hid.
Qed.

(** C7.  [createNote] asks the constructor for a note whose id is the
    length of the list.  When the constructor throws, [createNote] notifies
    the user, logs, and throws the same exception; the list of notes is as
    before and so is every object that was there.  When the constructor
    returns, exactly that one new note is appended to the list, and its id
    is the former length. *)
Theorem createNote_appends_or_reraises colorString fontSize w :
  let nextId := length (_allNotes w) in
  match NoteBox_new host nextId colorString fontSize w with
  | Throw e w1 =>
      exists w',
        createNote host colorString fontSize w = Throw e w'
        /\ journal w' =
             (journal w1
                ++ [Notify "Notes extension error: failed to load a note"])
               ++ [LogCreateFailed nextId e]
        /\ _allNotes w' = _allNotes w
        /\ (forall r, is_Some (heap w !! r) -> heap w' !! r = heap w !! r)
  | Return note w1 =>
      exists w',
        createNote host colorString fontSize w = Return note w'
        /\ _allNotes w' = _allNotes w ++ [note]
        /\ heap w !! note = None
        /\ NoteBox.id (heap w' !!! note) = nextId
        /\ (forall r, is_Some (heap w !! r) -> heap w' !! r = heap w !! r)
  end.
Proof.
  intros nextId.
  pose proof (NoteBox_new_frame nextId colorString fontSize w)
    as (Hn & _ & Ho & _ & _ & Hret). simpl in Hn, Ho, Hret.
  rewrite createNote_unfold. fold nextId.
  destruct (NoteBox_new host nextId colorString fontSize w)
    as [note w1|e w1].
  - destruct (Hret note w1 eq_refl) as (Hnew & _ & Hid).
    eexists. split; [reflexivity|]. simpl in *. rewrite Hn. auto.
  - eexists. split; [reflexivity|]. simpl in *. auto.
Qed.

End Construction.

(** ** Deleting *)

Section Deleting.
Variable host : Host.

(** [_deleteNoteFiles(id)] returns and removes nothing: the first
    [Gio.File.new_for_path] throws inside the [try], and the [catch] block
    logs the error. *)
Lemma _deleteNoteFiles_effect id w :
  _deleteNoteFiles id w =
  Return tt (set_journal (journal w ++ [LogDeleteFilesError TypeError]) w).
Proof. reflexivity. Qed.

(** [_saveState] returns: it settles the position when that is not a
    number, which touches the geometry only, and then writes the record of
    the fields as they then are. *)
Lemma _saveState_effect this w :
  exists w1,
    note_local same_but_geometry this w w1
    /\ _saveState host this w = Return tt (state_written this w1).
Proof.
  set (fix_position :=
    (if JS.isNaN (NoteBox._x (heap w !!! this))
        || JS.isNaN (NoteBox._y (heap w !!! this))
     then
       log LogInvalidSaving;;
       p ← _computeRandomPosition host;
       update this (NoteBox.set_position p);;
       _setNotePosition host this
     else ret tt) : M unit).
  assert (Ht : total fix_position) by (unfold fix_position; total_auto; apply total__setNotePosition).
  assert (Hs : stable (note_local same_but_geometry this) fix_position).
  { unfold fix_position. stable_auto. }
  specialize (Ht w). specialize (Hs w).
  destruct (fix_position w) as [[] w1|] eqn:Hfix; [|done].
  exists w1. split; [exact Hs|].
  unfold _saveState, try_catch, bind at 1, deref at 1, gets at 1.
  unfold bind at 1. fold fix_position. rewrite Hfix. reflexivity.
Qed.

Lemma onlySave_effect this w :
  exists w1,
    note_local same_but_geometry this w w1
    /\ onlySave host this true w =
       Return tt (text_written this (state_written this w1)).
Proof.
  destruct (_saveState_effect this w) as (w1 & Hl & Hs).
  exists w1. split; [done|]. unfold onlySave, bind. by rewrite Hs.
Qed.

Lemma set_id_same_but_geometry id n :
  same_but_geometry n (NoteBox.set_id id n).
Proof. by split. Qed.

(** What [postDelete(id)] does on a list of [N] notes, [id < N]: it
    returns, no object is lost, and the list, the objects and the files are
    as described below, by cases on [id] being the last index.  No file is
    removed in either case, [_deleteNoteFiles] being what it is. *)
Lemma postDelete_effect id w :
  (id < length (_allNotes w))%nat ->
  let N := length (_allNotes w) in
  exists w',
    postDelete host id w = Return tt w'
    /\ (forall r, is_Some (heap w !! r) -> is_Some (heap w' !! r))
    /\ if decide (id = N - 1)%nat then
         _allNotes w' = removelast (_allNotes w)
         /\ heap w' = heap w
         /\ state_files w' = state_files w
         /\ text_files w' = text_files w
       else
         exists lastNote,
           last (_allNotes w) = Some lastNote
           /\ _allNotes w' = <[id := lastNote]> (removelast (_allNotes w))
           /\ _allNotes w' !! id = Some lastNote
           /\ NoteBox.id (heap w' !!! lastNote) = id
           /\ same_but_geometry (heap w !!! lastNote) (heap w' !!! lastNote)
           /\ (forall r, r <> lastNote -> heap w' !! r = heap w !! r)
           /\ state_files w' !! id =
                Some (Parsed (stateData.json
                                (_saveState_stateData (heap w' !!! lastNote))))
           /\ text_files w' !! id =
                Some (NoteBox.noteEntry_text (heap w' !!! lastNote))
           /\ (forall j, j <> id ->
                 state_files w' !! j = state_files w !! j
                 /\ text_files w' !! j = text_files w !! j).
Proof.
  intros Hid N.
  destruct (last (_allNotes w)) as [lastNote|] eqn:Hlast;
    [|apply last_None in Hlast; rewrite Hlast in Hid; simpl in Hid; lia].
  apply last_Some in Hlast as [l' Hl].
  assert (HN : N = S (length l')).
  { unfold N. rewrite Hl, length_app. simpl. lia. }
  unfold postDelete, bind at 1, gets at 1. unfold bind at 1, log at 1, modify at 1.
  fold N. unfold bind at 1. rewrite _deleteNoteFiles_effect.
  unfold bind at 1, gets at 1. cbn [_allNotes set_journal]. fold N.
  destruct (N <=? id)%nat eqn:Hle; [apply Nat.leb_le in Hle; lia|].
  unfold bind at 1, pop. cbn [_allNotes set_journal].
  rewrite Hl, removelast_last, last_snoc.
  unfold bind at 1, gets at 1. unfold bind at 1, gets at 1.
  cbn [_allNotes set_allNotes].
  case_decide as Hcase.
  - assert (Hlt : (id <? length l')%nat = false) by (apply Nat.ltb_ge; lia).
    rewrite Hlt. eexists. split; [reflexivity|]. simpl. auto.
  - assert (Hlt : (id <? length l')%nat = true) by (apply Nat.ltb_lt; lia).
    rewrite Hlt. apply Nat.ltb_lt in Hlt.
    unfold bind at 1, update at 1, modify at 1.
    unfold bind at 1, modify at 1.
    unfold bind at 1, gets at 1. cbn [_allNotes set_allNotes set_heap].
    rewrite list_lookup_insert_eq by done.
    unfold bind at 1.
    match goal with |- context [onlySave host lastNote true ?we] =>
      destruct (onlySave_effect lastNote we) as (w1 & Hloc & ->);
      set (w_e := we) in * end.
    destruct Hloc as [H1_notes _ H1_others H1_alloc H1_this H1_id H1_state
                        H1_text].
    assert (He_this : heap w_e !!! lastNote
                      = NoteBox.set_id id (heap w !!! lastNote)).
    { unfold w_e. simpl. by rewrite lookup_total_insert_eq. }
    rewrite He_this in H1_this, H1_id, H1_state, H1_text.
    simpl in H1_id, H1_state, H1_text.
    unfold bind at 1, log at 1, modify at 1.
    rewrite _deleteNoteFiles_effect.
    eexists. split; [reflexivity|].
    unfold text_written, state_written.
    cbn [_allNotes heap state_files text_files set_journal set_text_files
         set_state_files].
    rewrite H1_id.
    split.
    { intros r Hr. apply H1_alloc. unfold w_e. simpl.
      destruct (decide (lastNote = r)) as [->|Hne].
      - by rewrite lookup_insert_eq.
      - by rewrite lookup_insert_ne. }
    exists lastNote.
    rewrite H1_notes.
    unfold w_e at 1 2. cbn [_allNotes set_allNotes set_heap].
    split_and!.
    + done.
    + done.
    + by apply list_lookup_insert_eq.
    + exact H1_id.
    + etransitivity; [apply set_id_same_but_geometry | exact H1_this].
    + intros r Hr. rewrite H1_others by done. unfold w_e. simpl.
      by rewrite lookup_insert_ne by done.
    + by rewrite lookup_insert_eq.
    + by rewrite lookup_insert_eq.
    + intros j Hj. split.
      * by rewrite lookup_insert_ne, H1_state by done.
      * by rewrite lookup_insert_ne, H1_text by done.
Qed.

(** Putting an element that is not in a list at a place of that list keeps
    the list free of repetitions. *)
Lemma NoDup_insert_fresh (l : list ref) (i : nat) (x : ref) :
  NoDup l -> x ∉ l -> NoDup (<[i := x]> l).
Proof.
  intros Hl Hx. apply NoDup_alt. intros j1 j2 y H1 H2.
  destruct (decide (i = j1)) as [->|Hn1];
    destruct (decide (j1 = j2)) as [->|Hn2]; try done.
  - apply list_lookup_insert_Some in H1 as [(_ & <- & _)|[? _]]; [|done].
    rewrite list_lookup_insert_ne in H2 by done.
    destruct Hx. by eapply list_elem_of_lookup_2.
  - rewrite list_lookup_insert_ne in H1 by done.
    destruct (decide (i = j2)) as [->|Hn3].
    + apply list_lookup_insert_Some in H2 as [(_ & <- & _)|[? _]]; [|done].
      destruct Hx. by eapply list_elem_of_lookup_2.
    + rewrite list_lookup_insert_ne in H2 by done.
      eapply NoDup_alt in Hl; eauto.
Qed.

(** X20.  [postDelete] is the renumbering that keeps the ids dense: on a
    list of [N] distinct notes whose ids are 0, ..., N - 1 in this order,
    [postDelete(id)] returns and leaves [N - 1] distinct notes whose ids
    are 0, ..., N - 2. *)
Lemma postDelete_keeps_ids_dense id w :
  (id < length (_allNotes w))%nat ->
  NoDup (_allNotes w) ->
  live_ids w = seq 0 (length (_allNotes w)) ->
  exists w',
    postDelete host id w = Return tt w'
    /\ length (_allNotes w') = (length (_allNotes w) - 1)%nat
    /\ NoDup (_allNotes w')
    /\ live_ids w' = seq 0 (length (_allNotes w')).
Proof.
  intros Hid Hnodup Hids.
  destruct (postDelete_effect id w Hid) as (w' & Hrun & _ & Hcase).
  exists w'. split; [exact Hrun|]. simpl in Hcase.
  destruct (last (_allNotes w)) as [lastNote|] eqn:Hlast;
    [|apply last_None in Hlast; rewrite Hlast in Hid; simpl in Hid; lia].
  apply last_Some in Hlast as [l' Hl].
  unfold live_ids in *. rewrite Hl in *.
  rewrite removelast_last in Hcase.
  rewrite length_app, Nat.add_1_r, Nat.sub_1_r, Nat.pred_succ in *.
  rewrite seq_S, map_app in Hids. simpl in Hids.
  apply app_inj_tail in Hids as [Hids Hlast].
  apply NoDup_app in Hnodup as (Hnodup & Hfresh & _).
  assert (Hnew : lastNote ∉ l').
  { intros Hin. apply (Hfresh _ Hin). by apply list_elem_of_singleton. }
  case_decide as Hc.
  - destruct Hcase as (-> & Hheap & _). split_and!; [done..|].
    unfold lookup_total, map_lookup_total. by rewrite Hheap.
  - destruct Hcase as (lastNote' & Hsame & -> & _ & Hnewid & _ & Hothers & _).
    injection Hsame as <-.
    rewrite length_insert. split_and!; [done | by apply NoDup_insert_fresh |].
    apply list_eq. intros i.
    rewrite list_lookup_fmap.
    destruct (decide (id = i)) as [<-|Hne].
    + rewrite list_lookup_insert_eq by lia. simpl.
      rewrite Hnewid. symmetry. apply lookup_seq. lia.
    + rewrite list_lookup_insert_ne by done.
      rewrite <- Hids, list_lookup_fmap.
      destruct (l' !! i) as [r|] eqn:Hr; [|done]. simpl.
      assert (Hrl : r <> lastNote).
      { intros ->. apply Hnew. by eapply list_elem_of_lookup_2. }
      unfold lookup_total, map_lookup_total. by rewrite (Hothers r Hrl).
Qed.

End Deleting.

(** ** The operations of a user *)

(** The operations on the collection that a user can trigger: the "New"
    button of a note, and the confirmed "Delete" of the note that stands at
    some place of the list. *)
Inductive operation : Type :=
| Create
| Delete (index : nat).

Definition perform (host : Host) (op : operation) (w : World) : World :=
  match op with
  | Create => world_of (createNote host (JS.VStr "") (JS.of_Z 16) w)
  | Delete index =>
      match _allNotes w !! index with
      | Some note => world_of (_deleteNoteObject note w)
      | None => w
      end
  end.

Definition perform_all (host : Host) (ops : list operation) (w : World)
  : World :=
  foldl (fun w op => perform host op w) w ops.

(** The manager as its constructor leaves it before [_loadAllNotes], on an
    empty notes directory. *)
Definition empty_world : World := mkWorld [] false ∅ ∅ ∅ O [].

(** A full-HD monitor; the draws follow a fixed pattern in [0, 1). *)
Definition full_hd : Host :=
  mkHost 1920 1080 (fun n => Z.of_nat ((n * 37 + 11) mod 100) # 100).

(** C1, at the input on which it fails.  Three notes are created, then the
    first is deleted through its "Delete" button: two notes are left and
    their ids are 1 and 2, not 0 and 1.  The next note created gets the id
    2 as well. *)
Theorem _deleteNoteObject_leaves_a_gap :
  let w3 := perform_all full_hd [Create; Create; Create] empty_world in
  let w4 := perform full_hd (Delete 0) w3 in
  let w5 := perform full_hd Create w4 in
  dense_ids w3
  /\ live_ids w4 = [1; 2]%nat
  /\ length (_allNotes w4) = 2%nat
  /\ ~ dense_ids w4
  /\ live_ids w5 = [1; 2; 2]%nat.
Proof.
  intros w3 w4 w5.
  assert (H3 : live_ids w3 = [0; 1; 2]%nat) by (vm_compute; reflexivity).
  assert (H4 : live_ids w4 = [1; 2]%nat) by (vm_compute; reflexivity).
  assert (L3 : length (_allNotes w3) = 3%nat) by (vm_compute; reflexivity).
  assert (L4 : length (_allNotes w4) = 2%nat) by (vm_compute; reflexivity).
  split_and!.
  - intros i. rewrite H3, L3. rewrite !elem_of_cons, elem_of_nil. lia.
  - exact H4.
  - exact L4.
  - intros Hd. specialize (Hd 0%nat). rewrite H4, L4 in Hd.
    rewrite !elem_of_cons, elem_of_nil in Hd. lia.
  - vm_compute; reflexivity.
Qed.

(** ** Loading the notes of the directory *)

Section Loading.
Variable host : Host.

(** The state files of the ids from [i] up to [k - 1] are there and have a
    readable colour, and the state file of [k] is missing. *)
Definition readable_until (w : World) (i k : nat) : Prop :=
  (forall j, (i <= j < k)%nat ->
     exists f, state_files w !! j = Some f /\ colour_readable f = true)
  /\ state_files w !! k = None.

Lemma _loadAllNotes_scan_readable fuel :
  forall i notesFound w k,
    length (_allNotes w) = i -> allocated w -> live_ids w = seq 0 i ->
    readable_until w i k -> (i <= k)%nat -> (k - i < fuel)%nat ->
    exists w',
      _loadAllNotes_scan host fuel i notesFound w =
        Return (Some (notesFound || (i <? k)%nat)) w'
      /\ length (_allNotes w') = k
      /\ allocated w'
      /\ live_ids w' = seq 0 k
      /\ state_files w' !! k = None.
Proof.
  induction fuel as [|fuel IH]; intros i notesFound w k Hlen Ha Hids [Hr Hk] Hik Hfuel;
    [lia|].
  cbn [_loadAllNotes_scan]. unfold bind at 1, gets at 1.
  destruct (decide (i = k)) as [->|Hne].
  - rewrite Hk. rewrite bool_decide_eq_false_2 by (by intros [? ?]).
    rewrite Nat.ltb_irrefl, orb_false_r. exists w. by split_and!.
  - destruct (Hr i ltac:(lia)) as (f & Hf & Hread).
    rewrite Hf. rewrite bool_decide_eq_true_2 by eauto.
    destruct (createNote_returns host "" (JS.of_Z 16) w)
      as (note & w1 & Hcreate & Hnotes & Halloc & Hfiles).
    { rewrite Hlen, Hf. intros ? [= <-]. exact Hread. }
    destruct (Halloc Ha) as [Ha1 Hids1].
    unfold bind at 1. rewrite Hcreate.
    destruct (IH (S i) true w1 k) as (w' & Hscan & Hrest).
    + rewrite Hnotes, length_app, Hlen. simpl. lia.
    + exact Ha1.
    + rewrite Hids1, Hids, Hlen, seq_S. reflexivity.
    + split.
      * intros j Hj. rewrite Hfiles by lia. apply Hr. lia.
      * rewrite Hfiles by lia. exact Hk.
    + lia.
    + lia.
    + exists w'. split; [|exact Hrest]. rewrite Hscan.
      replace (i <? k)%nat with true by (symmetry; apply Nat.ltb_lt; lia).
      by rewrite orb_true_r.
Qed.

(** The scan on records whose colour can be read.  On a manager without
    notes yet, when the state files of the ids 0 to k - 1 are there with a
    readable colour (a string, or none), parsing or not, and the state file
    of k is missing, [_loadAllNotes] returns once it is given more than k
    rounds; it has created k notes, with the ids 0 to k - 1 in that order,
    whatever files there are beyond k; when k is 0 it has created exactly
    one note, with id 0. *)
Lemma _loadAllNotes_loads_readable_prefix w k fuel :
  _allNotes w = [] ->
  (forall j, (j < k)%nat ->
     exists f, state_files w !! j = Some f /\ colour_readable f = true) ->
  state_files w !! k = None ->
  (k < fuel)%nat ->
  exists w',
    _loadAllNotes host fuel w = Return (Some tt) w'
    /\ length (_allNotes w') = match k with O => 1%nat | _ => k end
    /\ live_ids w' = seq 0 (length (_allNotes w'))
    /\ _notesLoaded w' = true.
Proof.
  intros Hnil Hr Hk Hfuel.
  destruct (_loadAllNotes_scan_readable fuel 0 false w k)
    as (w1 & Hscan & Hlen & Ha & Hids & Hk1).
  - by rewrite Hnil.
  - intros r. rewrite Hnil. by intros ?%elem_of_nil.
  - unfold live_ids. by rewrite Hnil.
  - split; [|exact Hk]. intros j Hj. apply Hr. lia.
  - lia.
  - lia.
  - unfold _loadAllNotes, bind at 1. rewrite Hscan. simpl orb.
    destruct k as [|k].
    + change (0 <? 0)%nat with false. cbn [negb].
      set (w1' := set_journal (journal w1 ++ [LogNoNotesFound]) w1).
      destruct (createNote_returns host "" (JS.of_Z 16) w1')
        as (note & w2 & Hcreate & Hnotes & Halloc & _).
      { simpl. rewrite Hlen, Hk1. by intros ? [=]. }
      destruct (Halloc Ha) as [_ Hids2].
      unfold bind at 1. unfold bind at 1. unfold bind at 1, log at 1, modify at 1.
      unfold bind at 1. fold w1'. rewrite Hcreate.
      eexists. split; [reflexivity|]. simpl.
      rewrite Hnotes. simpl. rewrite length_app, Hlen. simpl.
      split_and!; [done| |done].
      change (live_ids w2 = [0%nat]). rewrite Hids2.
      change (live_ids w1') with (live_ids w1). rewrite Hids.
      simpl. by rewrite Hlen.
    + replace (0 <? S k)%nat with true by done. cbn [negb].
      eexists. split; [reflexivity|]. simpl. rewrite Hlen.
      split_and!; first [done | exact Hids].
Qed.

End Loading.

(** ** Running the methods on a note whose position is a number *)

Lemma bind_ret {A B} (a : A) (k : A -> M B) w : bind (ret a) k w = k a w.
Proof. reflexivity. Qed.

Lemma bind_update {B} this f (k : unit -> M B) w :
  bind (update this f) k w = k tt (with_note this (f (heap w !!! this)) w).
Proof. reflexivity. Qed.

Lemma bind_deref {B} this (k : NoteBox.t -> M B) w :
  bind (deref this) k w = k (heap w !!! this) w.
Proof. reflexivity. Qed.

Lemma bind_log {B} e (k : unit -> M B) w :
  bind (log e) k w = k tt (set_journal (journal w ++ [e]) w).
Proof. reflexivity. Qed.

Lemma with_note_with_note this n n' w :
  with_note this n' (with_note this n w) = with_note this n' w.
Proof. unfold with_note. simpl. by rewrite insert_insert_eq. Qed.

Section Evaluation.
Variable host : Host.

(** What [_setNotePosition] makes of the fields: the size is floored to
    the minimum, then the position is clamped into the monitor. *)
Definition settled (n : NoteBox.t) : NoteBox.t :=
  let n1 :=
    NoteBox.set_width
      (JS.Math_max (JS.or_num (NoteBox._width n) (JS.of_Z 250)) MIN_WIDTH) n in
  let n2 :=
    NoteBox.set_height
      (JS.Math_max (JS.or_num (NoteBox._height n1) (JS.of_Z 180)) MIN_HEIGHT)
      n1 in
  let n3 :=
    NoteBox.set_x
      (JS.Math_max (JS.of_Z 0)
         (JS.Math_min (NoteBox._x n2)
            (JS.sub (primaryMonitor_width host) (NoteBox._width n2)))) n2 in
  NoteBox.set_y
    (JS.Math_max (JS.of_Z 0)
       (JS.Math_min (NoteBox._y n3)
          (JS.sub (primaryMonitor_height host) (NoteBox._height n3)))) n3.

(** The world once [_setNotePosition] has run on [this]. *)
Definition position_set (this : ref) (w : World) : World :=
  let n := heap w !!! this in
  let n' := settled n in
  let w1 := with_note this n' w in
  if JS.strict_ne (NoteBox._x n) (NoteBox._x n')
     || JS.strict_ne (NoteBox._y n) (NoteBox._y n')
  then set_journal
         (journal w1 ++ [LogAdjusted (NoteBox._x n) (NoteBox._y n)
                                     (NoteBox._x n') (NoteBox._y n')])
         w1
  else w1.

Lemma _setNotePosition_numeric this w :
  JS.isNaN (NoteBox._x (heap w !!! this)) = false ->
  JS.isNaN (NoteBox._y (heap w !!! this)) = false ->
  _setNotePosition host this w = Return tt (position_set this w).
Proof.
  intros Hx Hy. destruct w as [notes loaded hp sf tf dr jr]. simpl in Hx, Hy.
  unfold _setNotePosition, position_set, with_note.
  cbn [bind update modify deref gets ret log heap set_heap journal set_journal
       _allNotes _notesLoaded state_files text_files draws].
  rewrite !lookup_total_insert_eq, !insert_insert_eq.
  cbn [NoteBox._x NoteBox._y NoteBox.set_width NoteBox.set_height].
  rewrite Hx, Hy.
  cbn [orb bind update modify deref gets ret log heap set_heap journal
       set_journal _allNotes _notesLoaded state_files text_files draws].
  rewrite !lookup_total_insert_eq, !insert_insert_eq.
  lazymatch goal with
  | |- (if ?c then _ else _) _ = Return tt (if ?c' then _ else _) =>
      change c with c'; destruct c'; reflexivity
  end.
Qed.

Lemma or_num_numeric v d :
  JS.isNaN d = false -> JS.isNaN (JS.or_num v d) = false.
Proof.
  intros Hd. unfold JS.or_num.
  destruct (JS.truthy_num v) eqn:Hv; [by destruct v | done].
Qed.

Lemma Math_max_numeric a b :
  JS.isNaN a = false -> JS.isNaN b = false -> JS.isNaN (JS.Math_max a b) = false.
Proof. by destruct a, b. Qed.

Lemma Math_min_numeric a b :
  JS.isNaN a = false -> JS.isNaN b = false -> JS.isNaN (JS.Math_min a b) = false.
Proof. by destruct a, b. Qed.

Lemma sub_numeric a b :
  JS.isNaN a = false -> JS.isNaN b = false -> JS.isNaN (JS.sub a b) = false.
Proof. by destruct a, b. Qed.

Lemma settled_numeric n :
  JS.isNaN (NoteBox._x n) = false -> JS.isNaN (NoteBox._y n) = false ->
  JS.isNaN (NoteBox._x (settled n)) = false
  /\ JS.isNaN (NoteBox._y (settled n)) = false.
Proof.
  intros Hx Hy. unfold settled. simpl.
  split; apply Math_max_numeric; try done; apply Math_min_numeric; try done;
    apply sub_numeric; try done; apply Math_max_numeric; try done;
    by apply or_num_numeric.
Qed.

Lemma position_set_heap this w :
  heap (position_set this w) = <[this := settled (heap w !!! this)]> (heap w).
Proof. unfold position_set. by case_match. Qed.

Lemma position_set_frame this w :
  _allNotes (position_set this w) = _allNotes w
  /\ state_files (position_set this w) = state_files w
  /\ text_files (position_set this w) = text_files w
  /\ draws (position_set this w) = draws w.
Proof. unfold position_set. by case_match. Qed.

(** What [_applyColor(r, g, b)] makes of the fields. *)
Definition coloured (r g b : JS.jsval) (n : NoteBox.t) : NoteBox.t :=
  let r := if JS.Number_isNaN r then JS.VNum (JS.of_Z 255) else r in
  let g := if JS.Number_isNaN g then JS.VNum (JS.of_Z 255) else g in
  let b := if JS.Number_isNaN b then JS.VNum (JS.of_Z 255) else b in
  let r := JS.Math_min (JS.Math_max (JS.of_Z 0) (JS.ToNumber r)) (JS.of_Z 255) in
  let g := JS.Math_min (JS.Math_max (JS.of_Z 0) (JS.ToNumber g)) (JS.of_Z 255) in
  let b := JS.Math_min (JS.Math_max (JS.of_Z 0) (JS.ToNumber b)) (JS.of_Z 255) in
  NoteBox.set_fontColor
    (if JS.gt (JS.add (JS.add r g) b) (JS.of_Z 250)
     then "#000000" else "#ffffff")
    (NoteBox.set_customColor
       (JS.VStr (JS.toString r +:+ "," +:+ JS.toString g +:+ ","
                   +:+ JS.toString b)) n).

(** What [_initStyle] makes of the fields when the colour is the string
    [s]. *)
Definition styled (s : string) (n : NoteBox.t) : NoteBox.t :=
  let arr := map JS.StringToNumber (JS.split_comma s) in
  coloured (component arr 0) (component arr 1) (component arr 2) n.

Lemma _applyColor_eval this r g b w :
  _applyColor host this r g b w =
  _saveState host this (with_note this (coloured r g b (heap w !!! this)) w).
Proof.
  destruct w as [notes loaded hp sf tf dr jr].
  unfold _applyColor, coloured, with_note.
  cbn [bind update modify heap set_heap].
  match goal with |- context [if ?c then update _ _ else _] => destruct c end;
    cbn [bind update modify heap set_heap];
    rewrite !lookup_total_insert_eq, !insert_insert_eq; reflexivity.
Qed.

Lemma _initStyle_numeric this s w :
  NoteBox.customColor (heap w !!! this) = JS.VStr s ->
  JS.isNaN (NoteBox._x (heap w !!! this)) = false ->
  JS.isNaN (NoteBox._y (heap w !!! this)) = false ->
  _initStyle host this w =
  Return tt
    (state_written this (with_note this (styled s (heap w !!! this)) w)).
Proof.
  intros Hs Hx Hy. unfold _initStyle, bind at 1, deref, gets. rewrite Hs.
  rewrite _applyColor_eval, _saveState_numeric;
    rewrite ?with_note_lookup; done.
Qed.

(** The fields once the [try] block of [_loadState] has assigned what it
    reads from the record [d]. *)
Definition assigned (d : stateData.t) (n : NoteBox.t) : NoteBox.t :=
  let n :=
    if JS.truthy (stateData.color d)
    then NoteBox.set_customColor (stateData.color d) n else n in
  NoteBox.set_isBold (JS.or (stateData.isBold d) (JS.VBool false))
    (NoteBox.set_entry_is_visible (JS.strict_ne_false (stateData.entryVisible d))
       (NoteBox.set_y (JS.ToNumber (stateData.y d))
          (NoteBox.set_x (JS.ToNumber (stateData.x d))
             (NoteBox.set_fontSize
                (JS.or_num (JS.ToNumber (stateData.fontSize d)) (JS.of_Z 12))
                (NoteBox.set_height
                   (JS.Math_max
                      (JS.or_num (JS.ToNumber (stateData.height d))
                         (JS.of_Z 180)) MIN_HEIGHT)
                   (NoteBox.set_width
                      (JS.Math_max
                         (JS.or_num (JS.ToNumber (stateData.width d))
                            (JS.of_Z 250)) MIN_WIDTH)
                      n)))))).

(** The world once the position of [this] has been set, its style
    initialised from the colour [s] and its record written. *)
Definition positioned_and_styled (this : ref) (s : string) (w : World)
  : World :=
  let w2 := position_set this w in
  state_written this (with_note this (styled s (heap w2 !!! this)) w2).

Definition load_logged (this : ref) (w : World) : World :=
  let n := heap w !!! this in
  set_journal
    (journal w ++ [LogLoaded (NoteBox.id n) (NoteBox._x n) (NoteBox._y n)
                             (NoteBox.customColor n)])
    w.

Lemma settled_customColor n :
  NoteBox.customColor (settled n) = NoteBox.customColor n.
Proof. reflexivity. Qed.

Lemma _setNotePosition_then_initStyle {A} this s (k : M A) w :
  NoteBox.customColor (heap w !!! this) = JS.VStr s ->
  JS.isNaN (NoteBox._x (heap w !!! this)) = false ->
  JS.isNaN (NoteBox._y (heap w !!! this)) = false ->
  (_setNotePosition host this;; _initStyle host this;; k) w =
  k (positioned_and_styled this s w).
Proof.
  intros Hs Hx Hy. unfold bind at 1. rewrite _setNotePosition_numeric by done.
  destruct (settled_numeric _ Hx Hy) as [Hx' Hy'].
  assert (Hn : heap (position_set this w) !!! this = settled (heap w !!! this)).
  { by rewrite position_set_heap, lookup_total_insert_eq. }
  unfold bind at 1.
  rewrite (_initStyle_numeric this s) by (by rewrite Hn).
  unfold positioned_and_styled. by rewrite Hn.
Qed.

Lemma _loadState_try_numeric this d s w :
  let n1 := assigned d (heap w !!! this) in
  NoteBox.customColor n1 = JS.VStr s ->
  JS.isNaN (NoteBox._x n1) = false ->
  JS.isNaN (NoteBox._y n1) = false ->
  _loadState_try host this (Parsed d) w =
  Return tt
    (load_logged this (positioned_and_styled this s (with_note this n1 w))).
Proof.
  intros n1 Hs Hx Hy.
  unfold _loadState_try, JSON_parse. rewrite bind_ret.
  assert (Hassign : forall {A} (k : M A),
    ((if JS.truthy (stateData.color d)
      then update this (NoteBox.set_customColor (stateData.color d))
      else ret tt);;
     update this
       (NoteBox.set_width
          (JS.Math_max
             (JS.or_num (JS.ToNumber (stateData.width d)) (JS.of_Z 250))
             MIN_WIDTH));;
     update this
       (NoteBox.set_height
          (JS.Math_max
             (JS.or_num (JS.ToNumber (stateData.height d)) (JS.of_Z 180))
             MIN_HEIGHT));;
     update this
       (NoteBox.set_fontSize
          (JS.or_num (JS.ToNumber (stateData.fontSize d)) (JS.of_Z 12)));;
     update this (NoteBox.set_x (JS.ToNumber (stateData.x d)));;
     update this (NoteBox.set_y (JS.ToNumber (stateData.y d)));;
     update this
       (NoteBox.set_entry_is_visible
          (JS.strict_ne_false (stateData.entryVisible d)));;
     update this
       (NoteBox.set_isBold (JS.or (stateData.isBold d) (JS.VBool false)));;
     k) w = k (with_note this n1 w)).
  { intros A k. unfold n1, assigned.
    destruct (JS.truthy (stateData.color d));
      rewrite ?bind_ret, !bind_update;
      rewrite ?with_note_lookup, ?with_note_with_note;
      reflexivity. }
  rewrite Hassign, bind_deref, with_note_lookup, Hx, Hy. cbn [orb].
  cbv iota. rewrite bind_ret.
  rewrite (_setNotePosition_then_initStyle this s)
    by (by rewrite with_note_lookup).
  reflexivity.
Qed.

Lemma bind_assoc {A B C} (m : M A) (f : A -> M B) (g : B -> M C) w :
  bind (bind m f) g w = bind m (fun a => bind (f a) g) w.
Proof. unfold bind. by destruct (m w). Qed.

(** Whatever the position was, it is made of numbers once
    [_setNotePosition] has run. *)
Lemma _setNotePosition_gives_numbers this w :
  exists w',
    _setNotePosition host this w = Return tt w'
    /\ JS.isNaN (NoteBox._x (heap w' !!! this)) = false
    /\ JS.isNaN (NoteBox._y (heap w' !!! this)) = false.
Proof.
  destruct (JS.isNaN (NoteBox._x (heap w !!! this))
            || JS.isNaN (NoteBox._y (heap w !!! this))) eqn:Hnan.
  - unfold _setNotePosition.
    rewrite !bind_update, bind_deref, !with_note_lookup, !with_note_with_note.
    cbn [NoteBox._x NoteBox._y NoteBox.set_width NoteBox.set_height].
    rewrite Hnan, !bind_assoc, bind_log, bind_assoc.
    match goal with |- context [bind (_computeRandomPosition host) _ ?w0] =>
      destruct (_computeRandomPosition_draws host w0) as (px & py & d & Hp)
    end.
    unfold bind at 1. rewrite Hp.
    rewrite !bind_update, bind_deref, !bind_update, bind_deref.
    rewrite !with_note_lookup, !with_note_with_note.
    match goal with |- context [(if ?c then _ else _) _ = _] =>
      destruct c end;
      (eexists; split; [reflexivity|]);
      cbn [log modify ret heap set_journal set_draws];
      rewrite ?with_note_lookup;
      cbn [NoteBox._x NoteBox._y NoteBox._width NoteBox._height
           NoteBox.set_x NoteBox.set_y NoteBox.set_position
           NoteBox.set_width NoteBox.set_height fst snd];
      (split; apply Math_max_numeric; try done; apply Math_min_numeric;
       try done; apply sub_numeric; try done; apply Math_max_numeric;
       try done; by apply or_num_numeric).
  - apply orb_false_elim in Hnan as [Hx Hy].
    rewrite _setNotePosition_numeric by done.
    eexists. split; [reflexivity|].
    rewrite position_set_heap, lookup_total_insert_eq.
    by apply settled_numeric.
Qed.

Lemma bind_Return {A B} (m : M A) (k : A -> M B) w b w' :
  bind m k w = Return b w' ->
  exists a w1, m w = Return a w1 /\ k a w1 = Return b w'.
Proof. unfold bind. destruct (m w) as [a w1|]; [eauto | discriminate 1]. Qed.

(** [loadIntoCorrectLayer] ends with [_setNotePosition], so it leaves a
    position made of numbers. *)
Lemma loadIntoCorrectLayer_gives_numbers this w w' :
  loadIntoCorrectLayer host this w = Return tt w' ->
  JS.isNaN (NoteBox._x (heap w' !!! this)) = false
  /\ JS.isNaN (NoteBox._y (heap w' !!! this)) = false.
Proof.
  unfold loadIntoCorrectLayer. intros Hrun.
  do 4 (apply bind_Return in Hrun as (? & ? & _ & Hrun)).
  apply bind_Return in Hrun as (? & w1 & _ & Hrun).
  destruct (_setNotePosition_gives_numbers this w1) as (w2 & Hset & Hxy).
  rewrite Hset in Hrun. by injection Hrun as <-.
Qed.

(** The note that the constructor returns has a position made of numbers,
    and so has the note that [createNote] appends: the hypothesis of
    [onlySave_numeric] holds of every note as it enters the list. *)
Lemma NoteBox_new_gives_numbers id colorString fontSize w note w' :
  NoteBox_new host id colorString fontSize w = Return note w' ->
  JS.isNaN (NoteBox._x (heap w' !!! note)) = false
  /\ JS.isNaN (NoteBox._y (heap w' !!! note)) = false.
Proof.
  destruct (NoteBox_new_unfold host id colorString fontSize w)
    as (x & y & d & Hnew). simpl in Hnew. rewrite Hnew.
  unfold NoteBox_load. intros Hrun.
  apply bind_Return in Hrun as (? & ? & _ & Hrun).
  apply bind_Return in Hrun as (? & ? & _ & Hrun).
  apply bind_Return in Hrun as ([] & w3 & Hlayer & Hrun).
  injection Hrun as <- <-.
  by apply loadIntoCorrectLayer_gives_numbers in Hlayer.
Qed.

Lemma createNote_gives_numbers colorString fontSize w note w' :
  createNote host colorString fontSize w = Return note w' ->
  JS.isNaN (NoteBox._x (heap w' !!! note)) = false
  /\ JS.isNaN (NoteBox._y (heap w' !!! note)) = false.
Proof.
  rewrite createNote_unfold.
  destruct (NoteBox_new host (length (_allNotes w)) colorString fontSize w)
    as [note1 w1|e w1] eqn:Hnew; [|discriminate 1].
  intros Hrun. injection Hrun as <- <-.
  by apply NoteBox_new_gives_numbers in Hnew.
Qed.

Lemma styled_id s n: NoteBox.id (styled s n) = NoteBox.id n.
Proof. reflexivity. Qed.

Lemma settled_id n : NoteBox.id (settled n) = NoteBox.id n.
Proof. reflexivity. Qed.

(** What is left of [positioned_and_styled], the journal apart. *)
Lemma positioned_and_styled_effect this s w :
  let n' := styled s (settled (heap w !!! this)) in
  let w' := load_logged this (positioned_and_styled this s w) in
  heap w' = <[this := n']> (heap w)
  /\ state_files w' =
       <[NoteBox.id (heap w !!! this) :=
           Parsed (stateData.json (_saveState_stateData n'))]> (state_files w)
  /\ text_files w' = text_files w
  /\ _allNotes w' = _allNotes w
  /\ draws w' = draws w.
Proof.
  intros n' w'. unfold w', load_logged, positioned_and_styled, state_written.
  cbn [heap state_files text_files _allNotes draws set_journal set_state_files].
  destruct (position_set_frame this w) as (Hn & Hs & Ht & Hd).
  rewrite !with_note_lookup. unfold with_note.
  cbn [heap state_files text_files _allNotes draws set_heap].
  rewrite position_set_heap, lookup_total_insert_eq, insert_insert_eq.
  by rewrite Hn, Hs, Ht, Hd.
Qed.

(** *** Saving, then loading *)

Lemma or_num_json v d :
  JS.or_num (JS.ToNumber (JS.json (JS.VNum v))) d = JS.or_num v d.
Proof. by destruct v. Qed.

Lemma ToNumber_json_floor x :
  JS.isNaN x = false ->
  JS.ToNumber (JS.json (JS.VNum (JS.Math_floor x))) = JS.Math_floor x.
Proof. by destruct x. Qed.

Lemma Qmax_twice q m : Qmax (Qmax q m) m = Qmax q m.
Proof.
  unfold Qmax, GenericMinMax.gmax.
  destruct (q ?= m)%Q eqn:Hc; rewrite ?Hc; try reflexivity.
  by destruct (m ?= m)%Q.
Qed.

(** Flooring a size to its minimum twice is flooring it once. *)
Lemma floor_size_twice v d m :
  (0 < m)%Z ->
  JS.Math_max (JS.or_num (JS.Math_max (JS.or_num v (JS.of_Z d)) (JS.of_Z m))
                 (JS.of_Z d)) (JS.of_Z m)
  = JS.Math_max (JS.or_num v (JS.of_Z d)) (JS.of_Z m).
Proof.
  intros Hm.
  assert (Hv : exists q, JS.or_num v (JS.of_Z d) = JS.Fin q).
  { unfold JS.or_num. destruct (JS.truthy_num v) eqn:Ht; [|by eexists].
    destruct v; [done | by eexists]. }
  destruct Hv as [q ->]. unfold JS.of_Z, JS.Math_max.
  assert (Ht : JS.truthy_num (JS.Fin (Qmax q (inject_Z m))) = true).
  { simpl. apply negb_true_iff. apply not_true_iff_false.
    intros Heq%Qeq_bool_iff.
    pose proof (Q.le_max_r q (inject_Z m)) as Hle. rewrite Heq in Hle.
    unfold Qle, inject_Z in Hle. simpl in Hle. lia. }
  unfold JS.or_num. rewrite Ht.
  by rewrite Qmax_twice.
Qed.

Lemma assigned_id d n : NoteBox.id (assigned d n) = NoteBox.id n.
Proof. unfold assigned. by destruct (JS.truthy (stateData.color d)). Qed.

(** [_loadState] on a record whose colour is a string and whose position
    is made of numbers. *)
Lemma _loadState_numeric that d s w :
  state_files w !! NoteBox.id (heap w !!! that) = Some (Parsed d) ->
  let n1 := assigned d (heap w !!! that) in
  NoteBox.customColor n1 = JS.VStr s ->
  JS.isNaN (NoteBox._x n1) = false ->
  JS.isNaN (NoteBox._y n1) = false ->
  let r := styled s (settled n1) in
  exists w',
    _loadState host that w = Return tt w'
    /\ heap w' = <[that := r]> (heap w)
    /\ state_files w' =
         <[NoteBox.id (heap w !!! that) :=
             Parsed (stateData.json (_saveState_stateData r))]> (state_files w)
    /\ text_files w' = text_files w
    /\ _allNotes w' = _allNotes w
    /\ draws w' = draws w.
Proof.
  intros Hfile n1 Hs Hx Hy r.
  rewrite _loadState_unfold, Hfile. unfold try_catch.
  rewrite (_loadState_try_numeric that d s w Hs Hx Hy).
  eexists. split; [reflexivity|].
  pose proof (positioned_and_styled_effect that s (with_note that n1 w)) as He.
  cbv zeta in He. rewrite !with_note_lookup in He.
  destruct He as (Hh & Hf & Ht & Hn & Hd). unfold r, n1 in *.
  rewrite Hh, Hf, Ht, Hn, Hd. unfold with_note.
  cbn [heap state_files text_files _allNotes draws set_heap].
  by rewrite insert_insert_eq, assigned_id.
Qed.

(** A record lies inside the monitor: its position is at least (0, 0) and
    at most the size of the monitor less the size of the note. *)
Definition record_within_monitor (d : stateData.t) : bool :=
  let x := JS.ToNumber (stateData.x d) in
  let y := JS.ToNumber (stateData.y d) in
  JS.ge x (JS.of_Z 0)
  && JS.ge (JS.sub (primaryMonitor_width host)
                   (JS.ToNumber (stateData.width d))) x
  && JS.ge y (JS.of_Z 0)
  && JS.ge (JS.sub (primaryMonitor_height host)
                   (JS.ToNumber (stateData.height d))) y.

(** C3 as the specification has it, in the part that fails: the record
    that [_saveState] writes lies inside the monitor. *)
Definition _saveState_clamps (this : ref) (w : World) : Prop :=
  forall w' d,
    _saveState host this w = Return tt w' ->
    state_files w' !! NoteBox.id (heap w' !!! this) = Some (Parsed d) ->
    record_within_monitor d = true.

(** [_loadState] for the id of a record that [_saveState] wrote from the
    fields [n]. *)
Lemma _loadState_of_saved that n s w1 :
  JS.isNaN (NoteBox._x n) = false ->
  JS.isNaN (NoteBox._y n) = false ->
  NoteBox.customColor n = JS.VStr s ->
  s <> "" ->
  NoteBox.id (heap w1 !!! that) = NoteBox.id n ->
  state_files w1 !! NoteBox.id n =
    Some (Parsed (stateData.json (_saveState_stateData n))) ->
  let width' :=
    JS.Math_max (JS.or_num (NoteBox._width n) (JS.of_Z 250)) MIN_WIDTH in
  let height' :=
    JS.Math_max (JS.or_num (NoteBox._height n) (JS.of_Z 180)) MIN_HEIGHT in
  exists w2,
    _loadState host that w1 = Return tt w2
    /\ let r := heap w2 !!! that in
       NoteBox._width r = width'
       /\ NoteBox._height r = height'
       /\ NoteBox._fontSize r = JS.or_num (NoteBox._fontSize n) (JS.of_Z 12)
       /\ NoteBox._x r =
            JS.Math_max (JS.of_Z 0)
              (JS.Math_min (JS.Math_floor (NoteBox._x n))
                 (JS.sub (primaryMonitor_width host) width'))
       /\ NoteBox._y r =
            JS.Math_max (JS.of_Z 0)
              (JS.Math_min (JS.Math_floor (NoteBox._y n))
                 (JS.sub (primaryMonitor_height host) height'))
       /\ NoteBox.entry_is_visible r = NoteBox.entry_is_visible n
       /\ NoteBox._isBold r = JS.or (JS.json (NoteBox._isBold n)) (JS.VBool false)
       /\ NoteBox.customColor r = NoteBox.customColor (styled s n)
       /\ NoteBox._fontColor r = NoteBox._fontColor (styled s n)
       /\ state_files w2 !! NoteBox.id n =
            Some (Parsed (stateData.json (_saveState_stateData r))).
Proof.
  intros Hx Hy Hs Hne Hid Hfile width' height'.
  set (d := stateData.json (_saveState_stateData n)) in *.
  assert (Hcol : JS.truthy (stateData.color d) = true).
  { unfold d. simpl. rewrite Hs. simpl. apply negb_true_iff.
    by apply String.eqb_neq. }
  destruct (_loadState_numeric that d s w1) as (w2 & Hload & Hh & Hf & _).
  { rewrite Hid. exact Hfile. }
  { unfold assigned. rewrite Hcol. unfold d. simpl. by rewrite Hs. }
  { unfold assigned. simpl. by destruct (NoteBox._x n). }
  { unfold assigned. simpl. by destruct (NoteBox._y n). }
  exists w2. split; [exact Hload|].
  rewrite Hh, Hf, lookup_total_insert_eq, Hid, lookup_insert_eq.
  unfold assigned. rewrite Hcol. unfold d.
  cbn [styled coloured settled NoteBox._width NoteBox._height NoteBox._fontSize
       NoteBox._x NoteBox._y NoteBox.entry_is_visible NoteBox._isBold
       NoteBox.customColor NoteBox._fontColor
       NoteBox.set_width NoteBox.set_height NoteBox.set_fontSize NoteBox.set_x
       NoteBox.set_y NoteBox.set_entry_is_visible NoteBox.set_isBold
       NoteBox.set_customColor NoteBox.set_fontColor
       stateData.json _saveState_stateData stateData.x stateData.y
       stateData.color stateData.width stateData.height stateData.fontSize
       stateData.entryVisible stateData.isBold].
  rewrite !or_num_json, !ToNumber_json_floor by done.
  unfold MIN_WIDTH, MIN_HEIGHT. rewrite !floor_size_twice by lia.
  split_and!; try reflexivity.
  by destruct (NoteBox.entry_is_visible n).
Qed.

(** C3, as the code has it.  For a note whose position is made of numbers
    and whose colour is a non-empty string, [_saveState] writes the position
    floored and not clamped, and the other fields as they are.  [_loadState]
    for the same id then gives: the size floored to the minimum 200 x 75
    (250 and 180 standing for a size that is zero or not a number), the font
    size (12 standing for zero or not a number), the floored position
    clamped into the monitor for that size, the visibility and the boldness
    that were saved, and the colour that [_initStyle] reads from the saved
    string; and the record is written again from these fields. *)
Theorem _saveState_then__loadState this that n s w :
  JS.isNaN (NoteBox._x n) = false ->
  JS.isNaN (NoteBox._y n) = false ->
  NoteBox.customColor n = JS.VStr s ->
  s <> "" ->
  NoteBox.id (heap (with_note this n w) !!! that) = NoteBox.id n ->
  let width' :=
    JS.Math_max (JS.or_num (NoteBox._width n) (JS.of_Z 250)) MIN_WIDTH in
  let height' :=
    JS.Math_max (JS.or_num (NoteBox._height n) (JS.of_Z 180)) MIN_HEIGHT in
  exists w1 w2,
    _saveState host this (with_note this n w) = Return tt w1
    /\ state_files w1 !! NoteBox.id n =
         Some (Parsed (stateData.json (_saveState_stateData n)))
    /\ stateData.x (_saveState_stateData n)
         = JS.VNum (JS.Math_floor (NoteBox._x n))
    /\ stateData.y (_saveState_stateData n)
         = JS.VNum (JS.Math_floor (NoteBox._y n))
    /\ _loadState host that w1 = Return tt w2
    /\ let r := heap w2 !!! that in
       NoteBox._width r = width'
       /\ NoteBox._height r = height'
       /\ NoteBox._fontSize r = JS.or_num (NoteBox._fontSize n) (JS.of_Z 12)
       /\ NoteBox._x r =
            JS.Math_max (JS.of_Z 0)
              (JS.Math_min (JS.Math_floor (NoteBox._x n))
                 (JS.sub (primaryMonitor_width host) width'))
       /\ NoteBox._y r =
            JS.Math_max (JS.of_Z 0)
              (JS.Math_min (JS.Math_floor (NoteBox._y n))
                 (JS.sub (primaryMonitor_height host) height'))
       /\ NoteBox.entry_is_visible r = NoteBox.entry_is_visible n
       /\ NoteBox._isBold r = JS.or (JS.json (NoteBox._isBold n)) (JS.VBool false)
       /\ NoteBox.customColor r = NoteBox.customColor (styled s n)
       /\ NoteBox._fontColor r = NoteBox._fontColor (styled s n)
       /\ state_files w2 !! NoteBox.id n =
            Some (Parsed (stateData.json (_saveState_stateData r))).
Proof.
  intros Hx Hy Hs Hne Hid width' height'.
  set (w0 := with_note this n w) in *.
  assert (Hn0 : heap w0 !!! this = n) by apply with_note_lookup.
  assert (Hfile : state_files (state_written this w0) !! NoteBox.id n
                  = Some (Parsed (stateData.json (_saveState_stateData n)))).
  { unfold state_written. cbn [state_files set_journal set_state_files].
    rewrite Hn0. by rewrite lookup_insert_eq. }
  destruct (_loadState_of_saved that n s (state_written this w0)
              Hx Hy Hs Hne Hid Hfile) as (w2 & Hload & Hfields).
  exists (state_written this w0), w2.
  split; [by apply _saveState_numeric; rewrite Hn0|].
  split; [exact Hfile|]. split; [reflexivity|]. split; [reflexivity|].
  split; [exact Hload | exact Hfields].
Qed.

End Evaluation.

(** ** The position that the constructor draws *)

Section RandomPosition.
Variable host : Host.
Hypothesis random_unit : forall i, (0 <= random host i)%Q /\ (random host i < 1)%Q.
Hypothesis monitor_wide : 300 < monitor_width host.
Hypothesis monitor_high : 100 < monitor_height host.

Lemma candidate_bounds r W m :
  (0 <= r)%Q -> (r < 1)%Q -> (m < W)%Z ->
  (0 <= r * (inject_Z W - inject_Z m))%Q
  /\ (r * (inject_Z W - inject_Z m) < inject_Z (W - m))%Q.
Proof.
  intros H0 H1 Hc.
  assert (Hq : (inject_Z W - inject_Z m == inject_Z (W - m))%Q).
  { unfold Z.sub. rewrite inject_Z_plus, inject_Z_opp. ring. }
  assert (Hpos : (0 < inject_Z (W - m))%Q).
  { change 0%Q with (inject_Z 0). rewrite <- Zlt_Qlt. lia. }
  rewrite Hq. split; nra.
Qed.

(** A position inside the area in which [_computeRandomPosition] draws. *)
Definition in_drawing_area (x y : Q) : Prop :=
  (0 <= x)%Q /\ (x < inject_Z (monitor_width host - 300))%Q
  /\ (0 <= y)%Q /\ (y < inject_Z (monitor_height host - 100))%Q.

Lemma _computeRandomPosition_round_bounds k w :
  exists x y d,
    _computeRandomPosition_round host k w =
    Return (JS.Fin x, JS.Fin y) (set_draws d w)
    /\ in_drawing_area x y.
Proof.
  revert w. induction k as [|k IH]; intros w;
    cbn [_computeRandomPosition_round];
    unfold bind, Math_random, areCoordsUsable, gets;
    match goal with |- context [if ?b then _ else _] => destruct b end;
    try (do 3 eexists; split; [reflexivity|];
         destruct (random_unit (draws w)) as [? ?];
         destruct (random_unit (S (draws w))) as [? ?];
         unfold in_drawing_area; split_and!; by apply candidate_bounds).
  match goal with
  | |- context [_computeRandomPosition_round host k ?w1] =>
      destruct (IH w1) as (x & y & d & -> & Hb)
  end.
  do 3 eexists; split; [reflexivity | exact Hb].
Qed.

Lemma _createDefaultState_eval this w :
  exists x y d,
    _createDefaultState host this w =
    Return
      (Some (stateData.mk (JS.VNum (JS.Fin x)) (JS.VNum (JS.Fin y))
               (NoteBox.customColor (heap w !!! this))
               (JS.VNum (JS.of_Z 250)) (JS.VNum (JS.of_Z 180))
               (JS.VNum (NoteBox._fontSize (heap w !!! this)))
               (JS.VBool true) (JS.VBool false)))
      (set_state_files
         (<[NoteBox.id (heap w !!! this) :=
              Parsed (stateData.json
                (stateData.mk (JS.VNum (JS.Fin x)) (JS.VNum (JS.Fin y))
                   (NoteBox.customColor (heap w !!! this))
                   (JS.VNum (JS.of_Z 250)) (JS.VNum (JS.of_Z 180))
                   (JS.VNum (NoteBox._fontSize (heap w !!! this)))
                   (JS.VBool true) (JS.VBool false)))]> (state_files w))
         (set_draws d w)).
Proof.
  destruct (_computeRandomPosition_draws host w) as (x & y & d & Hp).
  exists x, y, d. unfold _createDefaultState, try_catch, bind at 1.
  rewrite Hp. reflexivity.
Qed.

Lemma or_num_twice v d : JS.or_num (JS.or_num v d) d = JS.or_num v d.
Proof.
  unfold JS.or_num. destruct (JS.truthy_num v) eqn:Hv; [by rewrite Hv|].
  by destruct (JS.truthy_num d).
Qed.

(** C5, as the code has it.  For an id without a state record and a note
    created without a colour, the constructor draws a position inside the
    drawing area of the monitor and sets its defaults; [_loadState] then
    leaves them in memory: that position, the size 250 x 180, the font size
    that was asked for (12 standing for zero or not a number), the colour
    245,176,65 with black text, the content visible, not bold.  The record
    that stays on disk is that of these fields with the position floored: it
    takes the place of the one that [_createDefaultState] wrote.  Loading
    the id again gives the same size, font size, colour, visibility and
    boldness, and the floored position clamped into the monitor. *)
Theorem _loadState_without_record id fontSize w :
  state_files w !! id = None ->
  exists px py d,
    in_drawing_area px py
    /\ let this := fresh (dom (heap w)) in
       let n0 :=
         NoteBox_fields id (JS.VStr "") fontSize (JS.Fin px, JS.Fin py) in
       let w0 := with_note this n0 (set_draws d w) in
       NoteBox_new host id (JS.VStr "") fontSize w = NoteBox_load host this w0
       /\ exists w1,
            _loadState host this w0 = Return tt w1
            /\ heap w1 !!! this =
                 NoteBox.mk id (JS.or_num fontSize (JS.of_Z 12))
                   (JS.VBool false) (JS.VStr "245,176,65") "#000000" true
                   (JS.of_Z 250) (JS.of_Z 180) (JS.Fin px) (JS.Fin py)
                   "" false
            /\ state_files w1 !! id =
                 Some (Parsed
                   (stateData.mk
                      (JS.VNum (JS.Math_floor (JS.Fin px)))
                      (JS.VNum (JS.Math_floor (JS.Fin py)))
                      (JS.VStr "245,176,65")
                      (JS.VNum (JS.of_Z 250)) (JS.VNum (JS.of_Z 180))
                      (JS.json (JS.VNum (JS.or_num fontSize (JS.of_Z 12))))
                      (JS.VBool true) (JS.VBool false)))
            /\ forall that,
                 NoteBox.id (heap w1 !!! that) = id ->
                 exists w2,
                   _loadState host that w1 = Return tt w2
                   /\ let r := heap w2 !!! that in
                      NoteBox._width r = JS.of_Z 250
                      /\ NoteBox._height r = JS.of_Z 180
                      /\ NoteBox._fontSize r = JS.or_num fontSize (JS.of_Z 12)
                      /\ NoteBox.customColor r = JS.VStr "245,176,65"
                      /\ NoteBox._fontColor r = "#000000"
                      /\ NoteBox.entry_is_visible r = true
                      /\ NoteBox._isBold r = JS.VBool false
                      /\ NoteBox._x r =
                           JS.Math_max (JS.of_Z 0)
                             (JS.Math_min (JS.Math_floor (JS.Fin px))
                                (JS.sub (primaryMonitor_width host)
                                   (JS.of_Z 250)))
                      /\ NoteBox._y r =
                           JS.Math_max (JS.of_Z 0)
                             (JS.Math_min (JS.Math_floor (JS.Fin py))
                                (JS.sub (primaryMonitor_height host)
                                   (JS.of_Z 180))).
Proof.
  intros Hnone.
  destruct (_computeRandomPosition_round_bounds 14 w)
    as (px & py & d & Hp & Hb).
  exists px, py, d. split; [exact Hb|]. intros this n0 w0. split.
  { unfold NoteBox_new, bind at 1, _computeRandomPosition. rewrite Hp.
    reflexivity. }
  assert (Hn0 : heap w0 !!! this = n0) by apply with_note_lookup.
  destruct (_createDefaultState_eval this w0) as (x1 & y1 & d1 & Hc).
  rewrite Hn0 in Hc.
  set (n1 := NoteBox.mk id (JS.or_num fontSize (JS.of_Z 12))
               (JS.VBool false) (JS.VStr "245,176,65") "#000000" true
               (JS.of_Z 250) (JS.of_Z 180) (JS.Fin px) (JS.Fin py) "" false).
  assert (Hstyled1 : styled "245,176,65" n1 = n1) by (vm_compute; reflexivity).
  match type of Hc with _ = Return _ ?W => set (wa := W) in * end.
  set (w1 := state_written this (with_note this n1 wa)).
  assert (Hn1 : heap w1 !!! this = n1).
  { unfold w1, state_written. cbn [heap set_journal set_state_files].
    apply with_note_lookup. }
  assert (Hfile : state_files w1 !! id
                  = Some (Parsed (stateData.json (_saveState_stateData n1)))).
  { unfold w1, state_written. cbn [state_files set_journal set_state_files].
    rewrite with_note_lookup. cbn [NoteBox.id n1]. by rewrite lookup_insert_eq. }
  exists w1. split_and!.
  - rewrite _loadState_unfold, Hn0. cbn [NoteBox.id n0 NoteBox_fields].
    change (state_files w0) with (state_files w). rewrite Hnone.
    unfold bind. rewrite Hc.
    rewrite (_initStyle_numeric host this "245,176,65");
      cbn [heap set_state_files set_draws wa]; rewrite ?Hn0;
      reflexivity.
  - exact Hn1.
  - rewrite Hfile. reflexivity.
  - intros that Hthat.
    destruct (_loadState_of_saved host that n1 "245,176,65" w1)
      as (w2 & Hload & Hw & Hh & Hf & Hx & Hy & Hv & Hb' & Hc' & Hfc & _);
      try done.
    exists w2. split; [exact Hload|]. cbv zeta.
    rewrite Hw, Hh, Hf, Hx, Hy, Hv, Hb', Hc', Hfc, Hstyled1.
    cbn [n1 NoteBox._fontSize NoteBox.customColor NoteBox._fontColor
         NoteBox.entry_is_visible].
    rewrite or_num_twice. split_and!; reflexivity.
Qed.

End RandomPosition.

(** ** Loading a record that does not parse *)

Section Unparsable.
Variable host : Host.

Lemma _setNotePosition_then_initStyle_end this s w :
  NoteBox.customColor (heap w !!! this) = JS.VStr s ->
  JS.isNaN (NoteBox._x (heap w !!! this)) = false ->
  JS.isNaN (NoteBox._y (heap w !!! this)) = false ->
  (_setNotePosition host this;; _initStyle host this) w =
  Return tt (positioned_and_styled host this s w).
Proof.
  intros Hs Hx Hy.
  pose proof (_setNotePosition_then_initStyle host this s (ret tt) w Hs Hx Hy)
    as Hk.
  unfold bind in *. rewrite _setNotePosition_numeric in * by done.
  destruct (_initStyle host this (position_set host this w)) as [[] ?|]; done.
Qed.

(** The fields as the [catch] block of [_loadState] sets them, [p] being
    what [_computeRandomPosition] gave. *)
Definition reset (p : JS.num * JS.num) (n : NoteBox.t) : NoteBox.t :=
  NoteBox.set_isBold (JS.VBool false)
    (NoteBox.set_entry_is_visible true
       (NoteBox.set_height (JS.of_Z 180)
          (NoteBox.set_width (JS.of_Z 250)
             (NoteBox.set_position p n)))).

(** [_computeRandomPosition] calls [Math.random]: it does not return
    without a draw. *)
Lemma _computeRandomPosition_round_draws_more k w p w' :
  _computeRandomPosition_round host k w = Return p w' ->
  (draws w < draws w')%nat.
Proof.
  revert w. induction k as [|k IH]; intros w;
    cbn [_computeRandomPosition_round];
    unfold bind, Math_random, areCoordsUsable, gets;
    match goal with |- context [if ?b then _ else _] => destruct b end;
    try (unfold ret; intros [= _ <-]; cbn [draws set_draws]; lia).
  intros Hrun. apply IH in Hrun. cbn [draws set_draws] in Hrun. lia.
Qed.

Lemma _loadState_catch_eval this e s w px py d :
  NoteBox.customColor (heap w !!! this) = JS.VStr s ->
  _computeRandomPosition host (set_journal (journal w ++ [LogLoadError e]) w)
  = Return (JS.Fin px, JS.Fin py)
      (set_draws d (set_journal (journal w ++ [LogLoadError e]) w)) ->
  _loadState_catch host this e w =
  Return tt
    (positioned_and_styled host this s
       (with_note this (reset (JS.Fin px, JS.Fin py) (heap w !!! this))
          (set_draws d (set_journal (journal w ++ [LogLoadError e]) w)))).
Proof.
  intros Hs Hp. unfold _loadState_catch. rewrite bind_log.
  unfold bind at 1. rewrite Hp.
  rewrite !bind_update. rewrite !with_note_lookup, !with_note_with_note.
  rewrite (_setNotePosition_then_initStyle_end this s);
    rewrite ?with_note_lookup; try done.
Qed.

Lemma positioned_and_styled_journal this s w :
  exists l, journal (positioned_and_styled host this s w) = journal w ++ l.
Proof.
  unfold positioned_and_styled, state_written, position_set.
  case_match; cbn [journal set_journal with_note set_heap set_state_files];
    eexists; rewrite <- ?app_assoc; reflexivity.
Qed.

(** The exception that [JSON.parse], or the first read of a field of its
    result, throws on a record that does not parse. *)
Definition parse_error (f : stateFile) : exn :=
  match f with
  | Unparsable => SyntaxError
  | _ => TypeError
  end.

(** C6, as the code has it.  When the state record of the note's id is
    there but [JSON.parse] fails on it, or gives [null], [_loadState] does
    not throw and logs the error.  It does not go through
    [_createDefaultState]: once the error is logged, the [catch] block calls
    [_computeRandomPosition], which draws from [Math.random] and gives
    ([px], [py]); the note is put there, clamped into the monitor, with the
    size 250 x 180, the content shown and the boldness cleared.  The font
    size and the colour stay as the constructor set them, the colour going
    through [_initStyle], and the record of the id is written anew from
    these fields.  Nothing else is drawn, and the other objects, the list,
    the text files and the records of the other ids are as before. *)
Theorem _loadState_unparsable this f s w :
  state_files w !! NoteBox.id (heap w !!! this) = Some f ->
  f = Unparsable \/ f = ParsedNull ->
  NoteBox.customColor (heap w !!! this) = JS.VStr s ->
  let logged := set_journal (journal w ++ [LogLoadError (parse_error f)]) w in
  exists px py d w',
    _computeRandomPosition host logged
    = Return (JS.Fin px, JS.Fin py) (set_draws d logged)
    /\ (draws w < d)%nat
    /\ _loadState host this w = Return tt w'
    /\ draws w' = d
    /\ (exists l, journal w' = journal w ++ LogLoadError (parse_error f) :: l)
    /\ let n := heap w !!! this in
       let r := heap w' !!! this in
       NoteBox._x r =
         JS.Math_max (JS.of_Z 0)
           (JS.Math_min (JS.Fin px)
              (JS.sub (primaryMonitor_width host) (JS.of_Z 250)))
       /\ NoteBox._y r =
            JS.Math_max (JS.of_Z 0)
              (JS.Math_min (JS.Fin py)
                 (JS.sub (primaryMonitor_height host) (JS.of_Z 180)))
       /\ NoteBox._width r = JS.of_Z 250
       /\ NoteBox._height r = JS.of_Z 180
       /\ NoteBox.entry_is_visible r = true
       /\ NoteBox._isBold r = JS.VBool false
       /\ NoteBox._fontSize r = NoteBox._fontSize n
       /\ NoteBox.customColor r = NoteBox.customColor (styled s n)
       /\ NoteBox._fontColor r = NoteBox._fontColor (styled s n)
       /\ NoteBox.id r = NoteBox.id n
       /\ NoteBox.noteEntry_text r = NoteBox.noteEntry_text n
       /\ state_files w' !! NoteBox.id n =
            Some (Parsed (stateData.json (_saveState_stateData r)))
       /\ (forall j, j <> NoteBox.id n ->
             state_files w' !! j = state_files w !! j)
       /\ text_files w' = text_files w
       /\ _allNotes w' = _allNotes w
       /\ (forall that, that <> this -> heap w' !! that = heap w !! that).
Proof.
  intros Hfile Hf Hs logged.
  set (e := parse_error f) in *.
  assert (He : forall k,
    try_catch (bind (JSON_parse f) k) (_loadState_catch host this) w
    = _loadState_catch host this e w).
  { unfold e. destruct Hf as [-> | ->]; intros k; reflexivity. }
  destruct (_computeRandomPosition_draws host logged) as (px & py & d & Hp).
  pose proof (_computeRandomPosition_round_draws_more _ _ _ _ Hp) as Hmore.
  cbn [draws set_draws] in Hmore.
  change (draws logged) with (draws w) in Hmore.
  exists px, py, d. eexists. split; [exact Hp|]. split; [exact Hmore|]. split.
  { rewrite _loadState_unfold, Hfile. unfold _loadState_try.
    rewrite He. exact (_loadState_catch_eval this e s w px py d Hs Hp). }
  fold logged.
  match goal with |- context [positioned_and_styled host this s ?w0] =>
    set (w1 := w0) end.
  destruct (positioned_and_styled_journal this s w1) as [l Hj].
  pose proof (positioned_and_styled_effect host this s w1)
    as (Hh & Hsf & Htf & Hnotes & Hdraws).
  cbv zeta in Hh, Hsf.
  change (heap (load_logged this ?X)) with (heap X) in Hh.
  change (state_files (load_logged this ?X)) with (state_files X) in Hsf.
  change (text_files (load_logged this ?X)) with (text_files X) in Htf.
  change (_allNotes (load_logged this ?X)) with (_allNotes X) in Hnotes.
  change (draws (load_logged this ?X)) with (draws X) in Hdraws.
  assert (Hn1 : heap w1 !!! this
                = reset (JS.Fin px, JS.Fin py) (heap w !!! this))
    by apply with_note_lookup.
  rewrite Hn1 in Hh, Hsf.
  split; [exact Hdraws|].
  split.
  { exists l. rewrite Hj. unfold w1, logged.
    cbn [journal with_note set_heap set_draws set_journal].
    by rewrite <- app_assoc. }
  cbv zeta. rewrite Hh, Hsf, Htf, Hnotes, lookup_total_insert_eq.
  cbn [NoteBox.id reset NoteBox.set_isBold NoteBox.set_entry_is_visible
       NoteBox.set_height NoteBox.set_width NoteBox.set_position NoteBox.set_x
       NoteBox.set_y].
  rewrite lookup_insert_eq.
  split_and!; try reflexivity.
  - intros j Hj'. by rewrite lookup_insert_ne.
  - intros that Hthat. rewrite lookup_insert_ne by done.
    unfold w1, with_note. cbn [heap set_heap set_draws].
    by rewrite lookup_insert_ne.
Qed.

End Unparsable.

(** * The program at work on a full-HD monitor *)

Lemma full_hd_random_unit i :
  (0 <= random full_hd i)%Q /\ (random full_hd i < 1)%Q.
Proof.
  pose proof (Nat.mod_upper_bound (i * 37 + 11) 100 ltac:(lia)).
  unfold full_hd, random, Qle, Qlt. simpl. lia.
Qed.

(** Three notes created on an empty directory. *)
Definition three_notes : World :=
  perform_all full_hd [Create; Create; Create] empty_world.

Example three_notes_ids : live_ids three_notes = [0; 1; 2]%nat.
Proof. vm_compute. reflexivity. Qed.

(** C2, at the input on which it fails.  Three notes are created on an
    empty directory, so that each of the ids 0, 1, 2 has its two files.
    - [postDelete(0)]: the last note takes the id 0 and the place 0 in the
      list, and its record and its text are written under 0.  But the two
      files of the vacated id 2 are still there, the record being the one
      that the third note had written; [_deleteNoteFiles(2)] has logged its
      error and removed nothing.
    - [postDelete(2)], the last index: the note is dropped from the list and
      no id changes, but its own two files are still there as well. *)
Theorem postDelete_leaves_the_files :
  exists w0 w2,
    postDelete full_hd 0 three_notes = Return tt w0
    /\ _allNotes w0 = [2; 1]%nat
    /\ live_ids w0 = [0; 1]%nat
    /\ state_files w0 !! 0%nat =
         Some (Parsed (stateData.json
                         (_saveState_stateData (heap w0 !!! 2%nat))))
    /\ text_files w0 !! 0%nat =
         Some (NoteBox.noteEntry_text (heap w0 !!! 2%nat))
    /\ state_files w0 !! 2%nat =
         Some (Parsed (stateData.json
                         (_saveState_stateData (heap three_notes !!! 2%nat))))
    /\ text_files w0 !! 2%nat = Some ""
    /\ last (journal w0) = Some (LogDeleteFilesError TypeError)
    /\ postDelete full_hd 2 three_notes = Return tt w2
    /\ _allNotes w2 = [0; 1]%nat
    /\ live_ids w2 = [0; 1]%nat
    /\ state_files w2 = state_files three_notes
    /\ text_files w2 = text_files three_notes
    /\ state_files w2 !! 2%nat =
         Some (Parsed (stateData.json
                         (_saveState_stateData (heap three_notes !!! 2%nat))))
    /\ text_files w2 !! 2%nat = Some ""
    /\ journal w2 =
         journal three_notes ++ [LogDeleting 2 3; LogDeleteFilesError TypeError].
Proof.
  exists (world_of (postDelete full_hd 0 three_notes)),
         (world_of (postDelete full_hd 2 three_notes)).
  split_and!; vm_compute; reflexivity.
Qed.

(** The record of a state file whose colour was set to the number 5. *)
Definition colour_five : stateData.t :=
  stateData.mk (JS.VNum (JS.of_Z 10)) (JS.VNum (JS.of_Z 10))
    (JS.VNum (JS.of_Z 5)) (JS.VNum (JS.of_Z 250)) (JS.VNum (JS.of_Z 180))
    (JS.VNum (JS.of_Z 12)) (JS.VBool true) (JS.VBool false).

(** A directory that holds [0_state] with that record, and nothing else. *)
Definition colour_five_directory : World :=
  mkWorld [] false ∅ {[ O := Parsed colour_five ]} ∅ O [].

(** The constructor can throw: on such a record, [customColor] becomes a
    number, [_initStyle] fails in the [try] block and again in the [catch]
    block, and [createNote] notifies and throws. *)
Example createNote_throws :
  exists w',
    createNote full_hd (JS.VStr "") (JS.of_Z 16) colour_five_directory
    = Throw TypeError w'
    /\ _allNotes w' = []
    /\ journal w' =
       [LogLoadError TypeError;
        Notify "Notes extension error: failed to load a note";
        LogCreateFailed 0 TypeError].
Proof. eexists. split_and!; vm_compute; reflexivity. Qed.

(** A construction that fails stops the scan, and the exception goes on to
    the caller of [_loadAllNotes]. *)
Lemma _loadAllNotes_scan_throws host fuel i notesFound w e w' :
  is_Some (state_files w !! i) ->
  createNote host (JS.VStr "") (JS.of_Z 16) w = Throw e w' ->
  _loadAllNotes_scan host (S fuel) i notesFound w = Throw e w'.
Proof.
  intros Hsome Hthrow. cbn [_loadAllNotes_scan].
  unfold bind at 1, gets at 1. rewrite bool_decide_eq_true_2 by done.
  unfold bind at 1. by rewrite Hthrow.
Qed.

Lemma _loadAllNotes_throws host fuel w e w' :
  is_Some (state_files w !! O) ->
  createNote host (JS.VStr "") (JS.of_Z 16) w = Throw e w' ->
  _loadAllNotes host (S fuel) w = Throw e w'.
Proof.
  intros Hsome Hthrow. unfold _loadAllNotes, bind at 1.
  by rewrite (_loadAllNotes_scan_throws host fuel 0 false w e w').
Qed.

(** A directory that holds [0_state] with a text that does not parse, and
    nothing else. *)
Definition unparsable_directory : World :=
  mkWorld [] false ∅ {[ O := Unparsable ]} ∅ O [].

(** C4, at the input on which it fails.  The directory holds [0_state]
    alone, with the colour 5: the state files of the ids below k = 1 are
    there and [1_state] is missing, so one note is to be created.
    [_loadAllNotes], with any number of rounds, creates none and throws.
    The [try] block of [_loadState] assigns the colour, [_initStyle] throws
    on it ([customColor.split] is not a function), and the [catch] block,
    which is there to fall back to the defaults, runs [_initStyle] again on
    the same colour; that exception leaves the constructor, [createNote]
    and [_loadAllNotes].  The list stays empty, [_notesLoaded] stays false
    and the record is not repaired.  On the same directory with a
    [0_state] that does not parse, the same [catch] block recovers and the
    one note is created. *)
Theorem _loadAllNotes_creates_no_note_on_colour_five fuel :
  exists w' w'',
    _loadAllNotes full_hd (S fuel) colour_five_directory = Throw TypeError w'
    /\ _allNotes w' = []
    /\ _notesLoaded w' = false
    /\ state_files w' = state_files colour_five_directory
    /\ journal w' =
         [LogLoadError TypeError;
          Notify "Notes extension error: failed to load a note";
          LogCreateFailed 0 TypeError]
    /\ _loadAllNotes full_hd (S (S fuel)) unparsable_directory
       = Return (Some tt) w''
    /\ length (_allNotes w'') = 1%nat
    /\ live_ids w'' = [0%nat].
Proof.
  assert (Hsome : is_Some (state_files colour_five_directory !! O)).
  { exists (Parsed colour_five). reflexivity. }
  assert (Hfiles : forall j, (j < 1)%nat ->
    exists f, state_files unparsable_directory !! j = Some f
              /\ colour_readable f = true).
  { intros j Hj. destruct j as [|j]; [|lia].
    exists Unparsable. split; reflexivity. }
  assert (Hgap : state_files unparsable_directory !! 1%nat = None)
    by reflexivity.
  assert (Hfuel : (1 < S (S fuel))%nat) by lia.
  destruct (_loadAllNotes_loads_readable_prefix full_hd unparsable_directory
              1 (S (S fuel)) eq_refl Hfiles Hgap Hfuel)
    as (w'' & Hrun & Hlen & Hids & _).
  rewrite Hlen in Hids.
  exists (world_of (createNote full_hd (JS.VStr "") (JS.of_Z 16)
                      colour_five_directory)), w''.
  split.
  { apply _loadAllNotes_throws; [exact Hsome|]. vm_compute. reflexivity. }
  split_and!; try (vm_compute; reflexivity).
  - exact Hrun.
  - exact Hlen.
  - exact Hids.
Qed.

(** ** Where the specification and the code part *)

(** *** C3: what [_saveState] writes *)

(** The second note that is created on an empty directory, as the
    constructor has it when [_loadState] runs. *)
Definition second_note_before_load : World :=
  world_of
    ((p ← _computeRandomPosition full_hd;
      alloc (NoteBox_fields 1 (JS.VStr "") (JS.of_Z 16) p))
       (perform full_hd Create empty_world)).

(** C3 as stated fails on that note: [_saveState] writes y = 940, below
    the lowest place 1080 - 180 of a note of that height; it has floored
    the position and left it where it was. *)
Lemma _saveState_writes_outside_monitor :
  ~ _saveState_clamps full_hd 1%nat second_note_before_load.
Proof.
  intros H.
  set (o := _saveState full_hd 1%nat second_note_before_load) in *.
  assert (Ho : o = Return tt (world_of o)) by (vm_compute; reflexivity).
  destruct (state_files (world_of o) !! 1%nat) as [[| |d]|] eqn:Hd;
    try (vm_compute in Hd; discriminate Hd).
  assert (Hin : record_within_monitor full_hd d = true).
  { apply (H (world_of o) d Ho).
    replace (NoteBox.id (heap (world_of o) !!! 1%nat)) with 1%nat
      by (vm_compute; reflexivity).
    exact Hd. }
  vm_compute in Hd. injection Hd as <-. vm_compute in Hin. discriminate Hin.
Qed.

(** The record that the state file of [id] holds, if it parses to one. *)
Definition record_of (w : World) (id : nat) : option stateData.t :=
  match state_files w !! id with
  | Some (Parsed d) => Some d
  | _ => None
  end.

(** The same, met on the way: once two notes are created, the record of the
    second holds y = 940, below the lowest place for a note that is 180
    high on a monitor that is 1080 high. *)
Example second_note_record :
  let w := perform_all full_hd [Create; Create] empty_world in
  stateData.y <$> record_of w 1 = Some (JS.VNum (JS.of_Z 940))
  /\ stateData.height <$> record_of w 1 = Some (JS.VNum (JS.of_Z 180))
  /\ record_within_monitor full_hd <$> record_of w 1 = Some false.
Proof. split_and!; vm_compute; reflexivity. Qed.

(** *** C5: the defaults, in memory and on disk *)

(** The fields as a record would hold them, nothing floored. *)
Definition fields_as_record (n : NoteBox.t) : stateData.t :=
  stateData.mk (JS.VNum (NoteBox._x n)) (JS.VNum (NoteBox._y n))
    (NoteBox.customColor n) (JS.VNum (NoteBox._width n))
    (JS.VNum (NoteBox._height n)) (JS.VNum (NoteBox._fontSize n))
    (JS.VBool (NoteBox.entry_is_visible n)) (NoteBox._isBold n).

(** C5 as the specification has it: after loading without a record, the
    font size is 12, the record on disk is equal to the state in memory, and
    loading again changes nothing. *)
Definition _loadState_default_is_fixed (host : Host) (this : ref) (w : World)
  : Prop :=
  forall w1 d,
    _loadState host this w = Return tt w1 ->
    state_files w1 !! NoteBox.id (heap w1 !!! this) = Some (Parsed d) ->
    NoteBox._fontSize (heap w1 !!! this) = JS.of_Z 12
    /\ d = stateData.json (fields_as_record (heap w1 !!! this))
    /\ forall w2,
         _loadState host this w1 = Return tt w2 ->
         heap w2 !!! this = heap w1 !!! this.

(** The first note that is created on an empty directory, as the
    constructor has it when [_loadState] runs. *)
Definition first_note_before_load : World :=
  world_of
    ((p ← _computeRandomPosition full_hd;
      alloc (NoteBox_fields 0 (JS.VStr "") (JS.of_Z 16) p))
       empty_world).

(** C5 as stated fails on that note: [_loadState] finds no record, and
    then the font size is the 16 that the caller asked for and the record
    holds the floored position, which is not the position in memory. *)
Lemma _loadState_default_is_floored :
  ~ _loadState_default_is_fixed full_hd O first_note_before_load.
Proof.
  intros H.
  set (o := _loadState full_hd O first_note_before_load) in *.
  assert (Ho : o = Return tt (world_of o)) by (vm_compute; reflexivity).
  destruct (state_files (world_of o) !! O) as [[| |d]|] eqn:Hd;
    try (vm_compute in Hd; discriminate Hd).
  assert (Hrec : d = stateData.json
                       (fields_as_record (heap (world_of o) !!! O))).
  { apply (H (world_of o) d Ho).
    replace (NoteBox.id (heap (world_of o) !!! O)) with O
      by (vm_compute; reflexivity).
    exact Hd. }
  vm_compute in Hd. injection Hd as <-. vm_compute in Hrec.
  discriminate Hrec.
Qed.

(** *** C6: a record that does not parse *)

(** C6 as the specification has it: the note is left as it would be if the
    record were missing. *)
Definition _loadState_as_if_missing (host : Host) (this : ref) (w : World)
  : Prop :=
  let id := NoteBox.id (heap w !!! this) in
  let missing := set_state_files (delete id (state_files w)) w in
  heap (world_of (_loadState host this w)) !!! this
  = heap (world_of (_loadState host this missing)) !!! this.

(** A full-HD monitor on which every draw of [Math.random] gives 0.95, so
    that every candidate of [_computeRandomPosition] is the same place,
    (1539, 931), whichever draws it is made of. *)
Definition steady_hd : Host := mkHost 1920 1080 (fun _ => 19 # 20).

(** The first note that is created there on an empty directory, as the
    constructor has it when [_loadState] runs, and the same on a directory
    whose [0_state] does not parse. *)
Definition steady_note_before_load : World :=
  world_of
    ((p ← _computeRandomPosition steady_hd;
      alloc (NoteBox_fields 0 (JS.VStr "") (JS.of_Z 16) p))
       empty_world).

Definition steady_note_unparsable : World :=
  set_state_files {[ O := Unparsable ]} steady_note_before_load.

(** The two runs of [_loadState] on that note.  Without a record the note
    stays where the constructor put it, at y = 931, and the record holds
    y = 931.  With the record that does not parse, the [catch] block puts
    the note at the place it draws, which is the same place, and clamps it:
    the note is at y = 900 = 1080 - 180 and the record holds y = 900, and
    the log has the error and the line of the clamp.  Both runs have made
    two draws. *)
Example _loadState_on_steady_hd :
  let missing := world_of (_loadState steady_hd O steady_note_before_load) in
  let unparsable := world_of (_loadState steady_hd O steady_note_unparsable) in
  NoteBox._y (heap steady_note_before_load !!! O) = JS.Fin (18620 # 20)
  /\ NoteBox._y (heap missing !!! O) = JS.Fin (18620 # 20)
  /\ stateData.y <$> record_of missing 0 = Some (JS.VNum (JS.of_Z 931))
  /\ journal missing =
       [LogSaved 0 (JS.Fin (30780 # 20)) (JS.Fin (18620 # 20))
          (JS.VStr "245,176,65")]
  /\ NoteBox._y (heap unparsable !!! O) = JS.of_Z 900
  /\ stateData.y <$> record_of unparsable 0 = Some (JS.VNum (JS.of_Z 900))
  /\ journal unparsable =
       [LogLoadError SyntaxError;
        LogAdjusted (JS.Fin (30780 # 20)) (JS.Fin (18620 # 20))
          (JS.Fin (30780 # 20)) (JS.of_Z 900);
        LogSaved 0 (JS.Fin (30780 # 20)) (JS.of_Z 900) (JS.VStr "245,176,65")]
  /\ NoteBox._x (heap unparsable !!! O) = NoteBox._x (heap missing !!! O)
  /\ draws missing = draws unparsable.
Proof. split_and!; vm_compute; reflexivity. Qed.

(** C6 as stated fails on that note: with the record that does not parse
    the note is not left as with no record.  The draws are the same in both
    runs; what differs is that the [catch] block moves the note to the
    place it draws and clamps it, where the other path leaves the note
    alone. *)
Lemma _loadState_unparsable_clamps_the_note :
  ~ _loadState_as_if_missing steady_hd O steady_note_unparsable.
Proof.
  unfold _loadState_as_if_missing. intros H. vm_compute in H.
  discriminate H.
Qed.

(** ** The theorems at work *)

(** A note with font size 2, some text, and a place inside the monitor. *)
Definition small_note : NoteBox.t :=
  NoteBox.mk 0 (JS.of_Z 2) (JS.VBool false) (JS.VStr "245,176,65") "#000000"
    true (JS.of_Z 250) (JS.of_Z 180) (JS.of_Z 10) (JS.of_Z 20) "milk" false.

(** A directory with the state files 0 and 1, a gap at 2, and a state file
    5 beyond the gap; the state file 1 does not parse. *)
Definition gapped_directory : World :=
  mkWorld [] false ∅
    (<[ 5%nat := Parsed (_saveState_stateData small_note) ]>
       (<[ 1%nat := Unparsable ]>
          {[ O := Parsed (_saveState_stateData small_note) ]}))
    ∅ O [].

Lemma changeFontSize_frame_and_persist_witness :
  exists w',
    changeFontSize full_hd 0%nat (JS.of_Z (-2))
      (with_note 0%nat small_note empty_world) = Return tt w'
    /\ heap w' = <[0%nat := small_note]> (heap empty_world).
Proof.
  destruct (changeFontSize_frame_and_persist full_hd 0%nat (JS.of_Z (-2))
              small_note empty_world eq_refl eq_refl)
    as (w' & Hrun & Hheap & _).
  exists w'. split; [exact Hrun | exact Hheap].
Defined.

Lemma _saveState_then__loadState_witness :
  exists w1 w2,
    _saveState full_hd 0%nat (with_note 0%nat small_note empty_world)
    = Return tt w1
    /\ _loadState full_hd 0%nat w1 = Return tt w2.
Proof.
  assert (Hne : "245,176,65" <> "") by discriminate.
  assert (Hid : NoteBox.id (heap (with_note 0%nat small_note empty_world) !!! 0%nat)
                = NoteBox.id small_note) by (vm_compute; reflexivity).
  destruct (_saveState_then__loadState full_hd 0%nat 0%nat small_note
              "245,176,65" empty_world eq_refl eq_refl eq_refl Hne Hid)
    as (w1 & w2 & Hsave & _ & _ & _ & Hload & _).
  exists w1, w2. split; [exact Hsave | exact Hload].
Defined.

(** On that directory the two notes before the gap are loaded, the second
    from a record that does not parse. *)
Example _loadAllNotes_on_gapped_directory :
  exists w',
    _loadAllNotes full_hd 3 gapped_directory = Return (Some tt) w'
    /\ length (_allNotes w') = 2%nat.
Proof.
  assert (Hfiles : forall j, (j < 2)%nat ->
    exists f, state_files gapped_directory !! j = Some f
              /\ colour_readable f = true).
  { intros j Hj. destruct j as [|[|j]]; [| |lia]; eexists;
      (split; [vm_compute; reflexivity | reflexivity]). }
  assert (Hgap : state_files gapped_directory !! 2%nat = None)
    by (vm_compute; reflexivity).
  assert (Hfuel : (2 < 3)%nat) by lia.
  destruct (_loadAllNotes_loads_readable_prefix full_hd gapped_directory 2 3
              eq_refl Hfiles Hgap Hfuel) as (w' & Hrun & Hlen & _).
  exists w'. split; [exact Hrun | exact Hlen].
Defined.

Lemma _loadState_without_record_witness :
  exists px py, in_drawing_area full_hd px py.
Proof.
  assert (Hwide : 300 < monitor_width full_hd) by (vm_compute; reflexivity).
  assert (Hhigh : 100 < monitor_height full_hd) by (vm_compute; reflexivity).
  assert (Hnone : state_files empty_world !! O = None)
    by (vm_compute; reflexivity).
  destruct (_loadState_without_record full_hd full_hd_random_unit Hwide Hhigh
              O (JS.of_Z 16) empty_world Hnone)
    as (px & py & d & Harea & _).
  exists px, py. exact Harea.
Defined.

Lemma _loadState_unparsable_witness :
  exists w',
    _loadState steady_hd O steady_note_unparsable = Return tt w'
    /\ (draws steady_note_unparsable < draws w')%nat
    /\ NoteBox._height (heap w' !!! O) = JS.of_Z 180.
Proof.
  assert (Hfile : state_files steady_note_unparsable
                    !! NoteBox.id (heap steady_note_unparsable !!! O)
                  = Some Unparsable) by (vm_compute; reflexivity).
  assert (Hcolour : NoteBox.customColor (heap steady_note_unparsable !!! O)
                    = JS.VStr "245,176,65") by (vm_compute; reflexivity).
  destruct (_loadState_unparsable steady_hd O Unparsable "245,176,65"
              steady_note_unparsable Hfile (or_introl eq_refl) Hcolour)
    as (px & py & d & w' & _ & Hmore & Hrun & Hdraws & _ & _ & _ & _ & Hheight
        & _).
  exists w'. rewrite Hdraws. split_and!; [exact Hrun | exact Hmore | exact Hheight].
Defined.

(** * More of what the code does *)

(** ** Where [_setNotePosition] leaves a note *)

Section OnScreen.
Variable host : Host.

(** The note is at least 200 x 75 and lies inside the primary monitor: its
    position is at least (0, 0) and at most the size of the monitor less
    the size of the note, or 0 where the note is larger than the monitor. *)
Definition on_screen (n : NoteBox.t) : bool :=
  JS.ge (NoteBox._width n) MIN_WIDTH
  && JS.ge (NoteBox._height n) MIN_HEIGHT
  && JS.ge (NoteBox._x n) (JS.of_Z 0)
  && JS.ge (JS.Math_max (JS.of_Z 0)
              (JS.sub (primaryMonitor_width host) (NoteBox._width n)))
           (NoteBox._x n)
  && JS.ge (NoteBox._y n) (JS.of_Z 0)
  && JS.ge (JS.Math_max (JS.of_Z 0)
              (JS.sub (primaryMonitor_height host) (NoteBox._height n)))
           (NoteBox._y n).

Lemma ge_Fin x y : JS.ge (JS.Fin x) (JS.Fin y) = true <-> (y <= x)%Q.
Proof.
  unfold JS.ge, JS.Qltb. rewrite negb_true_iff.
  destruct (x ?= y)%Q eqn:Hc.
  - apply Qeq_alt in Hc. split; [intros _; rewrite Hc; apply Qle_refl | done].
  - apply Qlt_alt in Hc. split; [done | intros H; exfalso; lra].
  - apply Qgt_alt in Hc. split; [intros _; lra | done].
Qed.

Lemma size_floor v d m :
  exists q,
    JS.Math_max (JS.or_num v (JS.of_Z d)) (JS.of_Z m) = JS.Fin q
    /\ (inject_Z m <= q)%Q.
Proof.
  assert (Hv : exists q, JS.or_num v (JS.of_Z d) = JS.Fin q).
  { unfold JS.or_num. destruct (JS.truthy_num v) eqn:Ht; [|by eexists].
    destruct v; [done | by eexists]. }
  destruct Hv as [q ->]. eexists. split; [reflexivity|]. apply Q.le_max_r.
Qed.

Lemma clamp_bounds x a :
  (0 <= Qmax 0 (Qmin x a))%Q /\ (Qmax 0 (Qmin x a) <= Qmax 0 a)%Q.
Proof.
  split; [apply Q.le_max_l|]. apply Q.max_le_compat_l, Q.le_min_r.
Qed.

Lemma settled_on_screen n :
  JS.isNaN (NoteBox._x n) = false -> JS.isNaN (NoteBox._y n) = false ->
  on_screen (settled host n) = true.
Proof.
  intros Hx Hy.
  destruct (size_floor (NoteBox._width n) 250 200) as (wd & Hwd & Hwd').
  destruct (size_floor (NoteBox._height n) 180 75) as (ht & Hht & Hht').
  destruct (NoteBox._x n) as [|x] eqn:Ex; [done|].
  destruct (NoteBox._y n) as [|y] eqn:Ey; [done|].
  unfold on_screen, settled.
  cbn [NoteBox._x NoteBox._y NoteBox._width NoteBox._height NoteBox.set_x
       NoteBox.set_y NoteBox.set_width NoteBox.set_height].
  fold MIN_WIDTH MIN_HEIGHT in Hwd, Hht. rewrite Hwd, Hht, Ex, Ey.
  unfold MIN_WIDTH, MIN_HEIGHT, primaryMonitor_width, primaryMonitor_height,
    JS.of_Z, JS.sub, JS.Math_max, JS.Math_min.
  rewrite !andb_true_iff, !ge_Fin.
  split_and!; first [done | apply clamp_bounds].
Qed.

End OnScreen.

Section SetPosition.
Variable host : Host.

(** [_setNotePosition] on a position that is not a number: a position is
    drawn, and the rest is as on a position made of numbers. *)
Lemma _setNotePosition_redrawn this w :
  JS.isNaN (NoteBox._x (heap w !!! this))
  || JS.isNaN (NoteBox._y (heap w !!! this)) = true ->
  exists px py d,
    _setNotePosition host this w =
    Return tt
      (position_set host this
         (with_note this
            (NoteBox.set_position (JS.Fin px, JS.Fin py) (heap w !!! this))
            (set_draws d
               (set_journal
                  (journal w ++
                     [LogInvalidPosition (NoteBox._x (heap w !!! this))
                                         (NoteBox._y (heap w !!! this))])
                  w)))).
Proof.
  intros Hnan. unfold _setNotePosition.
  rewrite !bind_update, bind_deref, !with_note_lookup, !with_note_with_note.
  cbn [NoteBox._x NoteBox._y NoteBox.set_width NoteBox.set_height].
  rewrite Hnan, !bind_assoc, bind_log, bind_assoc.
  match goal with |- context [bind (_computeRandomPosition host) _ ?w0] =>
    destruct (_computeRandomPosition_draws host w0) as (px & py & d & Hp)
  end.
  exists px, py, d.
  unfold bind at 1. rewrite Hp.
  rewrite !bind_update, bind_deref, !bind_update, bind_deref.
  rewrite !with_note_lookup, !with_note_with_note.
  destruct w as [notes loaded hp sf tf dr jr].
  unfold position_set, with_note.
  cbn [heap set_draws set_journal journal set_heap _allNotes _notesLoaded
       state_files text_files draws].
  rewrite !lookup_total_insert_eq, !insert_insert_eq.
  destruct (hp !!! this) as [i fs bo cc fc ev wd ht x y tx bd].
  cbn [NoteBox._x NoteBox._y NoteBox._width NoteBox._height NoteBox.set_x
       NoteBox.set_y NoteBox.set_position NoteBox.set_width NoteBox.set_height
       fst snd settled].
  lazymatch goal with
  | |- (if ?c then _ else _) _ = Return tt (if ?c' then _ else _) =>
      change c with c'; destruct c'; reflexivity
  end.
Qed.

(** [_setNotePosition] returns, and the world it leaves is that of
    [position_set] on a world in which the position is made of numbers and
    which differs from the first one by the position of [this], the draws
    and the journal at most. *)
Lemma _setNotePosition_result this w :
  exists w0,
    _setNotePosition host this w = Return tt (position_set host this w0)
    /\ JS.isNaN (NoteBox._x (heap w0 !!! this)) = false
    /\ JS.isNaN (NoteBox._y (heap w0 !!! this)) = false
    /\ (exists p, heap w0 !!! this = NoteBox.set_position p (heap w !!! this))
    /\ (forall r, r <> this -> heap w0 !! r = heap w !! r)
    /\ _allNotes w0 = _allNotes w
    /\ _notesLoaded w0 = _notesLoaded w
    /\ state_files w0 = state_files w
    /\ text_files w0 = text_files w.
Proof.
  destruct (JS.isNaN (NoteBox._x (heap w !!! this))
            || JS.isNaN (NoteBox._y (heap w !!! this))) eqn:Hnan.
  - destruct (_setNotePosition_redrawn this w Hnan) as (px & py & d & Hrun).
    eexists. split; [exact Hrun|]. rewrite with_note_lookup.
    split_and!; try done.
    + by eexists.
    + intros r Hr. unfold with_note. simpl. by rewrite lookup_insert_ne.
  - apply orb_false_elim in Hnan as [Hx Hy].
    exists w. split; [by apply _setNotePosition_numeric|].
    split_and!; try done.
    exists (NoteBox._x (heap w !!! this), NoteBox._y (heap w !!! this)).
    by destruct (heap w !!! this).
Qed.

Lemma clamp_twice x a :
  Qmax 0 (Qmin (Qmax 0 (Qmin x a)) a) = Qmax 0 (Qmin x a).
Proof.
  pose proof (Q.le_min_r x a) as Hle. set (m := Qmin x a) in *.
  assert (Hcases : Qmax 0 m = m /\ (0 ?= m)%Q = Lt \/ Qmax 0 m = 0%Q).
  { unfold Qmax, GenericMinMax.gmax. destruct (0 ?= m)%Q; auto. }
  destruct Hcases as [[-> Hm] | ->].
  - assert (Hmin : Qmin m a = m).
    { unfold Qmin, GenericMinMax.gmin.
      by destruct (m ?= a)%Q eqn:Ha. }
    rewrite Hmin. unfold Qmax, GenericMinMax.gmax. by rewrite Hm.
  - unfold Qmin, GenericMinMax.gmin.
    destruct (0 ?= a)%Q eqn:Ha; unfold Qmax, GenericMinMax.gmax;
      by rewrite ?Ha.
Qed.

(** Setting the position of a note that [_setNotePosition] has set changes
    nothing. *)
Lemma settled_twice n :
  JS.isNaN (NoteBox._x n) = false -> JS.isNaN (NoteBox._y n) = false ->
  settled host (settled host n) = settled host n.
Proof.
  intros Hx Hy.
  destruct (size_floor (NoteBox._width n) 250 200) as (wd & Hwd & _).
  destruct (size_floor (NoteBox._height n) 180 75) as (ht & Hht & _).
  pose proof (floor_size_twice (NoteBox._width n) 250 200 ltac:(lia)) as Hw2.
  pose proof (floor_size_twice (NoteBox._height n) 180 75 ltac:(lia)) as Hh2.
  destruct n as [i fs bo cc fc ev w h [|x] [|y] tx bd]; try done.
  unfold settled.
  cbn [NoteBox._x NoteBox._y NoteBox._width NoteBox._height NoteBox.set_x
       NoteBox.set_y NoteBox.set_width NoteBox.set_height] in *.
  fold MIN_WIDTH MIN_HEIGHT in Hwd, Hht, Hw2, Hh2. rewrite Hw2, Hh2, Hwd, Hht.
  unfold primaryMonitor_width, primaryMonitor_height, JS.of_Z, JS.sub,
    JS.Math_max, JS.Math_min.
  by rewrite !clamp_twice.
Qed.

Lemma strict_ne_same x : JS.isNaN x = false -> JS.strict_ne x x = false.
Proof.
  destruct x as [|q]; [done|]. intros _. unfold JS.strict_ne.
  apply negb_false_iff, Qeq_bool_iff. reflexivity.
Qed.

Lemma position_set_twice this w0 :
  JS.isNaN (NoteBox._x (heap w0 !!! this)) = false ->
  JS.isNaN (NoteBox._y (heap w0 !!! this)) = false ->
  position_set host this (position_set host this w0)
  = position_set host this w0.
Proof.
  intros Hx Hy.
  destruct (settled_numeric host _ Hx Hy) as [Hx' Hy'].
  set (w1 := position_set host this w0).
  assert (Hn1 : heap w1 !!! this = settled host (heap w0 !!! this)).
  { unfold w1. by rewrite position_set_heap, lookup_total_insert_eq. }
  unfold position_set at 1. fold w1.
  rewrite Hn1, settled_twice, !strict_ne_same by done. cbn [orb].
  unfold with_note. rewrite <- Hn1 at 1.
  unfold w1. rewrite position_set_heap, insert_insert_eq.
  rewrite <- position_set_heap. fold w1. rewrite Hn1.
  rewrite <- (position_set_heap host this w0). fold w1. by destruct w1.
Qed.

(** X1.  [_setNotePosition] always returns, and it leaves the note on
    screen: at least 200 x 75, with a position made of numbers that is at
    least (0, 0) and at most the size of the monitor less the size of the
    note.  It changes the position and the size only; the other notes, the
    list and the files are as before. *)
Theorem _setNotePosition_puts_on_screen this w :
  exists w',
    _setNotePosition host this w = Return tt w'
    /\ on_screen host (heap w' !!! this) = true
    /\ same_but_geometry (heap w !!! this) (heap w' !!! this)
    /\ NoteBox.id (heap w' !!! this) = NoteBox.id (heap w !!! this)
    /\ (forall r, r <> this -> heap w' !! r = heap w !! r)
    /\ _allNotes w' = _allNotes w
    /\ state_files w' = state_files w
    /\ text_files w' = text_files w.
Proof.
  destruct (_setNotePosition_result this w)
    as (w0 & Hrun & Hx & Hy & [p Hp] & Ho & Hn & _ & Hs & Ht).
  exists (position_set host this w0). split; [exact Hrun|].
  destruct (position_set_frame host this w0) as (Hn' & Hs' & Ht' & _).
  rewrite position_set_heap, lookup_total_insert_eq, Hn', Hs', Ht'.
  split_and!; try done.
  - by apply settled_on_screen.
  - rewrite Hp. by destruct (heap w !!! this).
  - rewrite Hp. by destruct (heap w !!! this).
  - intros r Hr. by rewrite lookup_insert_ne, Ho.
Qed.

(** X2.  [_setNotePosition] is idempotent: run on the world that it has
    left, it returns that very world, with no line in the journal. *)
Theorem _setNotePosition_twice this w :
  exists w',
    _setNotePosition host this w = Return tt w'
    /\ _setNotePosition host this w' = Return tt w'.
Proof.
  destruct (_setNotePosition_result this w) as (w0 & Hrun & Hx & Hy & _).
  exists (position_set host this w0). split; [exact Hrun|].
  destruct (settled_numeric host _ Hx Hy) as [Hx' Hy'].
  rewrite _setNotePosition_numeric.
  - by rewrite position_set_twice.
  - by rewrite position_set_heap, lookup_total_insert_eq.
  - by rewrite position_set_heap, lookup_total_insert_eq.
Qed.

End SetPosition.

(** ** The note that the constructor returns *)

(** The font size stays a number other than 0 once it is one. *)
Definition keeps_fontSize (n n' : NoteBox.t) : Prop :=
  JS.truthy_num (NoteBox._fontSize n) = true ->
  JS.truthy_num (NoteBox._fontSize n') = true.

#[global] Instance keeps_fontSize_preorder : PreOrder keeps_fontSize.
Proof. split; unfold keeps_fontSize; [intros n | intros n1 n2 n3]; auto. Qed.

(** The colours and the font size are kept. *)
Definition same_style (n n' : NoteBox.t) : Prop :=
  NoteBox.customColor n' = NoteBox.customColor n
  /\ NoteBox._fontColor n' = NoteBox._fontColor n
  /\ NoteBox._fontSize n' = NoteBox._fontSize n.

#[global] Instance same_style_preorder : PreOrder same_style.
Proof.
  split; unfold same_style; [intros n | intros n1 n2 n3]; intuition congruence.
Qed.

Lemma or_num_truthy v d :
  JS.truthy_num d = true -> JS.truthy_num (JS.or_num v d) = true.
Proof. intros Hd. unfold JS.or_num. by destruct (JS.truthy_num v) eqn:Hv. Qed.

Ltac field_step :=
  first
    [ apply stable_ret; apply _
    | apply stable_throw; apply _
    | apply stable_gets; apply _
    | apply log_local; apply _
    | apply Math_random_local; apply _
    | apply write_state_file_local; apply _
    | apply write_text_file_local; apply _
    | apply _computeRandomPosition_local; apply _
    | apply update_local;
      [ apply _
      | intros ?;
        first [ by split_and!
              | intros ?; first [ assumption | by apply or_num_truthy ] ]
      | intros ?; reflexivity ]
    | apply stable_bind; [ apply _ | | intros ? ]
    | apply stable_try_catch; [ apply _ | | intros ? ]
    | apply stable_if; [ apply _ | | ]
    | match goal with
      | |- stable _ (match ?x with _ => _ end) => destruct x
      | |- stable _ (if ?x then _ else _) => destruct x
      end ].

Ltac field_auto :=
  unfold deref, read_state_file, read_text_file; repeat field_step.

Section WellFormed.
Variable host : Host.

Lemma _loadState_keeps_fontSize this :
  stable (note_local keeps_fontSize this) (_loadState host this).
Proof.
  unfold _loadState, _loadState_try, _loadState_catch, JSON_parse.
  field_auto.
Qed.

Lemma _loadText_same_style this :
  stable (note_local same_style this) (_loadText this).
Proof. unfold _loadText. field_auto. Qed.

Lemma try_catch_Return {A} (m : M A) (h : exn -> M A) w a w' :
  try_catch m h w = Return a w' ->
  m w = Return a w'
  \/ exists e w1, m w = Throw e w1 /\ h e w1 = Return a w'.
Proof. unfold try_catch. destruct (m w) as [b w1|e w1]; eauto. Qed.

(** When [_initStyle] returns, the colour is a string and the colour of
    the text is black or white. *)
Lemma _initStyle_Return this w w' :
  _initStyle host this w = Return tt w' ->
  (exists s, NoteBox.customColor (heap w' !!! this) = JS.VStr s)
  /\ (NoteBox._fontColor (heap w' !!! this) = "#000000"
      \/ NoteBox._fontColor (heap w' !!! this) = "#ffffff").
Proof.
  unfold _initStyle, bind at 1, deref, gets.
  destruct (NoteBox.customColor (heap w !!! this)); try discriminate 1.
  rewrite _applyColor_eval.
  match goal with |- context [_saveState host this ?w2] =>
    destruct (_saveState_effect host this w2) as (w1 & Hloc & ->) end.
  intros [= <-]. destruct Hloc as [_ _ _ _ [_ _ Hc Hf _ _ _] _ _ _].
  rewrite with_note_lookup in Hc, Hf.
  unfold state_written. cbn [heap set_journal set_state_files].
  rewrite Hc, Hf. unfold coloured.
  cbn [NoteBox.customColor NoteBox._fontColor NoteBox.set_fontColor
       NoteBox.set_customColor].
  split; [by eexists|]. case_match; auto.
Qed.

Lemma _loadState_Return this w w' :
  _loadState host this w = Return tt w' ->
  (exists s, NoteBox.customColor (heap w' !!! this) = JS.VStr s)
  /\ (NoteBox._fontColor (heap w' !!! this) = "#000000"
      \/ NoteBox._fontColor (heap w' !!! this) = "#ffffff").
Proof.
  unfold _loadState, bind at 1, read_state_file, gets.
  destruct (state_files w !! NoteBox.id (heap w !!! this)) as [contents|].
  - intros [Htry | (e & w1 & _ & Hcatch)]%try_catch_Return.
    + unfold _loadState_try in Htry.
      do 12 (apply bind_Return in Htry as (? & ? & _ & Htry)).
      apply bind_Return in Htry as ([] & w2 & Hstyle & Hlog).
      injection Hlog as <-. by apply _initStyle_Return in Hstyle.
    + unfold _loadState_catch in Hcatch.
      do 8 (apply bind_Return in Hcatch as (? & ? & _ & Hcatch)).
      by apply _initStyle_Return in Hcatch.
  - intros Hrun. apply bind_Return in Hrun as (? & ? & _ & Hrun).
    by apply _initStyle_Return in Hrun.
Qed.

(** [_setNotePosition] leaves the note on screen. *)
Lemma _setNotePosition_Return this w w' :
  _setNotePosition host this w = Return tt w' ->
  on_screen host (heap w' !!! this) = true.
Proof.
  destruct (_setNotePosition_result host this w) as (w0 & -> & Hx & Hy & _).
  intros [= <-]. rewrite position_set_heap, lookup_total_insert_eq.
  by apply settled_on_screen.
Qed.

(** X3.  The note that [createNote] returns is well formed: its id is the
    former length of the list, it is on screen (at least 200 x 75, inside
    the primary monitor), its font size is a number other than 0, its
    colour is a string and the colour of its text is black or white;
    whatever the state file of that id held. *)
Theorem createNote_note_is_well_formed colorString fontSize w note w' :
  createNote host colorString fontSize w = Return note w' ->
  let n := heap w' !!! note in
  NoteBox.id n = length (_allNotes w)
  /\ on_screen host n = true
  /\ JS.truthy_num (NoteBox._fontSize n) = true
  /\ (exists s, NoteBox.customColor n = JS.VStr s)
  /\ (NoteBox._fontColor n = "#000000" \/ NoteBox._fontColor n = "#ffffff").
Proof.
  rewrite createNote_unfold.
  pose proof (NoteBox_new_frame host (length (_allNotes w)) colorString
                fontSize w) as (_ & _ & _ & _ & _ & Hret). simpl in Hret.
  destruct (NoteBox_new host (length (_allNotes w)) colorString fontSize w)
    as [note1 w5|e w5] eqn:Hnew; [|discriminate 1].
  intros [= <- <-]. destruct (Hret note1 w5 eq_refl) as (_ & _ & Hid).
  cbn [heap set_allNotes]. split; [exact Hid|]. clear Hret Hid.
  destruct (NoteBox_new_unfold host (length (_allNotes w)) colorString
              fontSize w) as (x & y & d & Hunfold). simpl in Hunfold.
  rewrite Hunfold in Hnew. clear Hunfold.
  set (this := fresh (dom (heap w))) in *.
  match type of Hnew with NoteBox_load host this ?w0 = _ =>
    set (w2 := w0) in * end.
  unfold NoteBox_load in Hnew.
  apply bind_Return in Hnew as ([] & w3 & Hload & Hnew).
  apply bind_Return in Hnew as ([] & w4 & Htext & Hnew).
  apply bind_Return in Hnew as ([] & w6 & Hlayer & Hnew).
  injection Hnew as <- <-.
  pose proof (_loadState_keeps_fontSize this w2) as [_ _ _ _ Hfs _ _ _].
  rewrite Hload in Hfs. simpl in Hfs.
  pose proof (_loadText_same_style this w3) as [_ _ _ _ Hst _ _ _].
  rewrite Htext in Hst. simpl in Hst. destruct Hst as (Hc4 & Hf4 & Hs4).
  pose proof (loadIntoCorrectLayer_local host this w4)
    as [_ _ _ _ [Hs6 _ Hc6 Hf6 _ _ _] _ _ _].
  rewrite Hlayer in Hs6, Hc6, Hf6. simpl in Hs6, Hc6, Hf6.
  destruct (_loadState_Return this w2 w3 Hload) as [Hcol Hfont].
  rewrite Hs6, Hc6, Hf6, Hs4, Hc4, Hf4. split_and!; try done.
  - unfold loadIntoCorrectLayer in Hlayer.
    do 4 (apply bind_Return in Hlayer as (? & ? & _ & Hlayer)).
    apply bind_Return in Hlayer as (? & w1 & _ & Hlayer).
    by apply _setNotePosition_Return in Hlayer.
  - apply Hfs. rewrite lookup_total_insert_eq. simpl.
    by apply or_num_truthy.
Qed.

End WellFormed.

(** ** The position that [_computeRandomPosition] returns *)

Section Rounds.
Variable host : Host.

(** The candidate of the round [j] of the loop, counted from 0, when the
    loop starts on the world [w]: two draws, scaled to the monitor. *)
Definition candidate (w : World) (j : nat) : JS.num * JS.num :=
  (JS.mul (JS.Fin (random host (draws w + 2 * j)))
     (JS.sub (primaryMonitor_width host) (JS.of_Z 300)),
   JS.mul (JS.Fin (random host (draws w + 2 * j + 1)))
     (JS.sub (primaryMonitor_height host) (JS.of_Z 100))).

(** What [areCoordsUsable] answers on the notes of [w]. *)
Definition usable (w : World) (p : JS.num * JS.num) : bool :=
  match areCoordsUsable (fst p) (snd p) w with
  | Return b _ => b
  | Throw _ _ => false
  end.

Lemma areCoordsUsable_draws x y d w :
  areCoordsUsable x y (set_draws d w) = Return (usable w (x, y)) (set_draws d w).
Proof. reflexivity. Qed.

Lemma candidate_shift w j :
  candidate (set_draws (S (S (draws w))) w) j = candidate w (S j).
Proof.
  unfold candidate. cbn [draws set_draws].
  replace (S (S (draws w)) + 2 * j)%nat with (draws w + 2 * S j)%nat by lia.
  reflexivity.
Qed.

Lemma _computeRandomPosition_round_first_usable n w :
  exists k,
    (k <= n)%nat
    /\ _computeRandomPosition_round host n w =
       Return (candidate w k) (set_draws (draws w + 2 * S k) w)
    /\ (forall j, (j < k)%nat -> usable w (candidate w j) = false)
    /\ ((k < n)%nat -> usable w (candidate w k) = true).
Proof.
  revert w. induction n as [|n IH]; intros w.
  - exists O. split; [lia|]. split; [|split; intros; lia].
    cbn [_computeRandomPosition_round].
    unfold bind at 1, Math_random at 1. unfold bind at 1, Math_random at 1.
    cbn [draws set_draws]. unfold bind at 1.
    rewrite areCoordsUsable_draws. unfold candidate.
    replace (draws w + 2 * 0)%nat with (draws w) by lia.
    replace (draws w + 1)%nat with (S (draws w)) by lia.
    replace (draws w + 2 * 1)%nat with (S (S (draws w))) by lia.
    by case_match.
  - cbn [_computeRandomPosition_round].
    unfold bind at 1, Math_random at 1. unfold bind at 1, Math_random at 1.
    cbn [draws set_draws]. unfold bind at 1.
    rewrite areCoordsUsable_draws.
    assert (Hc0 : candidate w 0 =
      (JS.mul (JS.Fin (random host (draws w)))
         (JS.sub (primaryMonitor_width host) (JS.of_Z 300)),
       JS.mul (JS.Fin (random host (S (draws w))))
         (JS.sub (primaryMonitor_height host) (JS.of_Z 100)))).
    { unfold candidate.
      replace (draws w + 2 * 0)%nat with (draws w) by lia.
      by replace (draws w + 1)%nat with (S (draws w)) by lia. }
    rewrite <- Hc0.
    change (usable (set_draws (S (draws w)) w) (candidate w 0))
      with (usable w (candidate w 0)).
    destruct (usable w (candidate w 0)) eqn:Hu.
    + exists O. split; [lia|]. split; [|split; [intros; lia | done]].
      unfold ret. by replace (draws w + 2 * 1)%nat with (S (S (draws w))) by lia.
    + destruct (IH (set_draws (S (S (draws w))) w))
        as (k & Hk & Hrun & Hbefore & Hlast).
      exists (S k). split; [lia|].
      change (set_draws (S (S (draws w))) (set_draws (S (draws w)) w))
        with (set_draws (S (S (draws w))) w).
      rewrite Hrun, candidate_shift. cbn [draws set_draws].
      split; [|split].
      * f_equal. change (set_draws ?a (set_draws ?b w)) with (set_draws a w).
        f_equal. lia.
      * intros [|j] Hj; [exact Hu|].
        rewrite <- candidate_shift. apply Hbefore. lia.
      * intros Hlt. rewrite <- candidate_shift. apply Hlast. lia.
Qed.

Hypothesis random_unit :
  forall i, (0 <= random host i)%Q /\ (random host i < 1)%Q.
Hypothesis monitor_wide : 300 < monitor_width host.
Hypothesis monitor_high : 100 < monitor_height host.

Lemma candidate_in_drawing_area w j :
  exists x y,
    candidate w j = (JS.Fin x, JS.Fin y) /\ in_drawing_area host x y.
Proof.
  destruct (random_unit (draws w + 2 * j)) as [? ?].
  destruct (random_unit (draws w + 2 * j + 1)) as [? ?].
  do 2 eexists. split; [reflexivity|].
  unfold in_drawing_area. split_and!; by apply candidate_bounds.
Qed.

(** X4.  With draws in [0, 1) on a monitor larger than 300 x 100,
    [_computeRandomPosition] returns the first of its 15 candidates that
    [areCoordsUsable] accepts, and the 15th when it accepts none.  Each
    candidate takes two draws and lies in [0, W - 300) x [0, H - 100);
    nothing but the count of draws changes. *)
Theorem _computeRandomPosition_first_usable w :
  exists k x y,
    (k < 15)%nat
    /\ _computeRandomPosition host w =
       Return (JS.Fin x, JS.Fin y) (set_draws (draws w + 2 * S k) w)
    /\ candidate w k = (JS.Fin x, JS.Fin y)
    /\ in_drawing_area host x y
    /\ (forall j, (j < k)%nat -> usable w (candidate w j) = false)
    /\ ((k < 14)%nat -> usable w (JS.Fin x, JS.Fin y) = true).
Proof.
  destruct (_computeRandomPosition_round_first_usable 14 w)
    as (k & Hk & Hrun & Hbefore & Hlast).
  destruct (candidate_in_drawing_area w k) as (x & y & Hc & Harea).
  exists k, x, y. rewrite <- Hc. split_and!; try done. lia.
Qed.

End Rounds.

(** ** The text of a note *)

Section Text.

(** [_loadText] evaluated. *)
Lemma _loadText_eval this w :
  let id := NoteBox.id (heap w !!! this) in
  let content := default "" (text_files w !! id) in
  exists w',
    _loadText this w = Return tt w'
    /\ heap w' = <[this := NoteBox.set_text content (heap w !!! this)]> (heap w)
    /\ text_files w' = <[id := content]> (text_files w)
    /\ state_files w' = state_files w
    /\ _allNotes w' = _allNotes w
    /\ journal w' = journal w.
Proof.
  intros id content. unfold _loadText, bind at 1, read_text_file at 1, gets.
  fold id. destruct (text_files w !! id) as [c|] eqn:Hfile.
  - rewrite bool_decide_eq_false_2 by done.
    unfold bind, ret, try_catch, read_text_file, gets. fold id. rewrite Hfile.
    eexists. split; [reflexivity|]. simpl. split_and!; try done.
    by rewrite insert_id.
  - rewrite bool_decide_eq_true_2 by done.
    unfold bind, write_text_file, modify, try_catch, read_text_file, gets.
    cbn [heap set_text_files text_files]. fold id.
    rewrite lookup_insert_eq.
    eexists. split; [reflexivity|]. simpl. by split_and!.
Qed.

(** X5.  [_loadText] never throws.  When the text file of the note's id is
    missing it is created empty and the text of the note becomes empty;
    otherwise the text of the note becomes what the file holds and the
    file stays as it is.  Nothing else changes. *)
Theorem _loadText_reads_or_creates this w :
  let id := NoteBox.id (heap w !!! this) in
  let content := default "" (text_files w !! id) in
  exists w',
    _loadText this w = Return tt w'
    /\ heap w' = <[this := NoteBox.set_text content (heap w !!! this)]> (heap w)
    /\ text_files w' = <[id := content]> (text_files w)
    /\ (is_Some (text_files w !! id) -> text_files w' = text_files w)
    /\ (text_files w !! id = None -> content = "")
    /\ state_files w' = state_files w
    /\ _allNotes w' = _allNotes w
    /\ journal w' = journal w.
Proof.
  intros id content.
  destruct (_loadText_eval this w) as (w' & Hrun & Hh & Ht & Hs & Hn & Hj).
  fold id content in Hh, Ht.
  exists w'. split_and!; try done.
  - intros [c Hc]. rewrite Ht. apply insert_id. unfold content.
    by rewrite Hc.
  - intros Hnone. unfold content. by rewrite Hnone.
Qed.

(** X6.  The text round trip: what [_saveText] writes for a note is what
    [_loadText] gives to any note of the same id, be it the same object or
    another one. *)
Theorem _saveText_then__loadText this that w :
  NoteBox.id (heap w !!! that) = NoteBox.id (heap w !!! this) ->
  exists w',
    (_saveText this;; _loadText that) w = Return tt w'
    /\ NoteBox.noteEntry_text (heap w' !!! that)
       = NoteBox.noteEntry_text (heap w !!! this)
    /\ text_files w' !! NoteBox.id (heap w !!! this)
       = Some (NoteBox.noteEntry_text (heap w !!! this))
    /\ state_files w' = state_files w.
Proof.
  intros Hid. unfold bind at 1. rewrite _saveText_eval.
  set (w1 := text_written this w).
  assert (Hheap : heap w1 = heap w) by reflexivity.
  assert (Hfile : text_files w1 !! NoteBox.id (heap w1 !!! that)
                  = Some (NoteBox.noteEntry_text (heap w !!! this))).
  { unfold w1, text_written. cbn [heap text_files set_text_files].
    by rewrite Hid, lookup_insert_eq. }
  unfold _loadText, bind at 1, read_text_file at 1, gets. rewrite Hfile.
  rewrite bool_decide_eq_false_2 by done.
  unfold bind, ret, try_catch, read_text_file, gets. rewrite Hfile.
  eexists. split; [reflexivity|]. simpl.
  rewrite lookup_total_insert_eq, lookup_insert_eq. by split_and!.
Qed.

End Text.

(** ** Bold text *)

Section Bold.
Variable host : Host.

Lemma toggleBold_effect this w :
  let b := JS.truthy (NoteBox._isBold (heap w !!! this)) in
  exists w1 d,
    toggleBold host this w = Return tt w1
    /\ NoteBox._isBold (heap w1 !!! this) = JS.VBool (negb b)
    /\ NoteBox.id (heap w1 !!! this) = NoteBox.id (heap w !!! this)
    /\ NoteBox._fontSize (heap w1 !!! this) = NoteBox._fontSize (heap w !!! this)
    /\ NoteBox.customColor (heap w1 !!! this)
       = NoteBox.customColor (heap w !!! this)
    /\ NoteBox.noteEntry_text (heap w1 !!! this)
       = NoteBox.noteEntry_text (heap w !!! this)
    /\ state_files w1 !! NoteBox.id (heap w !!! this) = Some (Parsed d)
    /\ stateData.isBold d = JS.VBool (negb b).
Proof.
  intros b. unfold toggleBold. rewrite bind_update.
  match goal with |- context [_saveState host this ?w0] =>
    destruct (_saveState_effect host this w0) as (w1 & Hloc & ->) end.
  destruct Hloc as [_ _ _ _ [Hfs Hb Hc _ _ Ht _] Hid _ _].
  rewrite with_note_lookup in Hfs, Hb, Hc, Ht, Hid. simpl in Hfs, Hb, Hc, Ht, Hid.
  do 2 eexists. split; [reflexivity|].
  unfold state_written. cbn [heap state_files set_journal set_state_files].
  rewrite Hid, lookup_insert_eq, Hb, Hfs, Hc, Ht.
  split_and!; try done. simpl. by rewrite Hb.
Qed.

(** X7.  [toggleBold] never throws; it makes the boldness the boolean
    opposite of what it was (as a truth value) and writes a record that
    holds it.  Toggling twice gives back the boldness the note had, and the
    record holds it again; font size, colour and text are as before. *)
Theorem toggleBold_twice this w :
  let n := heap w !!! this in
  let b := JS.truthy (NoteBox._isBold n) in
  exists w1 w2 d1 d2,
    toggleBold host this w = Return tt w1
    /\ NoteBox._isBold (heap w1 !!! this) = JS.VBool (negb b)
    /\ state_files w1 !! NoteBox.id n = Some (Parsed d1)
    /\ stateData.isBold d1 = JS.VBool (negb b)
    /\ toggleBold host this w1 = Return tt w2
    /\ NoteBox._isBold (heap w2 !!! this) = JS.VBool b
    /\ state_files w2 !! NoteBox.id n = Some (Parsed d2)
    /\ stateData.isBold d2 = JS.VBool b
    /\ NoteBox._fontSize (heap w2 !!! this) = NoteBox._fontSize n
    /\ NoteBox.customColor (heap w2 !!! this) = NoteBox.customColor n
    /\ NoteBox.noteEntry_text (heap w2 !!! this) = NoteBox.noteEntry_text n.
Proof.
  intros n b.
  destruct (toggleBold_effect this w)
    as (w1 & d1 & Hrun1 & Hb1 & Hid1 & Hfs1 & Hc1 & Ht1 & Hf1 & Hd1).
  destruct (toggleBold_effect this w1)
    as (w2 & d2 & Hrun2 & Hb2 & Hid2 & Hfs2 & Hc2 & Ht2 & Hf2 & Hd2).
  rewrite Hb1 in Hb2, Hd2. simpl in Hb2, Hd2. rewrite negb_involutive in Hb2, Hd2.
  rewrite Hid1 in Hf2.
  exists w1, w2, d1, d2. fold n b in Hb1, Hf1, Hd1, Hb2, Hf2, Hd2.
  rewrite Hfs2, Hc2, Ht2. by split_and!.
Qed.

End Bold.

(** ** Font size, over any number of changes *)

(** Running computations one after the other. *)
Definition run_all (ms : list (M unit)) : M unit :=
  foldr (fun m k => m;; k) (ret tt) ms.

Lemma add_of_Z a b : JS.add (JS.of_Z a) (JS.of_Z b) = JS.of_Z (a + b).
Proof.
  unfold JS.add, JS.of_Z, inject_Z, Qplus. simpl. f_equal. f_equal. lia.
Qed.

Lemma gt_of_Z a b : JS.gt (JS.of_Z a) (JS.of_Z b) = (b <? a).
Proof.
  unfold JS.gt, JS.lt, JS.of_Z, JS.Qltb, inject_Z, Qcompare. simpl.
  rewrite !Z.mul_1_r. unfold Z.ltb. reflexivity.
Qed.

Section FontSizes.
Variable host : Host.

Lemma changeFontSize_step this delta w :
  let fs := NoteBox._fontSize (heap w !!! this) in
  exists w',
    changeFontSize host this delta w = Return tt w'
    /\ NoteBox._fontSize (heap w' !!! this) =
       (if JS.gt (JS.add fs delta) (JS.of_Z 1) then JS.add fs delta else fs).
Proof.
  intros fs. rewrite changeFontSize_unfold. fold fs.
  match goal with |- context [onlySave host this true ?w1] =>
    destruct (onlySave_effect host this w1) as (w2 & Hloc & ->) end.
  destruct Hloc as [_ _ _ _ [Hfs _ _ _ _ _ _] _ _ _].
  eexists. split; [reflexivity|].
  unfold text_written, state_written.
  cbn [heap set_text_files set_journal set_state_files]. rewrite Hfs.
  case_match; [by rewrite with_note_lookup | done].
Qed.

(** X8.  The font size never falls to 1 or below: on a note whose font
    size exceeds 1, any sequence of [changeFontSize] calls, whatever the
    deltas, returns and leaves a font size that exceeds 1. *)
Theorem changeFontSize_keeps_above_one this deltas w :
  JS.gt (NoteBox._fontSize (heap w !!! this)) (JS.of_Z 1) = true ->
  exists w',
    run_all (map (changeFontSize host this) deltas) w = Return tt w'
    /\ JS.gt (NoteBox._fontSize (heap w' !!! this)) (JS.of_Z 1) = true.
Proof.
  revert w. induction deltas as [|delta deltas IH]; intros w Hgt.
  - by exists w.
  - destruct (changeFontSize_step this delta w) as (w1 & Hrun & Hfs).
    destruct (IH w1) as (w' & Hrest & Hgt').
    { rewrite Hfs. by case_match. }
    exists w'. split; [|exact Hgt'].
    cbn [map run_all foldr]. unfold bind at 1. rewrite Hrun. exact Hrest.
Qed.

(** X9.  The "Font size" submenu moves the size by two: on a note whose
    font size is an even number from 2 on, as the 16 of the manager is,
    any sequence of "Decrease" and "Increase" leaves an even number from
    2 on. *)
Theorem size_menu_keeps_even this picks w k :
  Forall (fun e => e ∈ sizes) picks ->
  1 <= k ->
  NoteBox._fontSize (heap w !!! this) = JS.of_Z (2 * k) ->
  exists w' k',
    run_all (map (fun e => size_activate host this e.2) picks) w = Return tt w'
    /\ 1 <= k'
    /\ NoteBox._fontSize (heap w' !!! this) = JS.of_Z (2 * k').
Proof.
  intros Hpicks. revert w k.
  induction Hpicks as [|e picks He _ IH]; intros w k Hk Hfs.
  - by exists w, k.
  - unfold size_activate in *.
    destruct (changeFontSize_step this (JS.of_Z e.2) w)
      as (w1 & Hrun & Hfs1).
    rewrite Hfs, add_of_Z, gt_of_Z in Hfs1.
    assert (Hk1 : exists k1, 1 <= k1
              /\ NoteBox._fontSize (heap w1 !!! this) = JS.of_Z (2 * k1)).
    { rewrite Hfs1. unfold sizes in He.
      apply elem_of_cons in He as [->|He]; simpl.
      - destruct (1 <? 2 * k + -2) eqn:Hlt.
        + apply Z.ltb_lt in Hlt. exists (k - 1). split; [lia|]. f_equal. lia.
        + by exists k.
      - apply list_elem_of_singleton in He as ->. simpl.
        destruct (1 <? 2 * k + 2) eqn:Hlt.
        + exists (k + 1). split; [lia|]. f_equal. lia.
        + by exists k. }
    destruct Hk1 as (k1 & Hk1 & Hfs1').
    destruct (IH w1 k1 Hk1 Hfs1') as (w' & k' & Hrest & Hk' & Hfs').
    exists w', k'. split; [|done].
    cbn [map run_all foldr]. unfold bind at 1. rewrite Hrun. exact Hrest.
Qed.

End FontSizes.

(** ** A colour, written and read again *)

Lemma Qred_inject_Z z : Qred (inject_Z z) = inject_Z z.
Proof.
  unfold Qred, inject_Z.
  pose proof (Z.ggcd_gcd z 1) as Hg.
  pose proof (Z.ggcd_correct_divisors z 1) as Hd.
  destruct (Z.ggcd z 1) as (g & aa & bb). simpl in *.
  rewrite Z.gcd_1_r in Hg. subst g. destruct Hd as [Ha Hb].
  f_equal; [lia|]. replace bb with 1 by lia. reflexivity.
Qed.

Lemma toString_of_Z z : JS.toString (JS.of_Z z) = pretty z.
Proof. unfold JS.toString, JS.of_Z. by rewrite Qred_inject_Z. Qed.

Lemma Math_max_of_Z a b :
  JS.Math_max (JS.of_Z a) (JS.of_Z b) = JS.of_Z (Z.max a b).
Proof.
  unfold JS.Math_max, JS.of_Z, Qmax, GenericMinMax.gmax, Z.max, inject_Z,
    Qcompare. simpl. rewrite !Z.mul_1_r. by destruct (a ?= b).
Qed.

Lemma Math_min_of_Z a b :
  JS.Math_min (JS.of_Z a) (JS.of_Z b) = JS.of_Z (Z.min a b).
Proof.
  unfold JS.Math_min, JS.of_Z, Qmin, GenericMinMax.gmin, Z.min, inject_Z,
    Qcompare. simpl. rewrite !Z.mul_1_r. by destruct (a ?= b).
Qed.

(** No comma in the string. *)
Fixpoint comma_free (s : string) : bool :=
  match s with
  | EmptyString => true
  | String c s' => negb (Ascii.eqb c ",") && comma_free s'
  end.

Lemma split_comma_String c s :
  JS.split_comma (String c s) =
  if Ascii.eqb c "," then "" :: JS.split_comma s
  else match JS.split_comma s with
       | h :: t => String c h :: t
       | [] => [String c ""]
       end.
Proof. reflexivity. Qed.

Lemma split_comma_last s : comma_free s = true -> JS.split_comma s = [s].
Proof.
  induction s as [|c s IH]; [done|]. simpl. intros [Hc Hs]%andb_true_iff.
  apply negb_true_iff in Hc. by rewrite split_comma_String, Hc, IH.
Qed.

Lemma split_comma_app s rest :
  comma_free s = true ->
  JS.split_comma (s +:+ "," +:+ rest) = s :: JS.split_comma rest.
Proof.
  induction s as [|c s IH]; [done|]. simpl. intros [Hc Hs]%andb_true_iff.
  apply negb_true_iff in Hc.
  change (String c s +:+ "," +:+ rest) with (String c (s +:+ "," +:+ rest)).
  by rewrite split_comma_String, Hc, IH.
Qed.

#[global] Instance Q_eq_dec : EqDecision Q.
Proof. solve_decision. Defined.

#[global] Instance num_eq_dec : EqDecision JS.num.
Proof. solve_decision. Defined.

(** The decimal writing of [n] has no comma and reads back as [n]. *)
Definition reads_back (n : nat) : bool :=
  let z := Z.of_nat n in
  comma_free (pretty z)
  && bool_decide (JS.StringToNumber (pretty z) = JS.of_Z z).

Lemma bytes_read_back : forallb reads_back (seq 0 256) = true.
Proof. vm_compute. reflexivity. Qed.

Lemma byte_reads_back z :
  0 <= z <= 255 ->
  comma_free (pretty z) = true /\ JS.StringToNumber (pretty z) = JS.of_Z z.
Proof.
  intros Hz. pose proof bytes_read_back as H.
  rewrite forallb_forall in H. specialize (H (Z.to_nat z)).
  unfold reads_back in H. rewrite Z2Nat.id in H by lia.
  apply andb_true_iff in H as [Hc Hr].
  - split; [done | by apply bool_decide_eq_true in Hr].
  - apply in_seq. lia.
Qed.

Section ColourRoundTrip.
Variable host : Host.

(** [_saveState] returns and writes the record of the fields as they are
    once the position is made of numbers. *)
Lemma _saveState_leaves_numbers this w :
  exists w1,
    _saveState host this w = Return tt (state_written this w1)
    /\ note_local same_but_geometry this w w1
    /\ JS.isNaN (NoteBox._x (heap w1 !!! this)) = false
    /\ JS.isNaN (NoteBox._y (heap w1 !!! this)) = false.
Proof.
  set (fix_position :=
    (if JS.isNaN (NoteBox._x (heap w !!! this))
        || JS.isNaN (NoteBox._y (heap w !!! this))
     then
       log LogInvalidSaving;;
       p ← _computeRandomPosition host;
       update this (NoteBox.set_position p);;
       _setNotePosition host this
     else ret tt) : M unit).
  assert (Ht : total fix_position)
    by (unfold fix_position; total_auto; apply total__setNotePosition).
  assert (Hs : stable (note_local same_but_geometry this) fix_position).
  { unfold fix_position. stable_auto. }
  specialize (Ht w). specialize (Hs w).
  destruct (fix_position w) as [[] w1|] eqn:Hfix; [|done].
  exists w1. split; [|split; [exact Hs|]].
  - unfold _saveState, try_catch, bind at 1, deref at 1, gets at 1.
    unfold bind at 1. fold fix_position. rewrite Hfix. reflexivity.
  - unfold fix_position in Hfix.
    destruct (JS.isNaN (NoteBox._x (heap w !!! this))
              || JS.isNaN (NoteBox._y (heap w !!! this))) eqn:Hnan.
    + do 3 (apply bind_Return in Hfix as (? & ? & _ & Hfix)).
      match type of Hfix with _setNotePosition host this ?w0 = _ =>
        destruct (_setNotePosition_gives_numbers host this w0)
          as (w' & Hset & Hxy) end.
      rewrite Hset in Hfix. by injection Hfix as <-.
    + injection Hfix as <-. by apply orb_false_elim in Hnan.
Qed.

(** A component of a colour, clamped as [_applyColor] does. *)
Definition clamp_byte (z : Z) : Z := Z.min (Z.max 0 z) 255.

(** The colour string and the colour of the text that [_applyColor] makes
    of three integers. *)
Definition colour_string (r g b : Z) : string :=
  pretty (clamp_byte r) +:+ "," +:+ pretty (clamp_byte g) +:+ ","
    +:+ pretty (clamp_byte b).

Definition text_colour (r g b : Z) : string :=
  if 250 <? clamp_byte r + clamp_byte g + clamp_byte b
  then "#000000" else "#ffffff".

Lemma coloured_of_Z r g b n :
  coloured (JS.VNum (JS.of_Z r)) (JS.VNum (JS.of_Z g)) (JS.VNum (JS.of_Z b)) n
  = NoteBox.set_fontColor (text_colour r g b)
      (NoteBox.set_customColor (JS.VStr (colour_string r g b)) n).
Proof.
  unfold coloured, text_colour, colour_string, clamp_byte.
  change (JS.Number_isNaN (JS.VNum (JS.of_Z r))) with false.
  change (JS.Number_isNaN (JS.VNum (JS.of_Z g))) with false.
  change (JS.Number_isNaN (JS.VNum (JS.of_Z b))) with false.
  cbv iota.
  change (JS.ToNumber (JS.VNum (JS.of_Z r))) with (JS.of_Z r).
  change (JS.ToNumber (JS.VNum (JS.of_Z g))) with (JS.of_Z g).
  change (JS.ToNumber (JS.VNum (JS.of_Z b))) with (JS.of_Z b).
  by rewrite !Math_max_of_Z, !Math_min_of_Z, !add_of_Z, gt_of_Z,
    !toString_of_Z.
Qed.

Lemma clamp_byte_range z : 0 <= clamp_byte z <= 255.
Proof. unfold clamp_byte. lia. Qed.

Lemma clamp_byte_twice z : clamp_byte (clamp_byte z) = clamp_byte z.
Proof. unfold clamp_byte. lia. Qed.

(** Reading the colour string of three integers gives these integers,
    clamped. *)
Lemma colour_string_read r g b :
  map JS.StringToNumber (JS.split_comma (colour_string r g b))
  = [JS.of_Z (clamp_byte r); JS.of_Z (clamp_byte g); JS.of_Z (clamp_byte b)].
Proof.
  destruct (byte_reads_back _ (clamp_byte_range r)) as [Hcr Hrr].
  destruct (byte_reads_back _ (clamp_byte_range g)) as [Hcg Hrg].
  destruct (byte_reads_back _ (clamp_byte_range b)) as [Hcb Hrb].
  unfold colour_string.
  rewrite !split_comma_app, split_comma_last by done.
  cbn [map]. by rewrite Hrr, Hrg, Hrb.
Qed.

(** A note that holds the colour of three integers is as [_initStyle]
    makes it. *)
Lemma styled_colour_string r g b n :
  NoteBox.customColor n = JS.VStr (colour_string r g b) ->
  NoteBox._fontColor n = text_colour r g b ->
  styled (colour_string r g b) n = n.
Proof.
  intros Hc Hf. unfold styled. rewrite colour_string_read.
  unfold component. cbn [lookup list_lookup]. rewrite coloured_of_Z.
  unfold colour_string, text_colour in *. rewrite !clamp_byte_twice.
  destruct n. simpl in *. by subst.
Qed.

(** X10.  A colour made of integers survives being written and read:
    [applyColorAndSave(r, g, b)], as an entry of the "Color" submenu calls
    it when it is activated, returns
    and leaves the colour string "r,g,b" of the components clamped to
    [0, 255], in the note and in its record, with black text exactly when
    their sum exceeds 250; [_initStyle], which reads that string back,
    then returns and changes neither the note nor the record.  For each
    of the seven entries of the submenu no component is clamped and the
    text is black. *)
Theorem integer_colour_reads_back this r g b w :
  exists w1 w2 d,
    color_activate host this (r, g, b) w = Return tt w1
    /\ NoteBox.customColor (heap w1 !!! this) = JS.VStr (colour_string r g b)
    /\ NoteBox._fontColor (heap w1 !!! this) = text_colour r g b
    /\ state_files w1 !! NoteBox.id (heap w1 !!! this) = Some (Parsed d)
    /\ stateData.color d = JS.VStr (colour_string r g b)
    /\ _initStyle host this w1 = Return tt w2
    /\ heap w2 = heap w1
    /\ state_files w2 = state_files w1
    /\ Forall (fun e =>
                 let '(r, g, b) := e.2 in
                 clamp_byte r = r /\ clamp_byte g = g /\ clamp_byte b = b
                 /\ text_colour r g b = "#000000") colors.
Proof.
  assert (Hmenu : Forall (fun e : string * (Z * Z * Z) =>
                    let '(r, g, b) := e.2 in
                    clamp_byte r = r /\ clamp_byte g = g /\ clamp_byte b = b
                    /\ text_colour r g b = "#000000") colors).
  { unfold colors.
    repeat (apply Forall_cons_2; [split_and!; vm_compute; reflexivity|]).
    apply Forall_nil_2. }
  unfold color_activate, applyColorAndSave, bind at 1.
  rewrite _applyColor_eval, coloured_of_Z.
  match goal with |- context [_saveState host this ?w0] =>
    destruct (_saveState_leaves_numbers this w0)
      as (wa & -> & Hloc & Hx & Hy); set (wc := w0) in * end.
  destruct Hloc as [_ _ _ Halloc [_ _ Hc Hf _ _ _] _ _ _].
  unfold wc in Hc, Hf. rewrite with_note_lookup in Hc, Hf.
  simpl in Hc, Hf.
  assert (Hthis : heap wa !! this = Some (heap wa !!! this)).
  { apply lookup_lookup_total, Halloc. unfold wc, with_note. simpl.
    by rewrite lookup_insert_eq. }
  set (n1 := heap wa !!! this) in *.
  set (w1 := state_written this (state_written this wa)).
  assert (Hn1 : heap w1 !!! this = n1) by reflexivity.
  assert (Hsave : _saveState host this (state_written this wa) = Return tt w1)
    by (by apply _saveState_numeric).
  rewrite Hsave. exists w1. 
  pose proof (_initStyle_numeric host this (colour_string r g b) w1) as Hstyle.
  rewrite Hn1, styled_colour_string in Hstyle by done.
  eexists. exists (stateData.json (_saveState_stateData n1)).
  split; [reflexivity|]. rewrite Hn1.
  split; [exact Hc|]. split; [exact Hf|].
  split; [unfold w1, state_written; simpl; by rewrite lookup_insert_eq|].
  split; [simpl; by rewrite Hc|].
  split; [by apply Hstyle|].
  unfold state_written, with_note.
  cbn [heap state_files set_journal set_state_files set_heap].
  fold n1. rewrite lookup_total_insert_eq.
  split; [by apply insert_id|]. split; [|exact Hmenu].
  apply insert_id. unfold w1, state_written.
  cbn [heap state_files set_journal set_state_files]. fold n1.
  by rewrite lookup_insert_eq.
Qed.

End ColourRoundTrip.

(** ** Deleting, once more *)

Lemma indexOf_Some (l : list ref) x i :
  indexOf l x = Some i ->
  l !! i = Some x /\ forall j, (j < i)%nat -> l !! j <> Some x.
Proof.
  revert i. induction l as [|y l IH]; intros i; [done|]. simpl.
  destruct (Nat.eqb y x) eqn:Hy.
  - apply Nat.eqb_eq in Hy as ->. intros [= <-]. split; [done|]. lia.
  - apply Nat.eqb_neq in Hy.
    destruct (indexOf l x) as [i'|]; [|done]. intros [= <-].
    destruct (IH i' eq_refl) as [Hi Hbefore]. split; [done|].
    intros [|j] Hj; simpl; [congruence|]. apply Hbefore. lia.
Qed.

Lemma indexOf_None (l : list ref) x : indexOf l x = None -> x ∉ l.
Proof.
  induction l as [|y l IH]; simpl; [intros _; apply not_elem_of_nil|].
  destruct (Nat.eqb y x) eqn:Hy; [done|]. apply Nat.eqb_neq in Hy.
  destruct (indexOf l x); [done|]. intros _.
  apply not_elem_of_cons. split; [congruence | by apply IH].
Qed.

Lemma fmap_delete_list {A B} (f : A -> B) (l : list A) i :
  f <$> delete i l = delete i (f <$> l).
Proof.
  revert i. induction l as [|a l IH]; intros [|i]; simpl; try done.
  by rewrite IH.
Qed.

Section DeletingMore.
Variable host : Host.

(** [_deleteNoteObject] evaluated. *)
Lemma _deleteNoteObject_eval this w :
  let n := heap w !!! this in
  exists w',
    _deleteNoteObject this w = Return tt w'
    /\ _allNotes w' = match indexOf (_allNotes w) this with
                      | Some i => delete i (_allNotes w)
                      | None => _allNotes w
                      end
    /\ heap w' = <[this := NoteBox.set_isBeingDestroyed true n]> (heap w)
    /\ state_files w' = delete (NoteBox.id n) (state_files w)
    /\ text_files w' = delete (NoteBox.id n) (text_files w)
    /\ journal w' = journal w.
Proof.
  intros n.
  assert (Hdel : forall {A} (m : gmap nat A) k,
    bool_decide (is_Some (m !! k)) = false -> delete k m = m).
  { intros A m k Hm. apply delete_id. apply bool_decide_eq_false in Hm.
    by apply eq_None_not_Some. }
  unfold _deleteNoteObject, try_catch, bind, gets, modify, deref, destroy,
    update, ret.
  destruct (indexOf (_allNotes w) this) as [i|] eqn:Hi; simpl;
    fold n;
    destruct (bool_decide (is_Some (text_files w !! NoteBox.id n))) eqn:Ht;
    simpl;
    destruct (bool_decide (is_Some (state_files w !! NoteBox.id n))) eqn:Hs;
    simpl; fold n;
    (eexists; split; [reflexivity|]); simpl;
    rewrite ?(Hdel _ _ _ Ht), ?(Hdel _ _ _ Hs); by split_and!.
Qed.

(** X11.  [_deleteNoteObject], the deletion a user reaches from the note,
    never throws.  It takes the first occurrence of the note out of the
    list, if there is one, removes the two files of the note's id whether
    the note was in the list or not, and marks the object as destroyed.
    No other object changes and no id is reassigned: the ids of the notes
    that remain are those they had, in the same order. *)
Theorem _deleteNoteObject_removes_without_renumbering this w :
  let n := heap w !!! this in
  let without (A : Type) (l : list A) :=
    match indexOf (_allNotes w) this with
    | Some i => delete i l
    | None => l
    end in
  exists w',
    _deleteNoteObject this w = Return tt w'
    /\ (forall i, indexOf (_allNotes w) this = Some i ->
          _allNotes w !! i = Some this)
    /\ (indexOf (_allNotes w) this = None -> this ∉ _allNotes w)
    /\ _allNotes w' = without ref (_allNotes w)
    /\ live_ids w' = without nat (live_ids w)
    /\ heap w' = <[this := NoteBox.set_isBeingDestroyed true n]> (heap w)
    /\ state_files w' = delete (NoteBox.id n) (state_files w)
    /\ text_files w' = delete (NoteBox.id n) (text_files w)
    /\ journal w' = journal w.
Proof.
  intros n without.
  destruct (_deleteNoteObject_eval this w)
    as (w' & Hrun & Hnotes & Hheap & Hstate & Htext & Hjournal).
  fold n in Hheap, Hstate, Htext.
  exists w'. split_and!; try done.
  - intros i Hi. by apply indexOf_Some in Hi as [? _].
  - apply indexOf_None.
  - unfold live_ids, without. rewrite Hnotes, Hheap.
    assert (Hids : forall l : list ref,
      map (fun r => NoteBox.id
             ((<[this := NoteBox.set_isBeingDestroyed true n]> (heap w))
                !!! r)) l
      = map (fun r => NoteBox.id (heap w !!! r)) l).
    { intros l. apply map_ext. intros r.
      destruct (decide (r = this)) as [->|Hne].
      - by rewrite lookup_total_insert_eq.
      - by rewrite lookup_total_insert_ne. }
    rewrite Hids. destruct (indexOf (_allNotes w) this); [|done].
    apply fmap_delete_list.
Qed.

(** X12.  [postDelete(id)] with an id that is not an index of the list
    returns and changes nothing but the log: the list, the objects and the
    files, those of [id] among them, are as before.  The log gets the line
    of [postDelete] and the error line of [_deleteNoteFiles], which has
    removed no file. *)
Theorem postDelete_out_of_range id w :
  (length (_allNotes w) <= id)%nat ->
  exists w',
    postDelete host id w = Return tt w'
    /\ _allNotes w' = _allNotes w
    /\ heap w' = heap w
    /\ state_files w' = state_files w
    /\ text_files w' = text_files w
    /\ journal w' =
         journal w ++ [LogDeleting id (length (_allNotes w));
                       LogDeleteFilesError TypeError].
Proof.
  intros Hid.
  unfold postDelete, bind at 1, gets at 1.
  unfold bind at 1, log at 1, modify at 1. unfold bind at 1.
  rewrite _deleteNoteFiles_effect.
  unfold bind at 1, gets at 1. cbn [_allNotes set_journal].
  apply Nat.leb_le in Hid. rewrite Hid.
  eexists. split; [reflexivity|]. simpl.
  by rewrite <- app_assoc.
Qed.


End DeletingMore.

(** ** A record whose colour cannot be read *)

Section UnreadableColour.
Variable host : Host.

(** The colour of [this] is not a string. *)
Definition colour_is_no_string (this : ref) (w : World) : Prop :=
  forall s, NoteBox.customColor (heap w !!! this) <> JS.VStr s.

(** The list, the files and the objects other than [this] are the same. *)
Definition only_this_changed (this : ref) (w w' : World) : Prop :=
  _allNotes w' = _allNotes w
  /\ state_files w' = state_files w
  /\ text_files w' = text_files w
  /\ (forall r, r <> this -> heap w' !! r = heap w !! r).

(** On a note whose colour is not a string, [_setNotePosition] returns and
    [_initStyle] throws then; no file has been written. *)
Lemma _initStyle_throws this w :
  colour_is_no_string this w ->
  exists w1,
    _setNotePosition host this w = Return tt w1
    /\ _initStyle host this w1 = Throw TypeError w1
    /\ only_this_changed this w w1.
Proof.
  intros Hc.
  destruct (_setNotePosition_result host this w)
    as (w0 & Hrun & _ & _ & [p Hp] & Ho & Hn & _ & Hs & Ht).
  destruct (position_set_frame host this w0) as (Hn' & Hs' & Ht' & _).
  exists (position_set host this w0). split; [exact Hrun|]. split.
  - unfold _initStyle, bind at 1, deref, gets.
    rewrite position_set_heap, lookup_total_insert_eq, settled_customColor, Hp.
    replace (NoteBox.customColor (NoteBox.set_position p (heap w !!! this)))
      with (NoteBox.customColor (heap w !!! this))
      by (by destruct (heap w !!! this)).
    destruct (NoteBox.customColor (heap w !!! this)) eqn:Hcol; try done.
    by destruct (Hc _ Hcol).
  - unfold only_this_changed. rewrite Hn', Hs', Ht', position_set_heap.
    split_and!; try done. intros r Hr. by rewrite lookup_insert_ne, Ho.
Qed.

Lemma colour_unreadable d :
  colour_readable (Parsed d) = false ->
  JS.truthy (stateData.color d) = true
  /\ forall s, stateData.color d <> JS.VStr s.
Proof.
  unfold colour_readable. destruct (stateData.color d); try done;
    intros H%negb_false_iff; split; try done.
Qed.

Lemma only_this_changed_trans this w1 w2 w3 :
  only_this_changed this w1 w2 -> only_this_changed this w2 w3 ->
  only_this_changed this w1 w3.
Proof.
  intros (Hn & Hs & Ht & Ho) (Hn' & Hs' & Ht' & Ho').
  unfold only_this_changed. rewrite Hn', Hs', Ht'. split_and!; try done.
  intros r Hr. by rewrite Ho', Ho.
Qed.

Lemma only_this_changed_with_note this n w :
  only_this_changed this w (with_note this n w).
Proof.
  unfold only_this_changed, with_note. simpl. split_and!; try done.
  intros r Hr. by rewrite lookup_insert_ne.
Qed.

(** Drawing a new position when asked to, and going on. *)
Lemma redraw_then {A} this (c : bool) e (k : M A) w :
  exists w2,
    ((if c then
        log e;;
        p ← _computeRandomPosition host;
        update this (NoteBox.set_position p)
      else ret tt);; k) w = k w2
    /\ only_this_changed this w w2
    /\ NoteBox.customColor (heap w2 !!! this)
       = NoteBox.customColor (heap w !!! this).
Proof.
  destruct c.
  - rewrite !bind_assoc, bind_log, bind_assoc.
    match goal with |- context [bind (_computeRandomPosition host) _ ?w0] =>
      destruct (_computeRandomPosition_draws host w0) as (px & py & dr & Hp)
    end.
    unfold bind at 1. rewrite Hp, bind_update.
    eexists. split; [reflexivity|]. rewrite with_note_lookup. split.
    + unfold only_this_changed, with_note. simpl. split_and!; try done.
      intros r Hr. by rewrite lookup_insert_ne.
    + simpl. by destruct (heap w !!! this).
  - exists w. rewrite bind_ret. by split; [|split; [repeat split|]].
Qed.

Lemma _loadState_try_throws this d w :
  colour_readable (Parsed d) = false ->
  exists w',
    _loadState_try host this (Parsed d) w = Throw TypeError w'
    /\ only_this_changed this w w'
    /\ colour_is_no_string this w'.
Proof.
  intros [Htruthy Hcol]%colour_unreadable.
  unfold _loadState_try, JSON_parse. rewrite bind_ret, Htruthy.
  rewrite !bind_update, bind_deref.
  rewrite ?with_note_lookup, ?with_note_with_note.
  match goal with |- context [bind (if ?c then _ else _) ?k ?w1] =>
    destruct (redraw_then this c LogInvalidInFile (k tt) w1)
      as (w2 & -> & Hch2 & Hc2) end.
  rewrite with_note_lookup in Hc2. simpl in Hc2.
  destruct (_initStyle_throws this w2) as (w3 & Hset & Hstyle & Hch3).
  { intros s. rewrite Hc2. apply Hcol. }
  unfold bind at 1. rewrite Hset. unfold bind at 1. rewrite Hstyle.
  exists w3. split; [reflexivity|]. split.
  - eapply only_this_changed_trans; [|exact Hch3].
    eapply only_this_changed_trans; [|exact Hch2].
    apply only_this_changed_with_note.
  - intros s Hs. pose proof (_initStyle_returns host this w3 s Hs) as Hr.
    by rewrite Hstyle in Hr.
Qed.

Lemma _loadState_catch_throws this e w :
  colour_is_no_string this w ->
  exists w',
    _loadState_catch host this e w = Throw TypeError w'
    /\ only_this_changed this w w'.
Proof.
  intros Hc. unfold _loadState_catch. rewrite bind_log.
  match goal with |- context [bind (_computeRandomPosition host) _ ?w0] =>
    destruct (_computeRandomPosition_draws host w0) as (px & py & dr & Hp)
  end.
  unfold bind at 1. rewrite Hp, !bind_update.
  rewrite ?with_note_lookup, ?with_note_with_note.
  match goal with |- context [bind (_setNotePosition host this) _ ?w1] =>
    set (wc := w1) end.
  assert (Hcc : colour_is_no_string this wc).
  { intros s. unfold wc. rewrite with_note_lookup. simpl. apply Hc. }
  destruct (_initStyle_throws this wc Hcc) as (w3 & Hset & Hstyle & Hch3).
  unfold bind at 1. rewrite Hset, Hstyle.
  exists w3. split; [reflexivity|].
  eapply only_this_changed_trans; [|exact Hch3].
  unfold only_this_changed, wc, with_note. simpl. split_and!; try done.
  intros r Hr. by rewrite lookup_insert_ne.
Qed.

(** [_loadState] on a record whose colour is there and is not a string:
    the [try] block and then the [catch] block fail at [_initStyle], and
    the record stays as it is. *)
Lemma _loadState_throws this d w :
  state_files w !! NoteBox.id (heap w !!! this) = Some (Parsed d) ->
  colour_readable (Parsed d) = false ->
  exists w',
    _loadState host this w = Throw TypeError w'
    /\ only_this_changed this w w'.
Proof.
  intros Hfile Hcol. rewrite _loadState_unfold, Hfile. unfold try_catch.
  destruct (_loadState_try_throws this d w Hcol) as (w1 & -> & Hch1 & Hc1).
  destruct (_loadState_catch_throws this TypeError w1 Hc1) as (w2 & -> & Hch2).
  exists w2. split; [reflexivity|]. by eapply only_this_changed_trans.
Qed.

Lemma createNote_throws_TypeError colorString fontSize d w :
  state_files w !! length (_allNotes w) = Some (Parsed d) ->
  colour_readable (Parsed d) = false ->
  exists w',
    createNote host colorString fontSize w = Throw TypeError w'
    /\ _allNotes w' = _allNotes w
    /\ state_files w' = state_files w
    /\ text_files w' = text_files w
    /\ (forall r, is_Some (heap w !! r) -> heap w' !! r = heap w !! r).
Proof.
  intros Hfile Hcol. rewrite createNote_unfold.
  destruct (NoteBox_new_unfold host (length (_allNotes w)) colorString
              fontSize w) as (x & y & dr & Hnew). simpl in Hnew.
  rewrite Hnew. clear Hnew.
  set (this := fresh (dom (heap w))).
  assert (Hfresh : heap w !! this = None).
  { apply not_elem_of_dom. apply is_fresh. }
  match goal with |- context [NoteBox_load host this ?w0] =>
    destruct (_loadState_throws this d w0) as (w1 & Hload & Hch); [|done|] end.
  { by rewrite with_note_lookup. }
  unfold NoteBox_load, bind at 1. rewrite Hload.
  destruct Hch as (Hn & Hs & Ht & Ho).
  eexists. split; [reflexivity|]. simpl in *. split_and!; try done.
  intros r [v Hv]. rewrite Ho by congruence.
  by rewrite lookup_insert_ne by congruence.
Qed.

(** X14.  A state file whose colour is there but is not a string (a
    number, [true], an object) cannot be loaded: [createNote] for that id
    throws [TypeError], [_initStyle] having failed in the [try] block of
    [_loadState] and again in its [catch] block.  No note is added, no
    file is written and the objects that were there are as before, so the
    record is not repaired and the next [createNote] fails the same way. *)
Theorem createNote_fails_on_unreadable_colour colorString fontSize d w :
  state_files w !! length (_allNotes w) = Some (Parsed d) ->
  colour_readable (Parsed d) = false ->
  exists w' w'',
    createNote host colorString fontSize w = Throw TypeError w'
    /\ _allNotes w' = _allNotes w
    /\ state_files w' = state_files w
    /\ text_files w' = text_files w
    /\ (forall r, is_Some (heap w !! r) -> heap w' !! r = heap w !! r)
    /\ createNote host colorString fontSize w' = Throw TypeError w''.
Proof.
  intros Hfile Hcol.
  destruct (createNote_throws_TypeError colorString fontSize d w Hfile Hcol)
    as (w' & Hrun & Hn & Hs & Ht & Ho).
  destruct (createNote_throws_TypeError colorString fontSize d w')
    as (w'' & Hrun' & _); [by rewrite Hn, Hs | done |].
  exists w', w''. by split_and!.
Qed.

End UnreadableColour.

(** ** Loading the notes never leaves the list empty *)

Section NeverEmpty.
Variable host : Host.

Lemma createNote_Return colorString fontSize w note w' :
  createNote host colorString fontSize w = Return note w' ->
  _allNotes w' = _allNotes w ++ [note].
Proof.
  rewrite createNote_unfold.
  pose proof (NoteBox_new_frame host (length (_allNotes w)) colorString
                fontSize w) as (Hn & _). simpl in Hn.
  destruct (NoteBox_new host (length (_allNotes w)) colorString fontSize w);
    [|discriminate 1].
  intros [= <- <-]. simpl in *. by rewrite Hn.
Qed.

Lemma _loadAllNotes_scan_Return fuel :
  forall i found w b w',
    _loadAllNotes_scan host fuel i found w = Return (Some b) w' ->
    b = found /\ w' = w
    \/ b = true /\ (length (_allNotes w) < length (_allNotes w'))%nat.
Proof.
  induction fuel as [|fuel IH]; intros i found w b w'; [discriminate 1|].
  cbn [_loadAllNotes_scan]. unfold bind at 1, gets at 1.
  destruct (bool_decide (is_Some (state_files w !! i))).
  - intros Hrun. apply bind_Return in Hrun as (note & w1 & Hcreate & Hrun).
    apply createNote_Return in Hcreate.
    apply IH in Hrun as [[-> ->]|[-> Hlt]]; right; split; try done;
      rewrite ?Hcreate, ?length_app in *; simpl in *; lia.
  - intros [= <- <-]. by left.
Qed.

(** X15.  When [_loadAllNotes] returns, the list holds at least one note
    more than before, so it is not empty, and [_notesLoaded] is set:
    where the scan finds no state file for the id 0, one default note is
    created. *)
Theorem _loadAllNotes_never_leaves_empty fuel w w' :
  _loadAllNotes host fuel w = Return (Some tt) w' ->
  _notesLoaded w' = true
  /\ (length (_allNotes w) < length (_allNotes w'))%nat.
Proof.
  unfold _loadAllNotes. intros Hrun.
  apply bind_Return in Hrun as ([b|] & w1 & Hscan & Hrun); [|discriminate Hrun].
  apply bind_Return in Hrun as ([] & w2 & Hdefault & Hrun).
  injection Hrun as <-. split; [reflexivity|]. cbn [_allNotes set_notesLoaded].
  apply _loadAllNotes_scan_Return in Hscan as [[-> ->]|[-> Hlt]].
  - cbn [negb] in Hdefault.
    apply bind_Return in Hdefault as ([] & w3 & [= <-] & Hdefault).
    apply bind_Return in Hdefault as (note & w4 & Hcreate & [= <-]).
    apply createNote_Return in Hcreate. rewrite Hcreate, length_app.
    simpl. lia.
  - cbn [negb] in Hdefault. by injection Hdefault as <-.
Qed.

End NeverEmpty.

(** ** The "New" button of a note *)

Section NewFromNote.
Variable host : Host.

(** The colour that [_initStyle] makes of the colour string of three
    integers is that string. *)
Lemma styled_colour_string_colour r g b n :
  NoteBox.customColor (styled (colour_string r g b) n)
  = JS.VStr (colour_string r g b)
  /\ NoteBox._fontColor (styled (colour_string r g b) n) = text_colour r g b.
Proof.
  unfold styled. rewrite colour_string_read.
  unfold component. cbn [lookup list_lookup]. rewrite coloured_of_Z.
  unfold colour_string, text_colour. rewrite !clamp_byte_twice.
  by split.
Qed.

(** The constructor on an id without a state file, for a colour that is a
    string other than the empty one: font size and colour of the note it
    returns. *)
Lemma NoteBox_new_style id s fontSize w note w' :
  s <> "" ->
  state_files w !! id = None ->
  NoteBox_new host id (JS.VStr s) fontSize w = Return note w' ->
  let m := heap w' !!! note in
  NoteBox._fontSize m = JS.or_num fontSize (JS.of_Z 12)
  /\ forall n, NoteBox.customColor m = NoteBox.customColor (styled s n)
               /\ NoteBox._fontColor m = NoteBox._fontColor (styled s n).
Proof.
  intros Hs Hnone.
  destruct (NoteBox_new_unfold host id (JS.VStr s) fontSize w)
    as (x & y & dr & Hnew). simpl in Hnew. rewrite Hnew. clear Hnew.
  set (this := fresh (dom (heap w))).
  set (n0 := NoteBox_fields id (JS.VStr s) fontSize (JS.Fin x, JS.Fin y)).
  set (w0 := with_note this n0 (set_draws dr w)).
  assert (Hn0 : heap w0 !!! this = n0) by apply with_note_lookup.
  assert (Hcol : NoteBox.customColor n0 = JS.VStr s).
  { unfold n0, NoteBox_fields, JS.or. simpl.
    apply String.eqb_neq in Hs. by rewrite Hs. }
  destruct (_createDefaultState_eval host this w0) as (x1 & y1 & d1 & Hc).
  match type of Hc with _ = Return _ ?W => set (wa := W) in * end.
  assert (Hload : _loadState host this w0
                  = Return tt (state_written this
                                 (with_note this (styled s n0) wa))).
  { rewrite _loadState_unfold, Hn0. cbn [NoteBox.id n0 NoteBox_fields].
    change (state_files w0) with (state_files w). rewrite Hnone.
    unfold bind. rewrite Hc.
    rewrite (_initStyle_numeric host this s);
      cbn [heap set_state_files set_draws wa]; rewrite ?Hn0; done. }
  unfold NoteBox_load. intros Hrun.
  apply bind_Return in Hrun as ([] & w3 & Hload' & Hrun).
  rewrite Hload in Hload'. injection Hload' as <-.
  apply bind_Return in Hrun as ([] & w4 & Htext & Hrun).
  apply bind_Return in Hrun as ([] & w6 & Hlayer & Hrun).
  injection Hrun as <- <-. cbv zeta.
  pose proof (_loadText_same_style this
                (state_written this (with_note this (styled s n0) wa)))
    as [_ _ _ _ Hst _ _ _].
  rewrite Htext in Hst. simpl in Hst. destruct Hst as (Hc4 & Hf4 & Hs4).
  pose proof (loadIntoCorrectLayer_local host this w4)
    as [_ _ _ _ [Hs6 _ Hc6 Hf6 _ _ _] _ _ _].
  rewrite Hlayer in Hs6, Hc6, Hf6. simpl in Hs6, Hc6, Hf6.
  rewrite Hs6, Hc6, Hf6, Hs4, Hc4, Hf4, lookup_total_insert_eq.
  split; [reflexivity|]. intros n. split; reflexivity.
Qed.

(** X16.  The "New" button of a note, [_createNote], on a note whose colour
    is a string other than the empty one, when the id that the new note
    gets has no state file: a note is appended to the list, a new object
    whose id is the former length, and it inherits the font size of the
    note (12 standing for 0 or a size that is not a number) and the colour
    that [_initStyle] reads from the colour string of the note; for the
    colour string of three integers that is the very same string. *)
Theorem _createNote_inherits_style this s w :
  let n := heap w !!! this in
  NoteBox.customColor n = JS.VStr s ->
  s <> "" ->
  state_files w !! length (_allNotes w) = None ->
  exists note w',
    _createNote host this w = Return tt w'
    /\ _allNotes w' = _allNotes w ++ [note]
    /\ heap w !! note = None
    /\ let m := heap w' !!! note in
       NoteBox.id m = length (_allNotes w)
       /\ NoteBox._fontSize m = JS.or_num (NoteBox._fontSize n) (JS.of_Z 12)
       /\ NoteBox.customColor m = NoteBox.customColor (styled s n)
       /\ NoteBox._fontColor m = NoteBox._fontColor (styled s n)
       /\ (forall r g b, s = colour_string r g b ->
             NoteBox.customColor m = JS.VStr s
             /\ NoteBox._fontColor m = text_colour r g b).
Proof.
  intros n Hcol Hs Hnone.
  unfold _createNote, bind at 1, deref, gets. fold n. rewrite Hcol.
  unfold bind at 1. rewrite createNote_unfold.
  pose proof (NoteBox_new_returns host (length (_allNotes w)) s
                (NoteBox._fontSize n) w) as Hret.
  pose proof (NoteBox_new_frame host (length (_allNotes w)) (JS.VStr s)
                (NoteBox._fontSize n) w) as (Hn & _ & _ & _ & _ & Hframe).
  simpl in Hn, Hframe.
  pose proof (NoteBox_new_style (length (_allNotes w)) s
                (NoteBox._fontSize n) w) as Hstyle.
  destruct (NoteBox_new host (length (_allNotes w)) (JS.VStr s)
              (NoteBox._fontSize n) w) as [note w1|e w1].
  - destruct (Hframe note w1 eq_refl) as (Hfresh & _ & Hid).
    destruct (Hstyle note w1 Hs Hnone eq_refl) as [Hfs Hc].
    destruct (Hc n) as [Hcc Hfc].
    exists note. eexists. split; [reflexivity|].
    simpl in Hn. cbn [_allNotes heap set_allNotes]. rewrite Hn.
    split_and!; try done.
    intros r g b ->. rewrite Hcc, Hfc. apply styled_colour_string_colour.
  - exfalso. assert (Hr : false = true); [|done].
    apply Hret. intros f Hf. by rewrite Hnone in Hf.
Qed.

End NewFromNote.

(** ** Dragging a note *)

Section Dragging.
Variable host : Host.

(** Where [_moveTo] aims: the position of the note, moved as the pointer
    has moved since it was last seen, and floored. *)
Definition drag_target (n : NoteBox.t) (event_x event_y : JS.num)
    (p : Pointer) : JS.num * JS.num :=
  (JS.Math_floor (JS.sub event_x (JS.sub (grabX p) (NoteBox._x n))),
   JS.Math_floor (JS.sub event_y (JS.sub (grabY p) (NoteBox._y n)))).

Lemma _moveTo_effect this event_x event_y p w :
  let n := heap w !!! this in
  let t := drag_target n event_x event_y p in
  exists w',
    _moveTo host this event_x event_y p w
    = Return (mkPointer event_x event_y (_isMoving p) (_isResizing p)
                (_entryBox_visible p)) w'
    /\ only_this_changed this w w'
    /\ on_screen host (heap w' !!! this) = true
    /\ same_but_geometry n (heap w' !!! this)
    /\ NoteBox.id (heap w' !!! this) = NoteBox.id n
    /\ (JS.isNaN (fst t) = false -> JS.isNaN (snd t) = false ->
        heap w' !!! this = settled host (NoteBox.set_position t n)).
Proof.
  intros n t. unfold _moveTo. rewrite bind_deref, !bind_update.
  rewrite ?with_note_lookup, ?with_note_with_note. fold n.
  change (JS.Math_floor (JS.sub event_y (JS.sub (grabY p) (NoteBox._y n))))
    with (snd t).
  change (JS.Math_floor (JS.sub event_x (JS.sub (grabX p) (NoteBox._x n))))
    with (fst t).
  set (n2 := NoteBox.set_x (fst t) (NoteBox.set_y (snd t) n)).
  assert (Hn2 : n2 = NoteBox.set_position t n) by (by destruct n).
  set (w2 := with_note this n2 w).
  unfold bind at 1.
  destruct (_setNotePosition_result host this w2)
    as (w0 & Hrun & Hx & Hy & [q Hq] & Ho & Hn & _ & Hs & Ht).
  rewrite Hrun. eexists. split; [reflexivity|].
  destruct (position_set_frame host this w0) as (Hn' & Hs' & Ht' & _).
  unfold w2 in Hq, Ho. rewrite with_note_lookup in Hq.
  rewrite position_set_heap, lookup_total_insert_eq.
  split_and!.
  - unfold only_this_changed. rewrite Hn', Hs', Ht', position_set_heap.
    split_and!; try done. intros r Hr.
    rewrite lookup_insert_ne, Ho by done. unfold with_note. simpl.
    by rewrite lookup_insert_ne.
  - by apply settled_on_screen.
  - rewrite Hq. unfold n2. by destruct n.
  - rewrite Hq. unfold n2. by destruct n.
  - intros Htx Hty.
    assert (Hw0 : position_set host this w0 = position_set host this w2).
    { rewrite _setNotePosition_numeric in Hrun;
        [by injection Hrun as <- | |];
        unfold w2; rewrite with_note_lookup; unfold n2; by destruct n. }
    rewrite <- Hn2.
    assert (Hh : heap (position_set host this w0) !!! this
                 = heap (position_set host this w2) !!! this)
      by (by rewrite Hw0).
    rewrite !position_set_heap, !lookup_total_insert_eq in Hh.
    rewrite Hh. unfold w2. by rewrite with_note_lookup.
Qed.

(** X17.  A motion of the pointer, [_onMoveMotion].  While no move is
    going on it does nothing.  During a move it takes the note to where
    the pointer has dragged it, floored, and [_setNotePosition] then keeps
    the note on screen; the point where the pointer was last seen becomes
    the floored point of the event.  Only the position and the size of the
    note change, and nothing is written: neither file of any note. *)
Theorem _onMoveMotion_drags_on_screen this coords p w :
  let n := heap w !!! this in
  let ex := JS.Math_floor (fst coords) in
  let ey := JS.Math_floor (snd coords) in
  let t := drag_target n ex ey p in
  exists p' w',
    _onMoveMotion host this coords p w = Return p' w'
    /\ only_this_changed this w w'
    /\ if _isMoving p then
         p' = mkPointer ex ey true (_isResizing p) (_entryBox_visible p)
         /\ on_screen host (heap w' !!! this) = true
         /\ same_but_geometry n (heap w' !!! this)
         /\ NoteBox.id (heap w' !!! this) = NoteBox.id n
         /\ (JS.isNaN (fst t) = false -> JS.isNaN (snd t) = false ->
             heap w' !!! this = settled host (NoteBox.set_position t n))
       else p' = p /\ w' = w.
Proof.
  intros n ex ey t. unfold _onMoveMotion.
  destruct (_isMoving p) eqn:Hmoving; cbn [negb].
  - destruct (_moveTo_effect this ex ey p w)
      as (w' & Hrun & Hch & Hon & Hsame & Hid & Hpos).
    rewrite Hmoving in Hrun. do 2 eexists. split; [exact Hrun|].
    by split_and!.
  - exists p, w. split; [reflexivity|]. split; [|done].
    by unfold only_this_changed.
Qed.

Lemma on_screen_numeric n :
  on_screen host n = true ->
  JS.isNaN (NoteBox._x n) = false /\ JS.isNaN (NoteBox._y n) = false.
Proof.
  unfold on_screen. rewrite !andb_true_iff.
  intros [[[[[_ _] Hx] _] Hy] _].
  split; [by destruct (NoteBox._x n) | by destruct (NoteBox._y n)].
Qed.

(** X18.  Pressing on the bar of a note, [_onMovePress]: a move begins and
    the floored point of the event is recorded.  With the right button
    (3) the box of the entry is toggled and the note's [entry_is_visible]
    becomes the new visibility of the box, whatever the flag was;
    with another button it stays.  The press saves the note: its state
    record holds that visibility and its text file holds its text. *)
Theorem _onMovePress_toggles_entry this button coords p w :
  let n := heap w !!! this in
  let box := if button =? 3 then negb (_entryBox_visible p)
             else _entryBox_visible p in
  let visible := if button =? 3 then negb (_entryBox_visible p)
                 else NoteBox.entry_is_visible n in
  exists w' d,
    _onMovePress host this button coords p w
    = Return (mkPointer (JS.Math_floor (fst coords))
                (JS.Math_floor (snd coords)) true false box) w'
    /\ NoteBox.entry_is_visible (heap w' !!! this) = visible
    /\ state_files w' !! NoteBox.id n = Some (Parsed d)
    /\ stateData.entryVisible d = JS.VBool visible
    /\ text_files w' !! NoteBox.id n = Some (NoteBox.noteEntry_text n).
Proof.
  intros n box visible. unfold _onMovePress, _onPressCommon, _redraw.
  assert (Hsave : forall wu pu,
    NoteBox.entry_is_visible (heap wu !!! this) = visible ->
    NoteBox.id (heap wu !!! this) = NoteBox.id n ->
    NoteBox.noteEntry_text (heap wu !!! this) = NoteBox.noteEntry_text n ->
    _entryBox_visible pu = box ->
    exists w' d,
      (p0 ← (onlySave host this true;;
            ret (mkPointer (JS.Math_floor (fst coords))
                   (JS.Math_floor (snd coords)) (_isMoving pu)
                   (_isResizing pu) (_entryBox_visible pu)));
       ret (mkPointer (grabX p0) (grabY p0) true false
              (_entryBox_visible p0))) wu
      = Return (mkPointer (JS.Math_floor (fst coords))
                  (JS.Math_floor (snd coords)) true false box) w'
      /\ NoteBox.entry_is_visible (heap w' !!! this) = visible
      /\ state_files w' !! NoteBox.id n = Some (Parsed d)
      /\ stateData.entryVisible d = JS.VBool visible
      /\ text_files w' !! NoteBox.id n = Some (NoteBox.noteEntry_text n)).
  { intros wu pu Hv Hid Htx Hbox.
    destruct (onlySave_effect host this wu) as (w1 & Hloc & Hrun).
    destruct Hloc as [_ _ _ _ [_ _ _ _ Hv1 Ht1 _] Hid1 _ _].
    unfold bind. rewrite Hrun. cbn [ret grabX grabY _entryBox_visible].
    rewrite Hbox. do 2 eexists. split; [reflexivity|].
    unfold text_written, state_written.
    cbn [heap state_files text_files set_journal set_state_files
         set_text_files].
    rewrite Hid1, Hid, Hv1, Hv, Ht1, Htx, !lookup_insert_eq.
    split_and!; try done. simpl. by rewrite Hv1, Hv. }
  unfold box, visible in *.
  destruct (button =? 3).
  - rewrite bind_assoc, bind_update, bind_ret.
    apply Hsave; by rewrite ?with_note_lookup.
  - rewrite bind_ret. by apply Hsave.
Qed.

(** X19.  A drag that ends is saved: after a motion during a move,
    [_onRelease] returns, ends the move, leaves the note as the motion has
    left it, on screen, and writes its state record (the position
    floored) and its text file. *)
Theorem drag_then_release_is_saved this coords p w :
  _isMoving p = true ->
  exists p1 p2 w1 w2,
    _onMoveMotion host this coords p w = Return p1 w1
    /\ _onRelease host this p1 w1 = Return p2 w2
    /\ _isMoving p2 = false /\ _isResizing p2 = false
    /\ heap w2 = heap w1
    /\ on_screen host (heap w2 !!! this) = true
    /\ state_files w2 !! NoteBox.id (heap w !!! this)
       = Some (Parsed (stateData.json
                         (_saveState_stateData (heap w2 !!! this))))
    /\ text_files w2 !! NoteBox.id (heap w !!! this)
       = Some (NoteBox.noteEntry_text (heap w !!! this)).
Proof.
  intros Hmoving. unfold _onMoveMotion. rewrite Hmoving. cbn [negb].
  destruct (_moveTo_effect this (JS.Math_floor (fst coords))
              (JS.Math_floor (snd coords)) p w)
    as (w1 & Hrun & _ & Hon & [_ _ _ _ _ Htx _] & Hid & _).
  destruct (on_screen_numeric _ Hon) as [Hx Hy].
  do 2 eexists. exists w1. eexists. split; [exact Hrun|].
  unfold _onRelease, bind. rewrite _saveState_numeric by done.
  rewrite _saveText_eval. split; [reflexivity|].
  unfold text_written, state_written.
  cbn [heap state_files text_files set_journal set_state_files
       set_text_files _isMoving _isResizing].
  rewrite Hid, Htx, !lookup_insert_eq. by split_and!.
Qed.

End Dragging.

(** ** These theorems at work *)

Lemma createNote_note_is_well_formed_witness :
  on_screen full_hd (heap (perform full_hd Create empty_world) !!! 0%nat)
  = true.
Proof.
  set (o := createNote full_hd (JS.VStr "") (JS.of_Z 16) empty_world).
  assert (Ho : o = Return 0%nat (world_of o)) by (vm_compute; reflexivity).
  destruct (createNote_note_is_well_formed full_hd _ _ _ _ _ Ho)
    as (_ & Hon & _).
  exact Hon.
Defined.

Lemma _computeRandomPosition_first_usable_witness :
  exists k x y,
    (k < 15)%nat
    /\ _computeRandomPosition full_hd three_notes
       = Return (JS.Fin x, JS.Fin y)
           (set_draws (draws three_notes + 2 * S k) three_notes).
Proof.
  assert (Hwide : 300 < monitor_width full_hd) by (vm_compute; reflexivity).
  assert (Hhigh : 100 < monitor_height full_hd) by (vm_compute; reflexivity).
  destruct (_computeRandomPosition_first_usable full_hd full_hd_random_unit
              Hwide Hhigh three_notes) as (k & x & y & Hk & Hrun & _).
  exists k, x, y. split; [exact Hk | exact Hrun].
Defined.

Lemma _saveText_then__loadText_witness :
  exists w',
    (_saveText 0%nat;; _loadText 0%nat) (with_note 0%nat small_note empty_world)
    = Return tt w'
    /\ NoteBox.noteEntry_text (heap w' !!! 0%nat) = "milk".
Proof.
  destruct (_saveText_then__loadText 0%nat 0%nat
              (with_note 0%nat small_note empty_world) eq_refl)
    as (w' & Hrun & Htext & _).
  exists w'. split; [exact Hrun | exact Htext].
Defined.

Lemma changeFontSize_keeps_above_one_witness :
  exists w',
    run_all (map (changeFontSize full_hd 0%nat)
               [JS.of_Z (-2); JS.of_Z (-2); JS.of_Z 2])
      (with_note 0%nat small_note empty_world) = Return tt w'
    /\ JS.gt (NoteBox._fontSize (heap w' !!! 0%nat)) (JS.of_Z 1) = true.
Proof.
  apply (changeFontSize_keeps_above_one full_hd 0%nat
           [JS.of_Z (-2); JS.of_Z (-2); JS.of_Z 2]
           (with_note 0%nat small_note empty_world)).
  reflexivity.
Defined.

Lemma size_menu_keeps_even_witness :
  exists w' k',
    run_all (map (fun e => size_activate full_hd 0%nat e.2)
               [("Decrease", -2); ("Decrease", -2); ("Increase", 2)])
      (with_note 0%nat small_note empty_world) = Return tt w'
    /\ 1 <= k'
    /\ NoteBox._fontSize (heap w' !!! 0%nat) = JS.of_Z (2 * k').
Proof.
  apply (size_menu_keeps_even full_hd 0%nat
           [("Decrease", -2); ("Decrease", -2); ("Increase", 2)]
           (with_note 0%nat small_note empty_world) 1).
  - repeat constructor.
  - lia.
  - reflexivity.
Defined.

Lemma postDelete_out_of_range_witness :
  exists w',
    postDelete full_hd 7 three_notes = Return tt w'
    /\ _allNotes w' = _allNotes three_notes
    /\ state_files w' = state_files three_notes
    /\ text_files w' = text_files three_notes.
Proof.
  assert (H : (length (_allNotes three_notes) <= 7)%nat)
    by (vm_compute; lia).
  destruct (postDelete_out_of_range full_hd 7 three_notes H)
    as (w' & Hrun & Hnotes & _ & Hstate & Htext & _).
  exists w'. split_and!; [exact Hrun | exact Hnotes | exact Hstate | exact Htext].
Defined.

Lemma postDelete_keeps_ids_dense_witness :
  exists w',
    postDelete full_hd 0 three_notes = Return tt w'
    /\ live_ids w' = seq 0 (length (_allNotes w')).
Proof.
  assert (H : (0 < length (_allNotes three_notes))%nat)
    by (vm_compute; lia).
  assert (Hnodup : NoDup (_allNotes three_notes)).
  { apply (bool_decide_unpack _). vm_compute. exact I. }
  assert (Hids : live_ids three_notes
                 = seq 0 (length (_allNotes three_notes)))
    by (vm_compute; reflexivity).
  destruct (postDelete_keeps_ids_dense full_hd 0 three_notes H Hnodup Hids)
    as (w' & Hrun & _ & _ & Hdense).
  exists w'. split; [exact Hrun | exact Hdense].
Defined.

Lemma createNote_fails_on_unreadable_colour_witness :
  exists w',
    createNote full_hd (JS.VStr "") (JS.of_Z 16) colour_five_directory
    = Throw TypeError w'
    /\ state_files w' = state_files colour_five_directory.
Proof.
  assert (Hfile : state_files colour_five_directory
                    !! length (_allNotes colour_five_directory)
                  = Some (Parsed colour_five)) by (vm_compute; reflexivity).
  destruct (createNote_fails_on_unreadable_colour full_hd (JS.VStr "")
              (JS.of_Z 16) colour_five colour_five_directory Hfile eq_refl)
    as (w' & w'' & Hrun & _ & Hfiles & _).
  exists w'. split; [exact Hrun | exact Hfiles].
Defined.

Lemma _loadAllNotes_never_leaves_empty_witness :
  (0 < length (_allNotes (world_of (_loadAllNotes full_hd 3 empty_world))))%nat.
Proof.
  set (o := _loadAllNotes full_hd 3 empty_world).
  assert (Ho : o = Return (Some tt) (world_of o)) by (vm_compute; reflexivity).
  destruct (_loadAllNotes_never_leaves_empty full_hd 3 empty_world _ Ho)
    as [_ Hlen].
  simpl in Hlen. exact Hlen.
Defined.

(** A note with the colour of the "Red" entry, alone in the list. *)
Definition red_note : World :=
  world_of (color_activate full_hd 0%nat (240, 80, 80)
              (perform full_hd Create empty_world)).

Lemma _createNote_inherits_style_witness :
  exists note w',
    _createNote full_hd 0%nat red_note = Return tt w'
    /\ NoteBox.customColor (heap w' !!! note) = JS.VStr "240,80,80".
Proof.
  assert (Hcol : NoteBox.customColor (heap red_note !!! 0%nat)
                 = JS.VStr (colour_string 240 80 80))
    by (vm_compute; reflexivity).
  assert (Hs : colour_string 240 80 80 <> "") by (vm_compute; discriminate).
  assert (Hnone : state_files red_note !! length (_allNotes red_note) = None)
    by (vm_compute; reflexivity).
  destruct (_createNote_inherits_style full_hd 0%nat _ red_note Hcol Hs Hnone)
    as (note & w' & Hrun & _ & _ & _ & _ & _ & _ & Hint).
  exists note, w'. split; [exact Hrun|].
  exact (proj1 (Hint 240 80 80 eq_refl)).
Defined.

Lemma drag_then_release_is_saved_witness :
  exists p1 p2 w1 w2,
    _onMoveMotion full_hd 0%nat (JS.of_Z 400, JS.of_Z 300)
      (mkPointer (JS.of_Z 20) (JS.of_Z 30) true false true)
      (with_note 0%nat small_note empty_world) = Return p1 w1
    /\ _onRelease full_hd 0%nat p1 w1 = Return p2 w2
    /\ _isMoving p2 = false.
Proof.
  destruct (drag_then_release_is_saved full_hd 0%nat
              (JS.of_Z 400, JS.of_Z 300)
              (mkPointer (JS.of_Z 20) (JS.of_Z 30) true false true)
              (with_note 0%nat small_note empty_world) eq_refl)
    as (p1 & p2 & w1 & w2 & Hmove & Hrelease & Hmoving & _).
  exists p1, p2, w1, w2. by split_and!.
Defined.

(** ** Saving a note and starting again *)

Section Restart.
Variable host : Host.

(** A note as a session leaves it on disk and finds it again: it is as
    [_setNotePosition] leaves a note, its position is made of integers,
    its font size is a number other than 0, its colour is the colour
    string of three integers with the colour of the text that goes with
    it, its boldness is a boolean, and it is not being destroyed. *)
Record restorable (n : NoteBox.t) : Prop := mk_restorable {
  rs_settled : settled host n = n;
  rs_numeric : JS.isNaN (NoteBox._x n) = false /\ JS.isNaN (NoteBox._y n) = false;
  rs_x : JS.Math_floor (NoteBox._x n) = NoteBox._x n;
  rs_y : JS.Math_floor (NoteBox._y n) = NoteBox._y n;
  rs_fontSize : JS.truthy_num (NoteBox._fontSize n) = true;
  rs_colour : exists r g b,
    NoteBox.customColor n = JS.VStr (colour_string r g b)
    /\ NoteBox._fontColor n = text_colour r g b;
  rs_bold : exists b, NoteBox._isBold n = JS.VBool b;
  rs_alive : NoteBox._isBeingDestroyed n = false
}.

Lemma colour_string_not_empty r g b : colour_string r g b <> "".
Proof.
  unfold colour_string. intros H.
  assert (Hs : JS.split_comma (pretty (clamp_byte r) +:+ "," +:+
                 pretty (clamp_byte g) +:+ "," +:+ pretty (clamp_byte b))
               = JS.split_comma "") by (by rewrite H).
  destruct (byte_reads_back _ (clamp_byte_range r)) as [Hcr _].
  destruct (byte_reads_back _ (clamp_byte_range g)) as [Hcg _].
  destruct (byte_reads_back _ (clamp_byte_range b)) as [Hcb _].
  rewrite !split_comma_app, split_comma_last in Hs by done.
  change (JS.split_comma "") with [""] in Hs. discriminate Hs.
Qed.

Lemma styled_colour_string_eq r g b m :
  styled (colour_string r g b) m
  = NoteBox.set_fontColor (text_colour r g b)
      (NoteBox.set_customColor (JS.VStr (colour_string r g b)) m).
Proof.
  unfold styled. rewrite colour_string_read.
  unfold component. cbn [lookup list_lookup]. rewrite coloured_of_Z.
  unfold colour_string, text_colour. by rewrite !clamp_byte_twice.
Qed.

(** What [_loadState] makes of a new object from the record of a
    restorable note: that note, its text apart. *)
Lemma restored_fields n id c fs p :
  restorable n ->
  NoteBox.id n = id ->
  exists r g b,
    NoteBox.customColor n = JS.VStr (colour_string r g b)
    /\ styled (colour_string r g b)
         (settled host
            (assigned (stateData.json (_saveState_stateData n))
               (NoteBox_fields id c fs p)))
       = NoteBox.set_text "" n.
Proof.
  intros [Hset [Hnx Hny] Hx Hy Hfs (r & g & b & Hc & Hf) [bo Hb] Ha] Hid.
  exists r, g, b. split; [exact Hc|].
  pose proof (colour_string_not_empty r g b) as Hne.
  destruct n as [i f bd cc fc ev wd ht x y tx de].
  cbn [NoteBox._x NoteBox._y NoteBox._fontSize NoteBox.customColor
       NoteBox._fontColor NoteBox._isBold NoteBox._isBeingDestroyed
       NoteBox.id] in *.
  subst i cc fc bd de.
  unfold settled in Hset.
  cbn [NoteBox._x NoteBox._y NoteBox._width NoteBox._height NoteBox.set_x
       NoteBox.set_y NoteBox.set_width NoteBox.set_height] in Hset.
  injection Hset as Hw Hh Hsx Hsy. rewrite Hw in Hsx. rewrite Hh in Hsy.
  unfold assigned, _saveState_stateData, stateData.json, NoteBox_fields.
  cbn [stateData.x stateData.y stateData.color stateData.width
       stateData.height stateData.fontSize stateData.entryVisible
       stateData.isBold NoteBox._x NoteBox._y NoteBox._width NoteBox._height
       NoteBox._fontSize NoteBox.customColor NoteBox._fontColor
       NoteBox._isBold NoteBox.entry_is_visible NoteBox.id].
  assert (Htr : JS.truthy (JS.json (JS.VStr (colour_string r g b))) = true).
  { simpl. apply negb_true_iff. by apply String.eqb_neq. }
  rewrite Htr, !or_num_json, !ToNumber_json_floor by done.
  rewrite Hw, Hh, Hx, Hy.
  replace (JS.or_num f (JS.of_Z 12)) with f
    by (unfold JS.or_num; by rewrite Hfs).
  unfold settled.
  cbn [NoteBox._x NoteBox._y NoteBox._width NoteBox._height NoteBox.set_x
       NoteBox.set_y NoteBox.set_width NoteBox.set_height NoteBox.set_fontSize
       NoteBox.set_isBold NoteBox.set_entry_is_visible
       NoteBox.set_customColor].
  rewrite Hw, Hh, Hsx, Hsy.
  rewrite styled_colour_string_eq.
  by destruct ev, bo.
Qed.

Lemma assigned_saved n n0 :
  restorable n ->
  exists r g b,
    NoteBox.customColor n = JS.VStr (colour_string r g b)
    /\ NoteBox.customColor
         (assigned (stateData.json (_saveState_stateData n)) n0)
       = JS.VStr (colour_string r g b)
    /\ JS.isNaN (NoteBox._x
                   (assigned (stateData.json (_saveState_stateData n)) n0))
       = false
    /\ JS.isNaN (NoteBox._y
                   (assigned (stateData.json (_saveState_stateData n)) n0))
       = false.
Proof.
  intros [_ [Hnx Hny] _ _ _ (r & g & b & Hc & _) _ _].
  exists r, g, b. split; [exact Hc|].
  pose proof (colour_string_not_empty r g b) as Hne.
  unfold assigned, _saveState_stateData, stateData.json.
  cbn [stateData.x stateData.y stateData.color stateData.width
       stateData.height stateData.fontSize stateData.entryVisible
       stateData.isBold].
  rewrite Hc.
  assert (Htr : JS.truthy (JS.json (JS.VStr (colour_string r g b))) = true).
  { simpl. apply negb_true_iff. by apply String.eqb_neq. }
  rewrite Htr.
  cbn [NoteBox._x NoteBox._y NoteBox.customColor NoteBox.set_x NoteBox.set_y
       NoteBox.set_width NoteBox.set_height NoteBox.set_fontSize
       NoteBox.set_isBold NoteBox.set_entry_is_visible
       NoteBox.set_customColor].
  rewrite !ToNumber_json_floor by done.
  split; [reflexivity|].
  split; [by destruct (NoteBox._x n) | by destruct (NoteBox._y n)].
Qed.

Lemma with_note_same this n w :
  heap w !! this = Some n -> with_note this n w = w.
Proof.
  intros H. unfold with_note. rewrite insert_id by done. by destruct w.
Qed.

(** On a note that is as [_setNotePosition] leaves a note,
    [loadIntoCorrectLayer] changes nothing. *)
Lemma loadIntoCorrectLayer_settled this n w :
  heap w !! this = Some n ->
  settled host n = n ->
  JS.isNaN (NoteBox._x n) = false -> JS.isNaN (NoteBox._y n) = false ->
  loadIntoCorrectLayer host this w = Return tt w.
Proof.
  intros Hthis Hset Hx Hy.
  assert (Hn : heap w !!! this = n) by (by apply lookup_total_correct).
  assert (Hpos : position_set host this w = w).
  { unfold position_set. rewrite Hn, Hset, !strict_ne_same by done.
    cbn [orb]. by apply with_note_same. }
  assert (Hsize :
    NoteBox.set_height
      (JS.Math_max
         (JS.or_num
            (NoteBox._height
               (NoteBox.set_width
                  (JS.Math_max (JS.or_num (NoteBox._width n) (JS.of_Z 250))
                     MIN_WIDTH) n))
            (JS.of_Z 180)) MIN_HEIGHT)
      (NoteBox.set_width
         (JS.Math_max (JS.or_num (NoteBox._width n) (JS.of_Z 250)) MIN_WIDTH)
         n) = n).
  { unfold settled in Hset. destruct n.
    cbn [NoteBox._x NoteBox._y NoteBox._width NoteBox._height NoteBox.set_x
         NoteBox.set_y NoteBox.set_width NoteBox.set_height] in *.
    injection Hset as Hw Hh _ _. by rewrite Hw, Hh. }
  unfold loadIntoCorrectLayer.
  rewrite !bind_update, ?with_note_lookup, ?with_note_with_note, Hn, Hsize.
  rewrite (with_note_same this n w Hthis), bind_deref, Hn, Hx, Hy.
  cbn [orb]. rewrite bind_ret.
  unfold bind. rewrite _setNotePosition_numeric, Hpos by (by rewrite Hn).
  by rewrite _setNotePosition_numeric, Hpos by (by rewrite Hn).
Qed.

(** X21.  Saving a note and starting again restores it.  Take a note as a
    session leaves one (as [_setNotePosition] leaves a note, at an integer
    position, with a font size other than 0, the colour string of three
    integers, a boolean boldness), whose state record as [_saveState]
    writes it and whose text file as [_saveText] writes it are on disk
    under the id that comes next in the list.  Then [createNote], whatever
    colour and font size it is given, returns a new object that is equal
    to that note in every field, appends it to the list, and leaves the
    two files as they are. *)
Theorem restart_restores_note n colorString fontSize w :
  restorable n ->
  NoteBox.id n = length (_allNotes w) ->
  state_files w !! NoteBox.id n
    = Some (Parsed (stateData.json (_saveState_stateData n))) ->
  text_files w !! NoteBox.id n = Some (NoteBox.noteEntry_text n) ->
  exists note w',
    createNote host colorString fontSize w = Return note w'
    /\ heap w !! note = None
    /\ heap w' !!! note = n
    /\ _allNotes w' = _allNotes w ++ [note]
    /\ state_files w' = state_files w
    /\ text_files w' = text_files w.
Proof.
  intros Hn Hid Hstate Htext. rewrite createNote_unfold.
  destruct (NoteBox_new_unfold host (length (_allNotes w)) colorString
              fontSize w) as (x & y & dr & Hnew). simpl in Hnew.
  rewrite Hnew. clear Hnew.
  set (this := fresh (dom (heap w))).
  assert (Hfresh : heap w !! this = None).
  { apply not_elem_of_dom. apply is_fresh. }
  set (n0 := NoteBox_fields (length (_allNotes w)) colorString fontSize
               (JS.Fin x, JS.Fin y)).
  set (w0 := with_note this n0 (set_draws dr w)).
  assert (Hn0 : heap w0 !!! this = n0) by apply with_note_lookup.
  set (d := stateData.json (_saveState_stateData n)) in *.
  destruct (assigned_saved n n0 Hn) as (r & g & b & Hc & Hca & Hxa & Hya).
  destruct (restored_fields n _ colorString fontSize (JS.Fin x, JS.Fin y)
              Hn Hid) as (r' & g' & b' & Hc' & Hfields).
  rewrite Hc in Hc'. injection Hc' as Hcs. rewrite <- Hcs in Hfields.
  fold n0 d in Hfields.
  assert (Hfile0 : state_files w0 !! NoteBox.id (heap w0 !!! this)
                   = Some (Parsed d)).
  { rewrite Hn0. cbn [NoteBox.id n0 NoteBox_fields]. by rewrite <- Hid. }
  fold d in Hca, Hxa, Hya. rewrite <- Hn0 in Hca, Hxa, Hya.
  destruct (_loadState_numeric host this d (colour_string r g b) w0
              Hfile0 Hca Hxa Hya)
    as (w1 & Hload & Hh1 & Hs1 & Ht1 & Hl1 & _).
  rewrite Hn0, Hfields in Hh1, Hs1.
  cbn [NoteBox.id n0 NoteBox_fields] in Hs1.
  assert (Hs1' : state_files w1 = state_files w).
  { rewrite Hs1. apply insert_id. rewrite <- Hid. unfold d in *.
    rewrite Hstate. by destruct n. }
  assert (Hfile1 : text_files w1 !! NoteBox.id (heap w1 !!! this)
                   = Some (NoteBox.noteEntry_text n)).
  { rewrite Hh1, lookup_total_insert_eq, Ht1. by destruct n. }
  set (w2 := set_heap (<[this := n]> (heap w1)) w1).
  assert (Hloadtext : _loadText this w1 = Return tt w2).
  { unfold _loadText, bind at 1, read_text_file at 1, gets. rewrite Hfile1.
    rewrite bool_decide_eq_false_2 by done.
    unfold bind, ret, try_catch, read_text_file, gets. rewrite Hfile1.
    unfold update, modify, w2. do 3 f_equal.
    rewrite Hh1, lookup_total_insert_eq. by destruct n. }
  assert (Hlayer : loadIntoCorrectLayer host this w2 = Return tt w2).
  { destruct Hn as [Hset [Hx Hy] _ _ _ _ _ _].
    apply (loadIntoCorrectLayer_settled this n); try done.
    unfold w2. simpl. by rewrite lookup_insert_eq. }
  unfold NoteBox_load, bind. rewrite Hload, Hloadtext, Hlayer.
  exists this. eexists. split; [reflexivity|].
  unfold ret, w2. cbn [heap _allNotes state_files text_files set_allNotes
                       set_heap].
  rewrite lookup_total_insert_eq, Hl1, Hs1', Ht1. by split_and!.
Qed.

End Restart.

(** ** Creating a note and deleting it *)

Lemma indexOf_app_fresh (l : list ref) x :
  x ∉ l -> indexOf (l ++ [x]) x = Some (length l).
Proof.
  induction l as [|y l IH]; simpl.
  - intros _. by rewrite Nat.eqb_refl.
  - intros [Hne Hl]%not_elem_of_cons.
    destruct (Nat.eqb y x) eqn:Hy; [apply Nat.eqb_eq in Hy; congruence|].
    by rewrite IH.
Qed.

Lemma delete_app_last {A} (l : list A) x : delete (length l) (l ++ [x]) = l.
Proof. induction l as [|y l IH]; simpl; [done | by rewrite IH]. Qed.

Section CreateDelete.
Variable host : Host.

(** X22.  Creating a note and deleting it at once: on a list whose notes
    are all objects, [_deleteNoteObject] on the note that [createNote] has
    just returned gives the list back as it was.  The two files of the id
    the note had are gone, the files of the other ids and the objects that
    were there are as before the creation, and the new object is marked
    as destroyed. *)
Theorem createNote_then__deleteNoteObject colorString fontSize w note w1 :
  allocated w ->
  createNote host colorString fontSize w = Return note w1 ->
  let N := length (_allNotes w) in
  exists w2,
    _deleteNoteObject note w1 = Return tt w2
    /\ _allNotes w2 = _allNotes w
    /\ state_files w2 = delete N (state_files w)
    /\ text_files w2 = delete N (text_files w)
    /\ (forall r, is_Some (heap w !! r) -> heap w2 !! r = heap w !! r)
    /\ NoteBox._isBeingDestroyed (heap w2 !!! note) = true.
Proof.
  intros Halloc. rewrite createNote_unfold.
  pose proof (NoteBox_new_frame host (length (_allNotes w)) colorString
                fontSize w) as (Hn & _ & Ho & Hs & Ht & Hret).
  simpl in Hn, Ho, Hs, Ht, Hret.
  destruct (NoteBox_new host (length (_allNotes w)) colorString fontSize w)
    as [note1 w0|e w0]; [|discriminate 1].
  intros [= <- <-] N. simpl in Hn, Ho, Hs, Ht.
  destruct (Hret note1 w0 eq_refl) as (Hfresh & _ & Hid).
  assert (Hnotin : note1 ∉ _allNotes w).
  { intros Hin. apply Halloc in Hin as [v Hv]. congruence. }
  destruct (_deleteNoteObject_eval note1
              (set_allNotes (_allNotes w0 ++ [note1]) w0))
    as (w2 & Hrun & Hnotes & Hheap & Hstate & Htext & _).
  cbn [_allNotes heap state_files text_files set_allNotes] in *.
  rewrite Hid in Hstate, Htext. rewrite Hn in Hnotes.
  rewrite indexOf_app_fresh, delete_app_last in Hnotes by done.
  exists w2. split_and!; try done.
  - rewrite Hstate. apply map_eq. intros j.
    destruct (decide (j = N)) as [->|Hne].
    + by rewrite !lookup_delete_eq.
    + rewrite !lookup_delete_ne by done. by apply Hs.
  - rewrite Htext. apply map_eq. intros j.
    destruct (decide (j = N)) as [->|Hne].
    + by rewrite !lookup_delete_eq.
    + rewrite !lookup_delete_ne by done. by apply Ht.
  - intros r Hr. rewrite Hheap.
    rewrite lookup_insert_ne; [by apply Ho|].
    intros <-. destruct Hr as [v Hv]. congruence.
  - by rewrite Hheap, lookup_total_insert_eq.
Qed.

(** X23.  [_saveState] never throws, and the record it writes always
    holds a position made of integers, [NaN] never: a position that is not
    a number is drawn again and set before the record is written.  The
    other fields of the record are those of the note, and a note whose
    position is made of numbers is left as it is. *)
Theorem _saveState_record_holds_integers this w :
  exists w' d zx zy,
    _saveState host this w = Return tt w'
    /\ state_files w' !! NoteBox.id (heap w !!! this) = Some (Parsed d)
    /\ stateData.x d = JS.VNum (JS.of_Z zx)
    /\ stateData.y d = JS.VNum (JS.of_Z zy)
    /\ JS.VNum (JS.Math_floor (NoteBox._x (heap w' !!! this))) = stateData.x d
    /\ JS.VNum (JS.Math_floor (NoteBox._y (heap w' !!! this))) = stateData.y d
    /\ stateData.color d = JS.json (NoteBox.customColor (heap w !!! this))
    /\ stateData.fontSize d
       = JS.json (JS.VNum (NoteBox._fontSize (heap w !!! this)))
    /\ (JS.isNaN (NoteBox._x (heap w !!! this)) = false ->
        JS.isNaN (NoteBox._y (heap w !!! this)) = false ->
        heap w' = heap w).
Proof.
  destruct (_saveState_leaves_numbers host this w)
    as (w1 & Hrun & Hloc & Hx & Hy).
  destruct Hloc as [_ _ _ _ [Hfs _ Hc _ _ _ _] Hid _ _].
  destruct (NoteBox._x (heap w1 !!! this)) as [|qx] eqn:Ex; [done|].
  destruct (NoteBox._y (heap w1 !!! this)) as [|qy] eqn:Ey; [done|].
  exists (state_written this w1),
    (stateData.json (_saveState_stateData (heap w1 !!! this))),
    (Qfloor qx), (Qfloor qy).
  split; [exact Hrun|].
  unfold state_written.
  cbn [heap state_files set_journal set_state_files].
  rewrite Hid, lookup_insert_eq.
  unfold _saveState_stateData, stateData.json.
  cbn [stateData.x stateData.y stateData.color stateData.fontSize].
  rewrite Ex, Ey, Hc, Hfs. split_and!; try done.
  intros Hnx Hny. rewrite _saveState_numeric in Hrun by done.
  apply (f_equal world_of) in Hrun. apply (f_equal heap) in Hrun.
  by symmetry.
Qed.

End CreateDelete.

(** A directory in which [small_note] was saved under the id 0. *)
Definition saved_small_note : World :=
  mkWorld [] false ∅
    {[ O := Parsed (stateData.json (_saveState_stateData small_note)) ]}
    {[ O := "milk" ]} O [].

Lemma small_note_restorable : restorable full_hd small_note.
Proof.
  split; try (vm_compute; reflexivity).
  - split; reflexivity.
  - exists 245, 176, 65. split; vm_compute; reflexivity.
  - by exists false.
Qed.

Lemma restart_restores_note_witness :
  exists note w',
    createNote full_hd (JS.VStr "") (JS.of_Z 16) saved_small_note
    = Return note w'
    /\ heap w' !!! note = small_note.
Proof.
  destruct (restart_restores_note full_hd small_note (JS.VStr "") (JS.of_Z 16)
              saved_small_note small_note_restorable eq_refl eq_refl eq_refl)
    as (note & w' & Hrun & _ & Hnote & _).
  exists note, w'. split; [exact Hrun | exact Hnote].
Defined.

Lemma createNote_then__deleteNoteObject_witness :
  exists w2,
    _deleteNoteObject 0%nat (perform full_hd Create empty_world) = Return tt w2
    /\ _allNotes w2 = [].
Proof.
  assert (Halloc : allocated empty_world).
  { intros r Hr. destruct (not_elem_of_nil r Hr). }
  set (o := createNote full_hd (JS.VStr "") (JS.of_Z 16) empty_world).
  assert (Ho : o = Return 0%nat (world_of o)) by (vm_compute; reflexivity).
  destruct (createNote_then__deleteNoteObject full_hd _ _ _ _ _ Halloc Ho)
    as (w2 & Hrun & Hnotes & _).
  exists w2. split; [exact Hrun | exact Hnotes].
Defined.

(** ** The text that a new note shows *)

(** The text files, and the text and the id of [this], are kept. *)
Definition keeps_text (this : ref) (w w' : World) : Prop :=
  text_files w' = text_files w
  /\ NoteBox.noteEntry_text (heap w' !!! this)
     = NoteBox.noteEntry_text (heap w !!! this)
  /\ NoteBox.id (heap w' !!! this) = NoteBox.id (heap w !!! this).

#[global] Instance keeps_text_preorder this : PreOrder (keeps_text this).
Proof.
  split.
  - by intros w.
  - intros w1 w2 w3 (Ht & Hn & Hi) (Ht' & Hn' & Hi').
    unfold keeps_text. by rewrite Ht', Hn', Hi'.
Qed.

Section KeepsText.
Variable host : Host.
Variable this : ref.

Lemma log_keeps_text e : stable (keeps_text this) (log e).
Proof. apply stable_modify. by intros w. Qed.

Lemma write_state_file_keeps_text v :
  stable (keeps_text this) (write_state_file this v).
Proof. apply stable_modify. by intros w. Qed.

Lemma _computeRandomPosition_keeps_text :
  stable (keeps_text this) (_computeRandomPosition host).
Proof.
  intros w. destruct (_computeRandomPosition_draws host w) as (x & y & d & ->).
  by simpl.
Qed.

Lemma update_keeps_text (f : NoteBox.t -> NoteBox.t) :
  (forall n, NoteBox.noteEntry_text (f n) = NoteBox.noteEntry_text n) ->
  (forall n, NoteBox.id (f n) = NoteBox.id n) ->
  stable (keeps_text this) (update this f).
Proof.
  intros Ht Hi. apply stable_modify. intros w. unfold keeps_text. simpl.
  by rewrite lookup_total_insert_eq, Ht, Hi.
Qed.

End KeepsText.

Ltac keeps_text_step :=
  first
    [ apply stable_ret; apply _
    | apply stable_throw; apply _
    | apply stable_gets; apply _
    | apply log_keeps_text
    | apply write_state_file_keeps_text
    | apply _computeRandomPosition_keeps_text
    | apply update_keeps_text; intros ?; reflexivity
    | apply stable_bind; [ apply _ | | intros ? ]
    | apply stable_try_catch; [ apply _ | | intros ? ]
    | apply stable_if; [ apply _ | | ]
    | match goal with
      | |- stable _ (match ?x with _ => _ end) => destruct x
      | |- stable _ (if ?x then _ else _) => destruct x
      end ].

Ltac keeps_text_auto :=
  unfold deref, read_state_file, read_text_file; repeat keeps_text_step.

Section ShownText.
Variable host : Host.

Lemma _loadState_keeps_text this :
  stable (keeps_text this) (_loadState host this).
Proof.
  unfold _loadState, _loadState_try, _loadState_catch, JSON_parse.
  keeps_text_auto.
Qed.

Lemma loadIntoCorrectLayer_keeps_text this :
  stable (keeps_text this) (loadIntoCorrectLayer host this).
Proof. unfold loadIntoCorrectLayer. keeps_text_auto. Qed.

(** X24.  The note that [createNote] returns shows the text stored under
    its id: its text is what the text file of that id held, and the empty
    text when there was no such file, which is then created empty.  The
    text files of the other ids are as before, whatever the state file
    held. *)
Theorem createNote_shows_stored_text colorString fontSize w note w' :
  createNote host colorString fontSize w = Return note w' ->
  let N := length (_allNotes w) in
  let content := default "" (text_files w !! N) in
  NoteBox.noteEntry_text (heap w' !!! note) = content
  /\ text_files w' = <[N := content]> (text_files w).
Proof.
  rewrite createNote_unfold.
  destruct (NoteBox_new host (length (_allNotes w)) colorString fontSize w)
    as [note1 w5|e w5] eqn:Hnew; [|discriminate 1].
  intros [= <- <-] N content. cbn [heap text_files set_allNotes].
  destruct (NoteBox_new_unfold host (length (_allNotes w)) colorString
              fontSize w) as (x & y & d & Hunfold). simpl in Hunfold.
  rewrite Hunfold in Hnew. clear Hunfold.
  set (this := fresh (dom (heap w))) in *.
  match type of Hnew with NoteBox_load host this ?w0 = _ =>
    set (w2 := w0) in * end.
  unfold NoteBox_load in Hnew.
  apply bind_Return in Hnew as ([] & w3 & Hload & Hnew).
  apply bind_Return in Hnew as ([] & w4 & Htext & Hnew).
  apply bind_Return in Hnew as ([] & w6 & Hlayer & Hnew).
  injection Hnew as <- <-.
  pose proof (_loadState_keeps_text this w2) as (Ht3 & _ & Hi3).
  rewrite Hload in Ht3, Hi3. simpl in Ht3, Hi3.
  rewrite ?lookup_total_insert_eq in Hi3.
  cbn [NoteBox.id NoteBox_fields] in Hi3.
  destruct (_loadText_eval this w3) as (w4' & Hrun & Hh4 & Ht4 & _).
  rewrite Htext in Hrun. injection Hrun as <-.
  rewrite Hi3, Ht3 in Ht4, Hh4.
  change (text_files w2) with (text_files w) in Ht4, Hh4.
  pose proof (loadIntoCorrectLayer_keeps_text this w4) as (Ht6 & Hn6 & _).
  rewrite Hlayer in Ht6, Hn6. simpl in Ht6, Hn6.
  rewrite Ht6, Hn6, Ht4, Hh4, lookup_total_insert_eq. by split.
Qed.

End ShownText.

Lemma createNote_shows_stored_text_witness :
  NoteBox.noteEntry_text
    (heap (world_of (createNote full_hd (JS.VStr "") (JS.of_Z 16)
                       saved_small_note)) !!! 0%nat)
  = "milk".
Proof.
  set (o := createNote full_hd (JS.VStr "") (JS.of_Z 16) saved_small_note).
  assert (Ho : o = Return 0%nat (world_of o)) by (vm_compute; reflexivity).
  exact (proj1 (createNote_shows_stored_text full_hd _ _ _ _ _ Ho)).
Defined.
